(** * Extraction job orchestration: a shallow embedding

    The job executor of [backend/src/tasks.py], the extractor registry of
    [backend/src/factory.py], the extractor contract of
    [backend/src/interface.py] and the synchronous extractors of
    [backend/src/extractors/], embedded as Rocq functions.

    Python values are a small tagged union; dictionaries keep insertion
    order; floats are binary64 numbers; exceptions are values of an error
    type.  The database session, the Redis counters and the Celery queue
    are fields of an explicit world that every step of the executor
    threads; what the world outside answers (the clock, the file system,
    a failing connection) is read from an environment. *)

From Stdlib Require Import ZArith QArith Qround Qabs Lqa String Ascii List Bool Lia Floats.
From stdpp Require Import base option list gmap strings.

Set Warnings "-register-all,-inexact-float".

Local Open Scope string_scope.
Local Open Scope Z_scope.

(** ** Python values *)

Module Py.

(** Hashable keys of the dictionaries the code builds: page numbers and
    content-kind tags. *)
Inductive PyKey :=
| KInt (z : Z)
| KStr (s : string).

(** The values that flow between an extractor and the executor.  A [PyDict]
    is an association list in insertion order, as [dict.items()] yields it. *)
Inductive PyVal :=
| PyNone
| PyBool (b : bool)
| PyInt (z : Z)
| PyStr (s : string)
| PyList (l : list PyVal)
| PyDict (d : list (PyKey * PyVal)).

#[global] Instance PyKey_eq_dec : EqDecision PyKey.
Proof. solve_decision. Defined.

(** Exception classes the executor raises, catches or classifies.
    [SA_*] are SQLAlchemy's, [PG_DatabaseError] is psycopg2's, [CeleryRetry]
    is [celery.exceptions.Retry]; [OtherError] stands for any further
    subclass of [Exception] that derives from none of the named ones. *)
Inductive ExcClass :=
| AttributeError
| TypeError
| KeyError
| ValueError
| RuntimeError
| NotImplementedError
| OSError
| ConnectionError
| FileNotFoundError
| PermissionError
| TimeoutError
| SA_DatabaseError
| SA_OperationalError
| SA_IntegrityError
| SA_PendingRollbackError
| PG_DatabaseError
| PG_OperationalError
| CeleryRetry
| OtherError (name : string).

#[global] Instance ExcClass_eq_dec : EqDecision ExcClass.
Proof. solve_decision. Defined.

(** The named ancestors of a class, itself first (its [__mro__] up to, and
    without, [Exception]). *)
Definition mro (c : ExcClass) : list ExcClass :=
  match c with
  | NotImplementedError => [NotImplementedError; RuntimeError]
  | ConnectionError => [ConnectionError; OSError]
  | FileNotFoundError => [FileNotFoundError; OSError]
  | PermissionError => [PermissionError; OSError]
  | TimeoutError => [TimeoutError; OSError]
  | SA_OperationalError => [SA_OperationalError; SA_DatabaseError]
  | SA_IntegrityError => [SA_IntegrityError; SA_DatabaseError]
  | PG_OperationalError => [PG_OperationalError; PG_DatabaseError]
  | c => [c]
  end.

Definition issubclass (c parent : ExcClass) : bool :=
  bool_decide (parent ∈ mro c).

Record exn := Exc { exc_class : ExcClass; exc_msg : string }.

(** [isinstance(e, classes)] for a tuple of classes. *)
Definition isinstance (e : exn) (classes : list ExcClass) : bool :=
  existsb (issubclass (exc_class e)) classes.

(** The result of running a piece of Python: a value, or a raised
    exception. *)
Inductive Outcome (A : Type) :=
| Ok (a : A)
| Raise (e : exn).
Arguments Ok {A} a.
Arguments Raise {A} e.

#[global] Instance Outcome_ret : MRet Outcome := @Ok.
#[global] Instance Outcome_bind : MBind Outcome := λ A B f m,
  match m with
  | Ok a => f a
  | Raise e => Raise e
  end.

(** [bool(v)]. *)
Definition truthy (v : PyVal) : bool :=
  match v with
  | PyNone => false
  | PyBool b => b
  | PyInt z => negb (z =? 0)
  | PyStr s => negb (String.eqb s "")
  | PyList l => match l with [] => false | _ => true end
  | PyDict d => match d with [] => false | _ => true end
  end.

(** [a or b] on already evaluated operands. *)
Definition py_or (a b : PyVal) : PyVal := if truthy a then a else b.

Fixpoint assoc (k : PyKey) (d : list (PyKey * PyVal)) : option PyVal :=
  match d with
  | [] => None
  | (k', v) :: d' => if decide (k = k') then Some v else assoc k d'
  end.

(** [o.get(k, dflt)]: only a dictionary has a [get] attribute. *)
Definition py_get (o : PyVal) (k : string) (dflt : PyVal) : Outcome PyVal :=
  match o with
  | PyDict d => Ok (default dflt (assoc (KStr k) d))
  | _ => Raise (Exc AttributeError "object has no attribute 'get'")
  end.

(** [o.items()]. *)
Definition py_items (o : PyVal) : Outcome (list (PyKey * PyVal)) :=
  match o with
  | PyDict d => Ok d
  | _ => Raise (Exc AttributeError "object has no attribute 'items'")
  end.

(** [o[k]] for a string key [k]. *)
Definition py_getitem (o : PyVal) (k : string) : Outcome PyVal :=
  match o with
  | PyDict d =>
      match assoc (KStr k) d with
      | Some v => Ok v
      | None => Raise (Exc KeyError k)
      end
  | _ => Raise (Exc TypeError "object is not subscriptable by a string")
  end.

(** [len(o)]. *)
Definition py_len (o : PyVal) : Outcome Z :=
  match o with
  | PyDict d => Ok (Z.of_nat (length d))
  | PyList l => Ok (Z.of_nat (length l))
  | PyStr s => Ok (Z.of_nat (String.length s))
  | _ => Raise (Exc TypeError "object has no len()")
  end.

(** Characters are code points below 256; these are the ones for which
    [str.isspace] holds. *)
Definition is_space (c : ascii) : bool :=
  let n := N_of_ascii c in
  ((9 <=? n) && (n <=? 13) || (28 <=? n) && (n <=? 32)
   || (n =? 133) || (n =? 160))%N.

Fixpoint lstrip_chars (l : list ascii) : list ascii :=
  match l with
  | [] => []
  | c :: l' => if is_space c then lstrip_chars l' else l
  end.

Definition rstrip_chars (l : list ascii) : list ascii :=
  rev (lstrip_chars (rev l)).

(** [s.strip()] with no argument. *)
Definition strip (s : string) : string :=
  string_of_list_ascii (rstrip_chars (lstrip_chars (list_ascii_of_string s))).

(** [o.strip()]: only a string has it among the modelled values. *)
Definition py_strip (o : PyVal) : Outcome PyVal :=
  match o with
  | PyStr s => Ok (PyStr (strip s))
  | _ => Raise (Exc AttributeError "object has no attribute 'strip'")
  end.

(** A string with no character other than white space. *)
Definition blank (s : string) : bool :=
  forallb is_space (list_ascii_of_string s).

End Py.
Import Py.

(** ** The content validator ([tasks.py], [_has_meaningful_content]) *)

Module Validator.

(** [(data.get("COMBINED") or data.get("TEXT") or data.get("LATEX") or "").strip()];
    the operands of [or] are evaluated left to right and only as far as
    needed. *)
Definition page_text (data : PyVal) : Outcome PyVal :=
  c ← py_get data "COMBINED" PyNone;
  v ← (if truthy c then Ok c else
         t ← py_get data "TEXT" PyNone;
         if truthy t then Ok t else
           x ← py_get data "LATEX" PyNone;
           Ok (py_or x (PyStr "")));
  py_strip v.

(** The [for _p, body in pages.items()] loop. *)
Fixpoint scan_pages (items : list (PyKey * PyVal)) : Outcome bool :=
  match items with
  | [] => Ok false
  | (_, body) :: rest =>
      data ← py_get (py_or body (PyDict [])) "content" (PyDict []);
      text ← page_text data;
      if truthy text then Ok true else scan_pages rest
  end.

(** The body of the [try]. *)
Definition validator_body (pages : PyVal) : Outcome bool :=
  if negb (truthy pages) then Ok false
  else items ← py_items pages; scan_pages items.

(** [except Exception: return False]. *)
Definition _has_meaningful_content (pages : PyVal) : Outcome bool :=
  match validator_body pages with
  | Ok b => Ok b
  | Raise _ => Ok false
  end.

End Validator.
Import Validator.

(** ** Cost of a job ([tasks.py], [calculate_extraction_cost]) *)

Module Cost.

(** The rates, binary64 numbers as the literals of the source denote them. *)
Definition cost_per_page : gmap string float :=
  list_to_map
    [ ("PyPDF", 0.0%float); ("PyMuPDF", 0.0%float); ("PDFPlumber", 0.0%float);
      ("Camelot", 0.0%float);
      ("Textract", 0.0015%float); ("Tesseract", 0.0%float);
      ("gpt-4o-mini", 0.005%float); ("gpt-4o", 0.010%float); ("gpt-4-turbo", 0.015%float) ].

(** Nearest integer, a tie going to the even neighbour. *)
Definition round_half_even (x : Q) : Z :=
  let f := Qfloor x in
  match ((x - inject_Z f) ?= 1 # 2)%Q with
  | Lt => f
  | Gt => f + 1
  | Eq => if Z.even f then f else f + 1
  end.

(** The rational a finite binary64 number is. *)
Definition float_to_Q (x : float) : Q :=
  match Prim2SF x with
  | S754_finite s m e =>
      let v := (inject_Z (Z.pos m) * Qpower 2 e)%Q in
      if s then (- v)%Q else v
  | _ => 0%Q
  end.

(** [int(x)] for a finite float: its integer part, towards zero. *)
Definition float_to_Z (x : float) : Z :=
  match Prim2SF x with
  | S754_finite s m e =>
      let v := match e with
               | Z0 => Z.pos m
               | Zpos _ => Z.pos m * 2 ^ e
               | Zneg p => Z.pos m / 2 ^ Z.pos p
               end in
      if s then - v else v
  | _ => 0
  end.

(** [float(z)] for a Python integer (exact below 2^53). *)
Definition Z_to_float (z : Z) : float :=
  match z with
  | Z0 => 0%float
  | Zpos _ => PrimFloat.of_uint63 (Uint63.of_Z z)
  | Zneg p => (- PrimFloat.of_uint63 (Uint63.of_Z (Zpos p)))%float
  end.

(** [round(x, ndigits)] on a float, as CPython computes it: the decimal
    with [ndigits] digits after the point that is nearest to the exact
    value of [x], ties to even, and then the binary64 number nearest to
    that decimal (the correctly rounded quotient of two integers that are
    exact in binary64). *)
Definition py_round (x : float) (ndigits : nat) : float :=
  (Z_to_float (round_half_even (float_to_Q x * inject_Z (10 ^ Z.of_nat ndigits)))
   / Z_to_float (10 ^ Z.of_nat ndigits))%float.

Definition calculate_extraction_cost (extractor_type : string) (page_count : Z) : float :=
  let base_cost := default 0.001%float (cost_per_page !! extractor_type) in
  py_round (base_cost * Z_to_float page_count) 4.

End Cost.
Import Cost.

(** ** The extractor registry ([factory.py]) *)

Module Factory.

(** The classes of [backend/src/extractors/]; the OpenAI one is constructed
    with a model name. *)
Inductive ExtractorClass :=
| PyMuPDFExtractor
| PDFPlumberExtractor
| PyPDF2Extractor
| TesseractExtractor
| TextractExtractor
| MarkItDownExtractor
| LlamaParseExtractor
| MathpixExtractor
| OpenAIVisionExtractor (model_name : string).

(** An extractor object: its class and the one attribute its methods
    assign, [_last_result]. *)
Record ExtractorInstance := MkInstance {
  ext_class : ExtractorClass;
  _last_result : PyVal
}.

(** The object an [__init__] that returns leaves: [_last_result] is
    [None].  The credentials, endpoints and API clients that the remote
    classes also store are not part of the state modelled. *)
Definition construct (c : ExtractorClass) : ExtractorInstance :=
  {| ext_class := c; _last_result := PyNone |}.

(** What setting up the API clients answers.  [openai_OpenAI] is
    [openai.OpenAI(api_key=OPENAI_API_KEY)], which raises when there is no
    key.  [LlamaParseExtractor_init] is the constructor of
    [LlamaParseExtractor], whose file ([extractors/llamaparse.py]) is not
    among the sources. *)
Record Clients := {
  openai_OpenAI : Outcome unit;
  LlamaParseExtractor_init : Outcome unit
}.

(** Calling a class, or the lambda bound to a model name: [__init__] runs.
    The local classes, Textract (which builds its clients on first use) and
    Mathpix only assign attributes; [OpenAIVisionExtractor.__init__] ends by
    building its client. *)
Definition instantiate (clients : Clients) (c : ExtractorClass) : Outcome ExtractorInstance :=
  match c with
  | OpenAIVisionExtractor _ => openai_OpenAI clients ;; Ok (construct c)
  | LlamaParseExtractor => LlamaParseExtractor_init clients ;; Ok (construct c)
  | _ => Ok (construct c)
  end.

Definition READER_MAP : gmap string ExtractorClass :=
  list_to_map
    [ ("PyMuPDF", PyMuPDFExtractor);
      ("PDFPlumber", PDFPlumberExtractor);
      ("PyPDF2", PyPDF2Extractor);
      ("Tesseract", TesseractExtractor);
      ("Textract", TextractExtractor);
      ("MarkItDown", MarkItDownExtractor);
      ("LlamaParse", LlamaParseExtractor);
      ("Mathpix", MathpixExtractor);
      ("gpt-4o-mini", OpenAIVisionExtractor "gpt-4o-mini");
      ("gpt-4o", OpenAIVisionExtractor "gpt-4o");
      ("gpt-4-turbo", OpenAIVisionExtractor "gpt-4-turbo") ].

Definition get_reader (clients : Clients) (extractor_type : string) : Outcome ExtractorInstance :=
  match READER_MAP !! extractor_type with
  | None => Raise (Exc ValueError ("Unknown extractor type: " ++ extractor_type))
  | Some c => instantiate clients c
  end.

End Factory.
Import Factory.

(** ** The extractor contract and the local extractors *)

Module Extractors.

(** [PDFExtractorInterface]: the four operations the executor drives.  A
    method returns its result and the object as it leaves it.  [get_status]
    also receives the number of status checks made before it, so that a
    remote job can change state between two checks. *)
Record ExtractorImpl := {
  read : ExtractorInstance → string → Outcome PyVal * ExtractorInstance;
  get_status : ExtractorInstance → PyVal → nat → Outcome string * ExtractorInstance;
  get_result : ExtractorInstance → PyVal → Outcome PyVal * ExtractorInstance;
  supports_webhook : ExtractorInstance → bool
}.

(** What the PDF libraries answer: opening a file gives its pages, each
    with the outcome of extracting its text ([None] and [""] both stand for
    no text). *)
Record Libraries := {
  PdfReader : string → Outcome (list (Outcome (option string)));
  fitz_open : string → Outcome (list (Outcome (option string)));
  markitdown_convert : string → Outcome (option string)
}.

(** [d[k] = v]. *)
Fixpoint py_setitem (d : list (PyKey * PyVal)) (k : PyKey) (v : PyVal) : list (PyKey * PyVal) :=
  match d with
  | [] => [(k, v)]
  | (k', v') :: d' => if decide (k = k') then (k, v) :: d' else (k', v') :: py_setitem d' k v
  end.

Definition set_last_result (self : ExtractorInstance) (v : PyVal) : ExtractorInstance :=
  {| ext_class := ext_class self; _last_result := v |}.

(** The page record PyPDF2 builds for the 0-based index [page_num]. *)
Definition pypdf2_page (page_num : Z) (text : string) : PyVal :=
  PyDict [ (KStr "content", PyDict [(KStr "TEXT", PyStr text)]);
           (KStr "metadata", PyDict [(KStr "extractor", PyStr "PyPDF2");
                                     (KStr "page_number", PyInt (page_num + 1))]) ].

(** [for page_num in range(num_pages)], from index [page_num] on. *)
Fixpoint pypdf2_loop (pages : list (Outcome (option string))) (page_num : Z)
    (page_contents : list (PyKey * PyVal)) : Outcome (list (PyKey * PyVal)) :=
  match pages with
  | [] => Ok page_contents
  | page :: rest =>
      t ← page;
      let text := default "" t in
      pypdf2_loop rest (page_num + 1)
        (py_setitem page_contents (KInt (page_num + 1)) (pypdf2_page page_num text))
  end.

(** The dictionary PyPDF2 leaves in [page_contents]. *)
Definition pypdf2_page_contents (lib : Libraries) (file_path : string) : PyVal :=
  match (pages ← PdfReader lib file_path; pypdf2_loop pages 0 []) with
  | Ok d => PyDict d
  | Raise e =>
      PyDict [ (KInt 1, PyDict [ (KStr "content", PyDict [(KStr "TEXT", PyStr "")]);
                                 (KStr "metadata", PyDict [(KStr "error", PyStr (exc_msg e))]) ]) ]
  end.

(** [PyPDF2Extractor.read]. *)
Definition PyPDF2_read (lib : Libraries) (self : ExtractorInstance) (file_path : string)
    : Outcome PyVal * ExtractorInstance :=
  let page_contents := pypdf2_page_contents lib file_path in
  (Ok (PyBool true), set_last_result self page_contents).

(** [get_status] and [get_result] of every synchronous extractor. *)
Definition sync_get_status (self : ExtractorInstance) (job_id : PyVal) (_ : nat)
    : Outcome string * ExtractorInstance :=
  (Ok "succeeded", self).

Definition sync_get_result (self : ExtractorInstance) (job_id : PyVal)
    : Outcome PyVal * ExtractorInstance :=
  (Ok (_last_result self), self).

Definition PyPDF2 (lib : Libraries) : ExtractorImpl :=
  {| read := PyPDF2_read lib;
     get_status := sync_get_status;
     get_result := sync_get_result;
     supports_webhook := λ _, false |}.

(** [PyMuPDFExtractor.read]: no [try]; a failure of the library escapes. *)
Fixpoint pymupdf_loop (pages : list (Outcome (option string))) (page_num : Z)
    (page_contents : list (PyKey * PyVal)) : Outcome (list (PyKey * PyVal)) :=
  match pages with
  | [] => Ok page_contents
  | page :: rest =>
      t ← page;
      let text := default "" t in
      pymupdf_loop rest (page_num + 1)
        (py_setitem page_contents (KInt (page_num + 1))
           (PyDict [(KStr "content", PyDict [(KStr "TEXT", PyStr text)])]))
  end.

Definition PyMuPDF_read (lib : Libraries) (self : ExtractorInstance) (file_path : string)
    : Outcome PyVal * ExtractorInstance :=
  match (pages ← fitz_open lib file_path; pymupdf_loop pages 0 []) with
  | Ok d => (Ok (PyBool true), set_last_result self (PyDict d))
  | Raise e => (Raise e, self)
  end.

Definition PyMuPDF (lib : Libraries) : ExtractorImpl :=
  {| read := PyMuPDF_read lib;
     get_status := sync_get_status;
     get_result := sync_get_result;
     supports_webhook := λ _, false |}.

(** [MarkItDownExtractor.read]: the whole document as page 1. *)
Definition markitdown_page_contents (lib : Libraries) (file_path : string) : PyVal :=
  match markitdown_convert lib file_path with
  | Ok t =>
      let text_content := default "" t in
      PyDict [ (KInt 1, PyDict [ (KStr "content", PyDict [ (KStr "MARKDOWN", PyStr text_content);
                                                           (KStr "TEXT", PyStr text_content);
                                                           (KStr "COMBINED", PyStr text_content) ]);
                                 (KStr "metadata", PyDict [ (KStr "extractor", PyStr "MarkItDown");
                                                            (KStr "format", PyStr "markdown");
                                                            (KStr "total_pages", PyInt 1) ]) ]) ]
  | Raise e =>
      PyDict [ (KInt 1, PyDict [ (KStr "content", PyDict [ (KStr "MARKDOWN", PyStr "");
                                                           (KStr "TEXT", PyStr "");
                                                           (KStr "COMBINED", PyStr "") ]);
                                 (KStr "metadata", PyDict [(KStr "error", PyStr (exc_msg e))]) ]) ]
  end.

Definition MarkItDown_read (lib : Libraries) (self : ExtractorInstance) (file_path : string)
    : Outcome PyVal * ExtractorInstance :=
  let page_contents := markitdown_page_contents lib file_path in
  (Ok page_contents, set_last_result self page_contents).

Definition MarkItDown (lib : Libraries) : ExtractorImpl :=
  {| read := MarkItDown_read lib;
     get_status := sync_get_status;
     get_result := sync_get_result;
     supports_webhook := λ _, false |}.

(** Method dispatch on the object's class.  The three local extractors
    above are the code of the repository; [remote] answers for the classes
    whose work is done by an external service or library. *)
Definition dispatch (lib : Libraries) (remote : ExtractorImpl) (c : ExtractorClass) : ExtractorImpl :=
  match c with
  | PyPDF2Extractor => PyPDF2 lib
  | PyMuPDFExtractor => PyMuPDF lib
  | MarkItDownExtractor => MarkItDown lib
  | _ => remote
  end.

Definition repo_impl (lib : Libraries) (remote : ExtractorImpl) : ExtractorImpl :=
  {| read := λ self, read (dispatch lib remote (ext_class self)) self;
     get_status := λ self, get_status (dispatch lib remote (ext_class self)) self;
     get_result := λ self, get_result (dispatch lib remote (ext_class self)) self;
     supports_webhook := λ self, supports_webhook (dispatch lib remote (ext_class self)) self |}.

End Extractors.
Import Extractors.

(** ** The job executor ([tasks.py]) *)

Module Tasks.

(** [models/enums.py]. *)
Inductive ExtractionStatus := NOT_STARTED | PROCESSING | SUCCESS | FAILURE.

#[global] Instance ExtractionStatus_eq_dec : EqDecision ExtractionStatus.
Proof. solve_decision. Defined.

(** A row of [document_extraction_jobs], keyed by its uuid in the store. *)
Record DocumentExtractionJob := {
  document_uuid_of : string;
  extractor : string;
  status : ExtractionStatus;
  start_time : option Z;
  end_time : option Z;
  latency_ms : option Z;
  cost : option float
}.

(** A row of [document_page_content] ([models/database.py]). *)
Record DocumentPageContent := {
  uuid : string;
  extraction_job_uuid : string;
  page_number : PyKey;
  content : PyVal;
  metadata_ : PyVal;
  deleted_at : option Z
}.

(** The tables the executor reads and writes; [documents] maps a document
    uuid to its file name. *)
Record Store := {
  jobs : gmap string DocumentExtractionJob;
  documents : gmap string string;
  page_rows : list DocumentPageContent
}.

(** A message on the Celery queue: the task's arguments, the retry count
    it will run with and the delay before it runs. *)
Record TaskMessage := {
  tm_job_uuid : string;
  tm_document_uuid : string;
  tm_file_path : string;
  tm_extractor_type : string;
  tm_retries : nat;
  tm_countdown : Z
}.

(** Calls that leave the process. *)
Inductive Event :=
| EvDownload (document_uuid file_path filename : string)
| EvRead (file_path : string)
| EvGetStatus (job_id : PyVal)
| EvSleep (seconds : Z)
| EvGetResult (job_id : PyVal)
| EvMarkComplete (document_uuid job_uuid : string)
| EvMarkFailed (document_uuid job_uuid : string).

(** Everything a run can change.  [session] is the open transaction's view
    of the tables, [committed] what a commit has made durable.  [recorded]
    lists the job-status writes that were committed, oldest first, and
    [unrecorded] those of the open transaction. *)
Record World := {
  committed : Store;
  session : Store;
  recorded : list (string * ExtractionStatus);
  unrecorded : list (string * ExtractionStatus);
  redis : gmap string Z;
  ttl : gmap string Z;
  queue : list TaskMessage;
  trace : list Event
}.

(** The places where a call to Redis, the database, the file coordinator or
    the queue may raise. *)
Inductive CallSite :=
| redis_get
| redis_incr
| redis_expire
| redis_delete
| db_execute_processing
| db_commit_processing
| db_query_document
| download_file
| db_execute_success
| db_commit_success
| db_rollback
| db_execute_failure
| db_commit_failure
| session_rollback
| session_close
| notify_complete
| notify_failed
| celery_apply_async.

(** What the surroundings answer during one run. *)
Record Env := {
  fault : CallSite → option exn;
  now_start : Z;
  now_end : Z;
  path_exists : string → bool;
  shared_path : string;
  uuid4 : nat → string;
  clients : Clients
}.

(** The values of [src/constants.py], which is not among the files
    embedded here, are parameters. *)
Record RetryConfig := { countdown : Z; max_retries : nat }.

Record Constants := {
  EXTRACTOR_RETRY_CONFIG : gmap string RetryConfig;
  DEFAULT_RETRY_CONFIG : RetryConfig;
  CIRCUIT_BREAKER_THRESHOLD : Z;
  CIRCUIT_BREAKER_TIMEOUT : Z
}.

(** How a computation ends: with a value, with an exception, or not at all
    within the allowed number of polls. *)
Inductive Run (A : Type) :=
| Ret (a : A)
| Exn (e : exn)
| OutOfFuel.
Arguments Ret {A} a.
Arguments Exn {A} e.
Arguments OutOfFuel {A}.

Definition M (A : Type) : Type := World → Run A * World.

#[global] Instance M_ret : MRet M := λ A a w, (Ret a, w).
#[global] Instance M_bind : MBind M := λ A B f m w,
  match m w with
  | (Ret a, w') => f a w'
  | (Exn e, w') => (Exn e, w')
  | (OutOfFuel, w') => (OutOfFuel, w')
  end.

Definition raise {A} (e : exn) : M A := λ w, (Exn e, w).
Definition out_of_fuel {A} : M A := λ w, (OutOfFuel, w).
Definition get_world : M World := λ w, (Ret w, w).
Definition modify (f : World → World) : M unit := λ w, (Ret tt, f w).
Definition lift {A} (o : Outcome A) : M A :=
  match o with
  | Ok a => mret a
  | Raise e => raise e
  end.
Definition when (b : bool) (m : M unit) : M unit := if b then m else mret tt.

(** [try: body except Exception as e: handler e]. *)
Definition try_except {A} (body : M A) (handler : exn → M A) : M A := λ w,
  match body w with
  | (Exn e, w') => handler e w'
  | r => r
  end.

(** [try: body except Exception: log] *)
Definition try_log (body : M unit) : M unit := try_except body (λ _, mret tt).

(** [try: body finally: cleanup]. *)
Definition finally {A} (body : M A) (cleanup : M unit) : M A := λ w,
  match body w with
  | (Ret a, w') => (cleanup ;; mret a) w'
  | (Exn e, w') => (cleanup ;; raise e) w'
  | (OutOfFuel, w') => (OutOfFuel, w')
  end.

Definition set_committed (s : Store) (w : World) : World :=
  {| committed := s; session := session w; recorded := recorded w;
     unrecorded := unrecorded w; redis := redis w; ttl := ttl w;
     queue := queue w; trace := trace w |}.
Definition set_session (s : Store) (w : World) : World :=
  {| committed := committed w; session := s; recorded := recorded w;
     unrecorded := unrecorded w; redis := redis w; ttl := ttl w;
     queue := queue w; trace := trace w |}.
Definition set_recorded (r u : list (string * ExtractionStatus)) (w : World) : World :=
  {| committed := committed w; session := session w; recorded := r;
     unrecorded := u; redis := redis w; ttl := ttl w;
     queue := queue w; trace := trace w |}.
Definition set_redis (r t : gmap string Z) (w : World) : World :=
  {| committed := committed w; session := session w; recorded := recorded w;
     unrecorded := unrecorded w; redis := r; ttl := t;
     queue := queue w; trace := trace w |}.
Definition set_queue (q : list TaskMessage) (w : World) : World :=
  {| committed := committed w; session := session w; recorded := recorded w;
     unrecorded := unrecorded w; redis := redis w; ttl := ttl w;
     queue := q; trace := trace w |}.
Definition set_trace (t : list Event) (w : World) : World :=
  {| committed := committed w; session := session w; recorded := recorded w;
     unrecorded := unrecorded w; redis := redis w; ttl := ttl w;
     queue := queue w; trace := t |}.

Definition emit (ev : Event) : M unit := modify (λ w, set_trace (trace w ++ [ev]) w).

Definition set_jobs (j : gmap string DocumentExtractionJob) (s : Store) : Store :=
  {| jobs := j; documents := documents s; page_rows := page_rows s |}.
Definition set_page_rows (p : list DocumentPageContent) (s : Store) : Store :=
  {| jobs := jobs s; documents := documents s; page_rows := p |}.

(** [.values(status=PROCESSING, start_time=start_time)]. *)
Definition values_processing (start : Z) (j : DocumentExtractionJob) : DocumentExtractionJob :=
  {| document_uuid_of := document_uuid_of j; extractor := extractor j;
     status := PROCESSING; start_time := Some start;
     end_time := end_time j; latency_ms := latency_ms j; cost := cost j |}.

(** [.values(status=st, end_time=.., latency_ms=.., cost=..)]. *)
Definition values_final (st : ExtractionStatus) (finish latency : Z) (c : float)
    (j : DocumentExtractionJob) : DocumentExtractionJob :=
  {| document_uuid_of := document_uuid_of j; extractor := extractor j;
     status := st; start_time := start_time j;
     end_time := Some finish; latency_ms := Some latency; cost := Some c |}.

(** [int((end_time - start_time).total_seconds() * 1000)], the clock read
    in microseconds.  [total_seconds()] is the correctly rounded quotient
    of the microseconds by [10**6], which the binary64 division gives
    whenever the microseconds are exact in binary64 (below 2^53, 285
    years); the product with 1000 is rounded again, and [int] takes the
    integer part. *)
Definition total_seconds (microseconds : Z) : float :=
  (Z_to_float microseconds / 1000000)%float.

Definition latency_of (start finish : Z) : Z :=
  float_to_Z (total_seconds (finish - start) * 1000)%float.

Definition circuit_key (extractor_type : string) : string :=
  "circuit_breaker:" ++ extractor_type.

Section Executor.

Context (K : Constants) (impl : ExtractorImpl) (env : Env).

(** A call that may fail where the surroundings say so. *)
Definition ext (cs : CallSite) : M unit :=
  match fault env cs with
  | Some e => raise e
  | None => mret tt
  end.

(** [db.execute(update(DocumentExtractionJob).where(uuid == job_uuid).values(..))]:
    [st] is the status the statement writes. *)
Definition db_execute_update (cs : CallSite) (job_uuid : string) (st : ExtractionStatus)
    (f : DocumentExtractionJob → DocumentExtractionJob) : M unit :=
  ext cs ;;
  modify (λ w,
    match jobs (session w) !! job_uuid with
    | Some _ =>
        set_recorded (recorded w) (unrecorded w ++ [(job_uuid, st)])
          (set_session (set_jobs (alter f job_uuid (jobs (session w))) (session w)) w)
    | None => w
    end).

Definition db_commit (cs : CallSite) : M unit :=
  ext cs ;;
  modify (λ w, set_recorded (recorded w ++ unrecorded w) [] (set_committed (session w) w)).

(** [db.rollback()]: whether or not the call raises, nothing of the open
    transaction is left to be committed. *)
Definition db_rollback_at (cs : CallSite) : M unit :=
  modify (λ w, set_recorded (recorded w) [] (set_session (committed w) w)) ;;
  ext cs.

Definition db_add (row : DocumentPageContent) : M unit :=
  modify (λ w, set_session (set_page_rows (page_rows (session w) ++ [row]) (session w)) w).

(** [get_db_session_context]: a new session; on an exception roll back and
    re-raise; close the session in any case. *)
Definition get_db_session_context {A} (body : M A) : M A :=
  modify (λ w, set_recorded (recorded w) [] (set_session (committed w) w)) ;;
  finally
    (try_except body (λ e, try_log (db_rollback_at session_rollback) ;; raise e))
    (try_log (ext session_close ;;
              modify (λ w, set_recorded (recorded w) [] (set_session (committed w) w)))).

Definition get_retry_config (extractor_type : string) : RetryConfig :=
  default (DEFAULT_RETRY_CONFIG K) (EXTRACTOR_RETRY_CONFIG K !! extractor_type).

Definition is_infrastructure_error (exception : exn) : bool :=
  isinstance exception
    [ SA_DatabaseError; SA_OperationalError; SA_PendingRollbackError; PG_DatabaseError;
      ConnectionError; FileNotFoundError; OSError ].

(** The stored counter is open once it has reached the threshold; a missing
    key is a closed breaker. *)
Definition check_circuit_breaker (extractor_type : string) : M bool :=
  ext redis_get ;;
  w ← get_world;
  match redis w !! circuit_key extractor_type with
  | Some failure_count => mret (CIRCUIT_BREAKER_THRESHOLD K <=? failure_count)
  | None => mret false
  end.

Definition record_extractor_failure (extractor_type : string) : M unit :=
  ext redis_incr ;;
  modify (λ w, set_redis (<[circuit_key extractor_type :=
                             default 0 (redis w !! circuit_key extractor_type) + 1]> (redis w))
                         (ttl w) w) ;;
  ext redis_expire ;;
  modify (λ w, set_redis (redis w)
                         (<[circuit_key extractor_type := CIRCUIT_BREAKER_TIMEOUT K]> (ttl w)) w).

Definition reset_circuit_breaker (extractor_type : string) : M unit :=
  ext redis_delete ;;
  modify (λ w, set_redis (delete (circuit_key extractor_type) (redis w))
                         (delete (circuit_key extractor_type) (ttl w)) w).

Definition mark_task_complete (document_uuid job_uuid : string) : M unit :=
  ext notify_complete ;; emit (EvMarkComplete document_uuid job_uuid).

Definition mark_task_failed (document_uuid job_uuid : string) : M unit :=
  ext notify_failed ;; emit (EvMarkFailed document_uuid job_uuid).

Definition download_to_shared_volume (document_uuid file_path filename : string) : M string :=
  ext download_file ;;
  emit (EvDownload document_uuid file_path filename) ;;
  mret (shared_path env).

(** A method call on the reader: the call is traced, its result is the
    implementation's. *)
Definition call {A} (ev : Event) (r : Outcome A * ExtractorInstance) : M (A * ExtractorInstance) :=
  emit ev ;;
  a ← lift (fst r);
  mret (a, snd r).

Definition is_get_status (ev : Event) : bool :=
  match ev with EvGetStatus _ => true | _ => false end.

Definition reader_get_status (reader : ExtractorInstance) (job_id : PyVal) : M (string * ExtractorInstance) :=
  w ← get_world;
  call (EvGetStatus job_id)
       (get_status impl reader job_id (length (filter is_get_status (trace w)))).

Definition finished (status : string) : bool :=
  bool_decide (status ∈ ["succeeded"; "failed"]).

(** [while status not in ["succeeded", "failed"]: sleep(5); status = get_status(job_id)],
    for at most [fuel] rounds. *)
Fixpoint poll (fuel : nat) (reader : ExtractorInstance) (job_id : PyVal) (status : string)
    : M (string * ExtractorInstance) :=
  if finished status then mret (status, reader)
  else
    match fuel with
    | O => out_of_fuel
    | S fuel' =>
        emit (EvSleep 5) ;;
        '(status', reader') ← reader_get_status reader job_id;
        poll fuel' reader' job_id status'
    end.

Definition is_dict (v : PyVal) : bool :=
  match v with PyDict _ => true | _ => false end.

(** Lines 205-225: start the extraction and obtain [page_contents]. *)
Definition extract (fuel : nat) (reader : ExtractorInstance) (local_file_path : string) : M PyVal :=
  '(result_or_job_id, reader) ← call (EvRead local_file_path) (read impl reader local_file_path);
  if supports_webhook impl reader then mret PyNone
  else if is_dict result_or_job_id then mret result_or_job_id
  else
    let job_id := result_or_job_id in
    '(status, reader) ← reader_get_status reader job_id;
    '(status, reader) ← poll fuel reader job_id status;
    when (String.eqb status "failed")
         (raise (Exc RuntimeError "Extraction failed for job")) ;;  (* the job id left out *)
    '(page_contents, _) ← call (EvGetResult job_id) (get_result impl reader job_id);
    mret page_contents.

(** [DocumentPageContent(uuid=.., extraction_job_uuid=.., page_number=.., content=..)]:
    the columns not named keep their defaults, [metadata_] an empty dict. *)
Definition new_page_row (id job_uuid : string) (page_num : PyKey) (c : PyVal) : DocumentPageContent :=
  {| uuid := id; extraction_job_uuid := job_uuid; page_number := page_num;
     content := c; metadata_ := PyDict []; deleted_at := None |}.

(** [for page_num, content in page_contents.items(): db.add(..)]. *)
Fixpoint add_pages (job_uuid : string) (items : list (PyKey * PyVal)) : M unit :=
  match items with
  | [] => mret tt
  | (page_num, content) :: rest =>
      c ← lift (py_getitem content "content");
      w ← get_world;
      db_add (new_page_row (uuid4 env (length (page_rows (session w)))) job_uuid page_num c) ;;
      add_pages job_uuid rest
  end.

(** Lines 246-264: validate, then add one row per page. *)
Definition validate_and_save (job_uuid extractor_type : string) (page_contents : PyVal) : M unit :=
  ok ← lift (_has_meaningful_content page_contents);
  when (negb ok)
       (raise (Exc RuntimeError ("No meaningful content extracted by " ++ extractor_type))) ;;
  when (truthy page_contents)
       (items ← lift (py_items page_contents); add_pages job_uuid items).

(** [self.retry(exc=e, countdown=.., max_retries=..)] of a Celery task that
    runs with [retries] earlier retries: past the limit the original
    exception is raised; otherwise the same arguments are sent again and
    [Retry] is raised. *)
Definition self_retry (retries : nat) (job_uuid document_uuid file_path extractor_type : string)
    (exc : exn) (delay : Z) (limit : nat) : M unit :=
  if (limit <? retries + 1)%nat then raise exc
  else
    ext celery_apply_async ;;
    modify (λ w, set_queue (queue w ++
      [ {| tm_job_uuid := job_uuid; tm_document_uuid := document_uuid;
           tm_file_path := file_path; tm_extractor_type := extractor_type;
           tm_retries := (retries + 1)%nat; tm_countdown := delay |} ]) w) ;;
    raise (Exc CeleryRetry (exc_msg exc)).

(** Lines 178-201: find the document row and a local path for the file. *)
Definition locate_file (document_uuid file_path : string) : M string :=
  ext db_query_document ;;
  w ← get_world;
  match documents (session w) !! document_uuid with
  | None => raise (Exc RuntimeError ("Document " ++ document_uuid ++ " not found"))
  | Some filename =>
      if String.prefix "projects/" file_path then
        download_to_shared_volume document_uuid file_path filename
      else if path_exists env file_path then mret file_path
      else raise (Exc RuntimeError ("File not found: " ++ file_path))
  end.

(** Lines 202-264: construct the reader, run it, validate and add the page
    rows; the value is [page_contents]. *)
Definition run_extraction (fuel : nat) (job_uuid extractor_type local_file_path : string) : M PyVal :=
  reader ← lift (get_reader (clients env) extractor_type);
  page_contents ← extract fuel reader local_file_path;
  validate_and_save job_uuid extractor_type page_contents ;;
  mret page_contents.

(** Lines 265-289: latency and cost, the SUCCESS update and its commit, the
    breaker reset and the completion notice. *)
Definition record_success (job_uuid document_uuid extractor_type : string) (page_contents : PyVal)
    : M unit :=
  let end_time := now_end env in
  let latency := latency_of (now_start env) end_time in
  page_count ← (if truthy page_contents then lift (py_len page_contents) else mret 0);
  let c := calculate_extraction_cost extractor_type page_count in
  db_execute_update db_execute_success job_uuid SUCCESS (values_final SUCCESS end_time latency c) ;;
  db_commit db_commit_success ;;
  reset_circuit_breaker extractor_type ;;
  mark_task_complete document_uuid job_uuid.

(** The body of the [try] (lines 165-289). *)
Definition try_body (fuel : nat) (job_uuid document_uuid file_path extractor_type : string) : M unit :=
  open ← check_circuit_breaker extractor_type;
  when open
       (raise (Exc RuntimeError ("Circuit breaker is OPEN for " ++ extractor_type
                               ++ ". Too many recent failures. Try again later."))) ;;
  db_execute_update db_execute_processing job_uuid PROCESSING (values_processing (now_start env)) ;;
  db_commit db_commit_processing ;;
  local_file_path ← locate_file document_uuid file_path;
  page_contents ← run_extraction fuel job_uuid extractor_type local_file_path;
  record_success job_uuid document_uuid extractor_type page_contents.

(** The [except Exception as e] clause (lines 290-340). *)
Definition failure_path (retries : nat) (job_uuid document_uuid file_path extractor_type : string)
    (e : exn) : M unit :=
  let end_time := now_end env in
  let latency := latency_of (now_start env) end_time in
  try_log (db_rollback_at db_rollback) ;;
  try_log (db_execute_update db_execute_failure job_uuid FAILURE
             (values_final FAILURE end_time latency 0.0%float) ;;
           db_commit db_commit_failure) ;;
  record_extractor_failure extractor_type ;;
  if is_infrastructure_error e then
    mark_task_failed document_uuid job_uuid ;;
    raise e
  else
    mark_task_failed document_uuid job_uuid ;;
    let retry_config := get_retry_config extractor_type in
    self_retry retries job_uuid document_uuid file_path extractor_type
               e (countdown retry_config) (max_retries retry_config).

(** The task.  The [finally] clause removes [temp_file_path], which is
    [None] on every path, so it does nothing. *)
Definition process_document_with_extractor (fuel retries : nat)
    (job_uuid document_uuid file_path extractor_type : string) : M unit :=
  get_db_session_context
    (try_except (try_body fuel job_uuid document_uuid file_path extractor_type)
                (failure_path retries job_uuid document_uuid file_path extractor_type)).

End Executor.

End Tasks.
Import Tasks.

(** ** The normalized page map, typed *)

Module Pages.

(** A page of a normalized page map: content by kind tag, and the optional
    metadata. *)
Record NormalizedPage := {
  page_content : list (string * string);
  page_metadata : option (list (PyKey * PyVal))
}.

Definition encode_content (c : list (string * string)) : PyVal :=
  PyDict (map (λ kv, (KStr kv.1, PyStr kv.2)) c).

Definition encode_page (p : NormalizedPage) : PyVal :=
  PyDict ((KStr "content", encode_content (page_content p))
          :: match page_metadata p with
             | Some m => [(KStr "metadata", PyDict m)]
             | None => []
             end).

(** The Python value of a page map given as (page number, page) pairs. *)
Definition encode (pages : list (Z * NormalizedPage)) : PyVal :=
  PyDict (map (λ np, (KInt np.1, encode_page np.2)) pages).

Fixpoint lookup_tag (tag : string) (c : list (string * string)) : option string :=
  match c with
  | [] => None
  | (t, s) :: c' => if decide (tag = t) then Some s else lookup_tag tag c'
  end.

(** The text under a tag, empty when the tag is absent. *)
Definition text_of (p : NormalizedPage) (tag : string) : string :=
  default "" (lookup_tag tag (page_content p)).

(** The text the validator looks at: the first non-empty one of the
    [COMBINED], [TEXT] and [LATEX] values. *)
Definition selected_text (p : NormalizedPage) : string :=
  if negb (String.eqb (text_of p "COMBINED") "") then text_of p "COMBINED"
  else if negb (String.eqb (text_of p "TEXT") "") then text_of p "TEXT"
  else text_of p "LATEX".

(** The kind tags the specification lists. *)
Definition recognized_tags : list string :=
  ["TEXT"; "COMBINED"; "TABLE"; "LATEX"; "MARKDOWN"].

(** The validator in the specification's words: meaningful when some page
    has a non-blank value under some recognized tag. *)
Definition spec_isMeaningful (pages : list (Z * NormalizedPage)) : bool :=
  existsb (λ np, existsb (λ tag, negb (blank (text_of np.2 tag))) recognized_tags) pages.

(** The tags the code reads. *)
Definition validator_tags : list string := ["COMBINED"; "TEXT"; "LATEX"].

End Pages.
Import Pages.

(** ** Vocabulary of the statements *)

(** The cost in exact decimal arithmetic: the rates as the decimals the
    source writes, the product and its rounding without binary error. *)
Definition decimal_cost_per_page : gmap string Q :=
  list_to_map
    [ ("PyPDF", 0%Q); ("PyMuPDF", 0%Q); ("PDFPlumber", 0%Q); ("Camelot", 0%Q);
      ("Textract", 15 # 10000); ("Tesseract", 0%Q);
      ("gpt-4o-mini", 5 # 1000); ("gpt-4o", 10 # 1000); ("gpt-4-turbo", 15 # 1000) ].

(** The per-page rate of an extractor, the default for one not listed. *)
Definition decimal_rate (extractor_type : string) : Q :=
  default (1 # 1000) (decimal_cost_per_page !! extractor_type).

(** A rational rounded to [ndigits] decimals, ties to even. *)
Definition decimal_round (q : Q) (ndigits : nat) : Q :=
  Qmake (round_half_even (q * inject_Z (10 ^ Z.of_nat ndigits)))
        (Z.to_pos (10 ^ Z.of_nat ndigits)).

Definition decimal_cost (extractor_type : string) (page_count : Z) : Q :=
  decimal_round (decimal_rate extractor_type * inject_Z page_count) 4.

(** The binary64 number nearest to a rational whose numerator and
    denominator are exact in binary64. *)
Definition Q_to_float (q : Q) : float :=
  (Z_to_float (Qnum q) / Z_to_float (Z.pos (Qden q)))%float.

(** The float cost is the binary64 number nearest to the decimal cost, for
    every page count up to [n]. *)
Definition costs_agree (extractor_type : string) (n : nat) : bool :=
  forallb (λ k, PrimFloat.eqb (calculate_extraction_cost extractor_type (Z.of_nat k))
                              (Q_to_float (decimal_cost extractor_type (Z.of_nat k))))
          (seq 0 (S n)).

(** The identifiers with a listed rate. *)
Definition priced : list string :=
  [ "PyPDF"; "PyMuPDF"; "PDFPlumber"; "Camelot"; "Textract"; "Tesseract";
    "gpt-4o-mini"; "gpt-4o"; "gpt-4-turbo" ].

(** [retry_message] is the message [self_retry] puts on the queue. *)
Definition retry_message (retries : nat) (job_uuid document_uuid file_path extractor_type : string)
    (delay : Z) : TaskMessage :=
  {| tm_job_uuid := job_uuid; tm_document_uuid := document_uuid;
     tm_file_path := file_path; tm_extractor_type := extractor_type;
     tm_retries := (retries + 1)%nat; tm_countdown := delay |}.

(** The world a new session starts from: nothing pending. *)
Definition open_session (w : World) : World :=
  set_recorded (recorded w) [] (set_session (committed w) w).

(** Two worlds that agree on everything that outlives the session. *)
Definition same_durable (w w' : World) : Prop :=
  committed w' = committed w ∧ recorded w' = recorded w ∧ redis w' = redis w
  ∧ ttl w' = ttl w ∧ queue w' = queue w ∧ trace w' = trace w.

(** A computation all of whose runs relate the world before to the world
    after. *)
Definition preserves {A} (R : World → World → Prop) (m : M A) : Prop :=
  ∀ w, R w (m w).2.

(** Only the pending page rows and the trace may differ. *)
Definition only_pages_and_trace (w w' : World) : Prop :=
  committed w' = committed w
  ∧ jobs (session w') = jobs (session w)
  ∧ documents (session w') = documents (session w)
  ∧ recorded w' = recorded w
  ∧ unrecorded w' = unrecorded w
  ∧ redis w' = redis w
  ∧ ttl w' = ttl w
  ∧ queue w' = queue w.

(** The job row is there, in the committed table and in the session's view. *)
Definition job_known (j : string) (w : World) : Prop :=
  is_Some (jobs (committed w) !! j) ∧ is_Some (jobs (session w) !! j).

Definition try_frame (j : string) (w w' : World) : Prop :=
  queue w' = queue w ∧ (job_known j w → job_known j w').

Definition same_pending_rows (w w' : World) : Prop :=
  page_rows (session w') = page_rows (session w).

(** A stored row made from one item of the page map: the page's ["content"]
    entry and nothing else of the page. *)
Definition row_of_page (job_uuid : string) (row : DocumentPageContent) (item : PyKey * PyVal) : Prop :=
  extraction_job_uuid row = job_uuid
  ∧ page_number row = item.1
  ∧ py_getitem item.2 "content" = Ok (content row)
  ∧ metadata_ row = PyDict []
  ∧ deleted_at row = None.

(** The statuses the job has held: the one it was created with, then the
    committed writes to its row. *)
Definition status_sequence (j : string) (initial : ExtractionStatus) (w : World)
    : list ExtractionStatus :=
  initial :: (filter (λ p, p.1 = j) (recorded w)).*2.

(** A page that is a mapping with a content mapping holding a non-blank
    string under one of the tags the validator reads. *)
Definition page_has_text (body : PyVal) : Prop :=
  ∃ b c tag s, body = PyDict b ∧ assoc (KStr "content") b = Some (PyDict c)
    ∧ tag ∈ validator_tags ∧ assoc (KStr tag) c = Some (PyStr s) ∧ blank s = false.

(** A page body that is [None], not a mapping, or a mapping without a
    ["content"] entry. *)
Definition malformed (body : PyVal) : bool :=
  match body with
  | PyDict b => bool_decide (assoc (KStr "content") b = None)
  | _ => true
  end.

(** The items PyPDF2 builds for the pages [texts], the first of which has
    the 0-based index [page_num]. *)
Fixpoint numbered_pages (page_num : Z) (texts : list (option string)) : list (PyKey * PyVal) :=
  match texts with
  | [] => []
  | t :: rest =>
      (KInt (page_num + 1), pypdf2_page page_num (default "" t))
      :: numbered_pages (page_num + 1) rest
  end.

Section Vocabulary.

Context (K : Constants) (impl : ExtractorImpl) (env : Env).
Context (fuel retries : nat) (j d f x : string).

(** The [try] with its [except] clause. *)
Definition handled : M unit :=
  try_except (try_body K impl env fuel j d f x) (failure_path K env retries j d f x).

(** The guarded FAILURE update of the handler. *)
Definition write_failure (finish latency : Z) : M unit :=
  try_log (db_execute_update env db_execute_failure j FAILURE (values_final FAILURE finish latency 0.0%float) ;;
           db_commit env db_commit_failure).

(** What is left of the handler once the status is written. *)
Definition classify_and_retry (e : exn) : M unit :=
  record_extractor_failure K env x ;;
  if is_infrastructure_error e then
    mark_task_failed env d j ;; raise e
  else
    mark_task_failed env d j ;;
    self_retry env retries j d f x e (countdown (get_retry_config K x))
               (max_retries (get_retry_config K x)).

(** The part of [try_body] between the PROCESSING commit and the SUCCESS
    update. *)
Definition middle : M PyVal :=
  local_file_path ← locate_file env d f;
  run_extraction impl env fuel j x local_file_path.

(** The part of [try_body] before the extraction. *)
Definition prologue : M string :=
  open ← check_circuit_breaker K env x;
  when open (raise (Exc RuntimeError ("Circuit breaker is OPEN for " ++ x
                    ++ ". Too many recent failures. Try again later."))) ;;
  db_execute_update env db_execute_processing j PROCESSING (values_processing (now_start env)) ;;
  db_commit env db_commit_processing ;;
  locate_file env d f.

(** Redis, the file coordinator and the queue answer the handler. *)
Definition handler_reliable : Prop :=
  fault env redis_incr = None ∧ fault env redis_expire = None
  ∧ fault env notify_failed = None ∧ fault env celery_apply_async = None.

(** The stored failure count has reached the threshold. *)
Definition breaker_open (w : World) : Prop :=
  ∃ n, redis w !! circuit_key x = Some n ∧ CIRCUIT_BREAKER_THRESHOLD K ≤ n.

Definition breaker_closed (w : World) : Prop :=
  ∀ n, redis w !! circuit_key x = Some n → n < CIRCUIT_BREAKER_THRESHOLD K.

(** The error the open breaker raises. *)
Definition circuit_open_error : exn :=
  Exc RuntimeError ("Circuit breaker is OPEN for " ++ x
                    ++ ". Too many recent failures. Try again later.").

End Vocabulary.

(** ** Concrete surroundings for the examples *)

Definition example_constants : Constants :=
  {| EXTRACTOR_RETRY_CONFIG := {[ "Textract" := {| countdown := 30; max_retries := 2 |} ]};
     DEFAULT_RETRY_CONFIG := {| countdown := 60; max_retries := 3 |};
     CIRCUIT_BREAKER_THRESHOLD := 5;
     CIRCUIT_BREAKER_TIMEOUT := 300 |}.

(** Both API clients can be set up. *)
Definition example_clients : Clients :=
  {| openai_OpenAI := Ok tt; LlamaParseExtractor_init := Ok tt |}.

(** No OpenAI key is configured: [openai.OpenAI(api_key=None)] raises. *)
Definition clients_without_key : Clients :=
  {| openai_OpenAI := Raise (Exc (OtherError "OpenAIError")
                               "The api_key client option must be set");
     LlamaParseExtractor_init := Ok tt |}.

Definition example_env : Env :=
  {| fault := λ _, None; now_start := 1000000; now_end := 1250000;
     path_exists := λ _, true; shared_path := "/shared/doc.pdf";
     uuid4 := λ n, "row-" ++ String (ascii_of_nat (48 + n)) "";
     clients := example_clients |}.

(** A two-page PDF whose second page has no text. *)
Definition example_libraries : Libraries :=
  {| PdfReader := λ _, Ok [Ok (Some "hello"); Ok None];
     fitz_open := λ _, Ok [Ok (Some "hello")];
     markitdown_convert := λ _, Ok (Some "# title") |}.

(** A remote extractor that starts a job, returns its handle and delivers
    the result through a webhook. *)
Definition webhook_extractor : ExtractorImpl :=
  {| read := λ self _, (Ok (PyStr "remote-1"), self);
     get_status := λ self _ _, (Ok "processing", self);
     get_result := λ self _, (Ok PyNone, self);
     supports_webhook := λ _, true |}.

Definition example_impl : ExtractorImpl := repo_impl example_libraries webhook_extractor.

Definition example_job : DocumentExtractionJob :=
  {| document_uuid_of := "d1"; extractor := "PyPDF2"; status := NOT_STARTED;
     start_time := None; end_time := None; latency_ms := None; cost := None |}.

Definition example_store : Store :=
  {| jobs := {[ "j1" := example_job ]}; documents := {[ "d1" := "doc.pdf" ]}; page_rows := [] |}.

(** A job just submitted; no failure counted. *)
Definition fresh_world : World :=
  {| committed := example_store; session := example_store; recorded := []; unrecorded := [];
     redis := ∅; ttl := ∅; queue := []; trace := [] |}.

(** The same with five failures counted against PyPDF2. *)
Definition open_breaker_world : World :=
  set_redis {[ "circuit_breaker:PyPDF2" := 5 ]} ∅ fresh_world.

(** A page map whose only text is markdown. *)
Definition markdown_only : list (Z * NormalizedPage) :=
  [ (1, {| page_content := [("MARKDOWN", "hello")]; page_metadata := None |}) ].

(** * The other extractors and the callers of the executor *)

From Stdlib Require Import Sorted.

(** ** String operations of the extractors *)

Module Str.

(** ["\n"]. *)
Definition newline : string := String (ascii_of_nat 10) "".

(** [c.lower()] for a code point below 256: the letters A-Z and the
    accented capitals of Latin-1 move up by 32. *)
Definition lower_char (c : ascii) : ascii :=
  let n := N_of_ascii c in
  if ((65 <=? n) && (n <=? 90) || (192 <=? n) && (n <=? 214) || (216 <=? n) && (n <=? 222))%N
  then ascii_of_N (n + 32)
  else c.

(** [s.lower()]. *)
Definition lower (s : string) : string :=
  string_of_list_ascii (map lower_char (list_ascii_of_string s)).

(** [s.endswith(suffix)]. *)
Definition endswith (s suffix : string) : bool :=
  bool_decide (list_ascii_of_string suffix `suffix_of` list_ascii_of_string s).

(** [sep.join(parts)]. *)
Definition join (sep : string) (parts : list string) : string := String.concat sep parts.

End Str.
Import Str.

Module Readers.

(** ** [extractors/pdfplumber_extractor.py] *)

(** A page as pdfplumber hands it out: the outcome of [extract_text()]
    ([None] when the page has no text) and of [extract_tables()], a list
    of tables, each a list of rows, each a list of cells, a cell being a
    string or [None].  An absent table or row is an empty one: the code
    skips both alike. *)
Record PlumberPage := {
  extract_text : Outcome (option string);
  extract_tables : Outcome (list (list (list (option string))))
}.

(** [" | ".join(str(cell) if cell else "" for cell in row) + "\n"]. *)
Definition format_row (row : list (option string)) : string :=
  join " | " (map (default "") row) ++ newline.

(** The loop over the rows of one table; empty rows add nothing. *)
Fixpoint format_rows (table : list (list (option string))) (table_str : string) : string :=
  match table with
  | [] => table_str
  | [] :: rest => format_rows rest table_str
  | row :: rest => format_rows rest (table_str ++ format_row row)
  end.

(** The loop over the tables of one page; an empty table adds nothing, any
    other adds its stripped text. *)
Fixpoint format_tables (tables : list (list (list (option string)))) : list string :=
  match tables with
  | [] => []
  | [] :: rest => format_tables rest
  | table :: rest => strip (format_rows table "") :: format_tables rest
  end.

(** The [content] dictionary of one page. *)
Definition pdfplumber_content (text : option string) (tables : list (list (list (option string))))
    : PyVal :=
  let table_strings := format_tables tables in
  PyDict [ (KStr "COMBINED", PyStr (default "" text));
           (KStr "TABLE", PyStr (match table_strings with
                                 | [] => ""
                                 | _ => join (newline ++ newline) table_strings
                                 end)) ].

(** [for page_num, page in enumerate(pdf.pages, 1)], from [page_num] on. *)
Fixpoint pdfplumber_loop (pages : list PlumberPage) (page_num : Z)
    (page_contents : list (PyKey * PyVal)) : Outcome (list (PyKey * PyVal)) :=
  match pages with
  | [] => Ok page_contents
  | page :: rest =>
      text ← extract_text page;
      tables ← extract_tables page;
      pdfplumber_loop rest (page_num + 1)
        (py_setitem page_contents (KInt page_num)
           (PyDict [(KStr "content", pdfplumber_content text tables)]))
  end.

(** [PDFPlumberExtractor.read]: no [try]; [pdfplumber_open] is
    [pdfplumber.open(file_path)] with its [pages]. *)
Definition PDFPlumber_read (pdfplumber_open : string → Outcome (list PlumberPage))
    (self : ExtractorInstance) (file_path : string) : Outcome PyVal * ExtractorInstance :=
  match (pages ← pdfplumber_open file_path; pdfplumber_loop pages 1 []) with
  | Ok d => (Ok (PyDict d), set_last_result self (PyDict d))
  | Raise e => (Raise e, self)
  end.

Definition PDFPlumber (pdfplumber_open : string → Outcome (list PlumberPage)) : ExtractorImpl :=
  {| read := PDFPlumber_read pdfplumber_open;
     get_status := sync_get_status;
     get_result := sync_get_result;
     supports_webhook := λ _, false |}.

(** ** [extractors/tesseract_extractor.py] *)

(** What the imaging and OCR libraries answer.  An image is named by its
    bytes.  [page_images] is lines 30-35: the page images of a PDF, or the
    failure of opening or rendering it. *)
Record OcrLibraries := {
  page_images : string → Outcome (list string);
  Image_open : string → Outcome string;
  image_to_string : string → Outcome string
}.

Definition tesseract_page (i : Z) (text : string) : PyVal :=
  PyDict [ (KStr "content", PyDict [(KStr "TEXT", PyStr (strip text))]);
           (KStr "metadata", PyDict [(KStr "extractor", PyStr "Tesseract");
                                     (KStr "page_number", PyInt i)]) ].

(** [for i, image in enumerate(images, start=1)], from [i] on. *)
Fixpoint tesseract_loop (ocr : OcrLibraries) (images : list string) (i : Z)
    (page_contents : list (PyKey * PyVal)) : Outcome (list (PyKey * PyVal)) :=
  match images with
  | [] => Ok page_contents
  | image :: rest =>
      text ← image_to_string ocr image;
      tesseract_loop ocr rest (i + 1) (py_setitem page_contents (KInt i) (tesseract_page i text))
  end.

(** [TesseractExtractor.read]: the [except] clause logs and raises the
    exception it caught. *)
Definition Tesseract_read (ocr : OcrLibraries) (self : ExtractorInstance) (file_path : string)
    : Outcome PyVal * ExtractorInstance :=
  match (images ← (if endswith (lower file_path) ".pdf" then page_images ocr file_path
                   else image ← Image_open ocr file_path; Ok [image]);
         tesseract_loop ocr images 1 []) with
  | Ok d => (Ok (PyDict d), set_last_result self (PyDict d))
  | Raise e => (Raise e, self)
  end.

Definition Tesseract (ocr : OcrLibraries) : ExtractorImpl :=
  {| read := Tesseract_read ocr;
     get_status := sync_get_status;
     get_result := sync_get_result;
     supports_webhook := λ _, false |}.

(** ** [extractors/openai_vision_extractor.py] *)

(** What the extractor's surroundings answer: the PNG bytes of each page of
    a PDF (opening the file may fail, and so may rendering a page), the
    bytes of an image file, and the text of the model's reply to one image
    ([None] when the reply has no content).  [doc.close()] is taken to
    succeed. *)
Record VisionServices := {
  pdf_pixmaps : string → Outcome (list (Outcome string));
  read_bytes : string → Outcome string;
  chat_completion : string → string → Outcome (option string)
}.

Section OpenAIVision.

Context (svc : VisionServices) (model_name : string).

(** [_extract_text_from_image]: an error of the API call becomes the text. *)
Definition _extract_text_from_image (img_bytes : string) : string :=
  match chat_completion svc model_name img_bytes with
  | Ok text =>
      match text with
      | Some t => if truthy (PyStr t) then strip t else ""
      | None => ""
      end
  | Raise e => "Error extracting text: " ++ exc_msg e
  end.

Definition openai_page (page_number : Z) (text : string) : PyVal :=
  PyDict [ (KStr "content", PyDict [(KStr "TEXT", PyStr text)]);
           (KStr "metadata", PyDict [(KStr "extractor", PyStr ("OpenAI " ++ model_name));
                                     (KStr "page_number", PyInt page_number);
                                     (KStr "model", PyStr model_name)]) ].

Definition openai_error_page (e : exn) : PyVal :=
  PyDict [ (KStr "content", PyDict [(KStr "TEXT", PyStr "")]);
           (KStr "metadata", PyDict [(KStr "extractor", PyStr ("OpenAI " ++ model_name));
                                     (KStr "error", PyStr (exc_msg e))]) ].

(** [for page_num in range(doc.page_count)] inside the [try] of
    [_process_pdf], from index [page_num] on: when a page cannot be
    rendered, the [except] clause stores the error page under key 1 of the
    dictionary built so far. *)
Fixpoint openai_loop (pages : list (Outcome string)) (page_num : Z)
    (page_contents : list (PyKey * PyVal)) : list (PyKey * PyVal) :=
  match pages with
  | [] => page_contents
  | Raise e :: _ => py_setitem page_contents (KInt 1) (openai_error_page e)
  | Ok img_bytes :: rest =>
      let text := _extract_text_from_image img_bytes in
      openai_loop rest (page_num + 1)
        (py_setitem page_contents (KInt (page_num + 1)) (openai_page (page_num + 1) text))
  end.

Definition _process_pdf (file_path : string) : PyVal :=
  match pdf_pixmaps svc file_path with
  | Ok pages => PyDict (openai_loop pages 0 [])
  | Raise e => PyDict (py_setitem [] (KInt 1) (openai_error_page e))
  end.

Definition _process_image (file_path : string) : PyVal :=
  match read_bytes svc file_path with
  | Ok img_bytes => PyDict [(KInt 1, openai_page 1 (_extract_text_from_image img_bytes))]
  | Raise e => PyDict [(KInt 1, openai_error_page e)]
  end.

(** [OpenAIVisionExtractor.read].  Both helpers catch every exception, so
    the [except] clause of [read] has nothing to catch. *)
Definition OpenAIVision_read (self : ExtractorInstance) (file_path : string)
    : Outcome PyVal * ExtractorInstance :=
  let page_contents :=
    if endswith (lower file_path) ".pdf" then _process_pdf file_path
    else _process_image file_path in
  (Ok page_contents, set_last_result self page_contents).

Definition OpenAIVision : ExtractorImpl :=
  {| read := OpenAIVision_read;
     get_status := sync_get_status;
     get_result := sync_get_result;
     supports_webhook := λ _, false |}.

End OpenAIVision.

(** ** [extractors/textract_extractor.py] *)

(** A block of a Textract response, with the three entries the code reads,
    typed as the service documents them; each may be missing. *)
Record Block := {
  BlockType : option string;
  Page : option Z;
  Text : option string
}.

(** [page_to_lines.setdefault(page_num, []).append(text)]. *)
Fixpoint setdefault_append (page_to_lines : list (Z * list string)) (page_num : Z) (text : string)
    : list (Z * list string) :=
  match page_to_lines with
  | [] => [(page_num, [text])]
  | (p, lines) :: rest =>
      if decide (page_num = p) then (p, (lines ++ [text])%list) :: rest
      else (p, lines) :: setdefault_append rest page_num text
  end.

(** The body of the loop over the blocks. *)
Definition blocks_step (page_to_lines : list (Z * list string)) (b : Block)
    : list (Z * list string) :=
  if bool_decide (BlockType b = Some "LINE") then
    let page_num := default 1 (Page b) in
    let text := strip (default "" (Text b)) in
    if truthy (PyStr text) then setdefault_append page_to_lines page_num text
    else page_to_lines
  else page_to_lines.

Definition textract_page (lines : list string) : PyVal :=
  PyDict [(KStr "content", PyDict [(KStr "TEXT", PyStr (join newline lines))])].

(** [TextractExtractor._blocks_to_pages]. *)
Definition _blocks_to_pages (blocks : list Block) : PyVal :=
  PyDict (map (λ pl : Z * list string, (KInt pl.1, textract_page pl.2))
              (fold_left blocks_step blocks [])).

(** [TextractExtractor.get_result]: [self._last_result or {}]. *)
Definition Textract_get_result (self : ExtractorInstance) (job_id : PyVal)
    : Outcome PyVal * ExtractorInstance :=
  (Ok (py_or (_last_result self) (PyDict [])), self).

(** ** [extractors/mathpix_extractor.py] *)

(** A line and a page of the [lines.json] reply, with the entries the code
    reads, typed as the service documents them; each may be missing. *)
Record MathpixLine := {
  line : option Z;
  text_display : option string
}.

Record MathpixPage := {
  page : option Z;
  lines : list MathpixLine
}.

(** What the Mathpix API answers: to the upload, the [pdf_id] of the reply
    ([None] when it has none); to the [n]-th status request, the [status]
    entry of the reply ([None] when it has none); to the result request,
    the [pages] list of the reply ([None] when there is no such list).
    [Raise] is the failure of the request or of reading the reply. *)
Record MathpixApi := {
  mathpix_upload : string → Outcome PyVal;
  mathpix_status : PyVal → nat → Outcome (option string);
  mathpix_lines : PyVal → Outcome (option (list MathpixPage))
}.

Section Mathpix.

Context (api : MathpixApi).

(** [MathpixExtractor.read]: the [except] clause logs and raises again. *)
Definition Mathpix_read (self : ExtractorInstance) (file_path : string)
    : Outcome PyVal * ExtractorInstance :=
  (mathpix_upload api file_path, self).

(** [MathpixExtractor.get_status]: it returns also when the request fails. *)
Definition Mathpix_get_status (self : ExtractorInstance) (job_id : PyVal) (n : nat)
    : Outcome string * ExtractorInstance :=
  (Ok (match mathpix_status api job_id n with
       | Ok s =>
           let status := default "unknown" s in
           if String.eqb status "completed" then "succeeded"
           else if String.eqb status "error" then "failed"
           else "processing"
       | Raise _ => "failed"
       end), self).

Definition line_key (l : MathpixLine) : Z := default 0 (line l).

(** [sorted(lines, key=lambda x: x.get('line', 0))]: ascending, and stable. *)
Fixpoint insert_line (x : MathpixLine) (sorted : list MathpixLine) : list MathpixLine :=
  match sorted with
  | [] => [x]
  | y :: rest => if line_key x <=? line_key y then x :: y :: rest else y :: insert_line x rest
  end.

Definition sorted_lines (ls : list MathpixLine) : list MathpixLine :=
  foldr insert_line [] ls.

(** The non-empty stripped [text_display] values, in the order given. *)
Fixpoint page_text_lines (ls : list MathpixLine) : list string :=
  match ls with
  | [] => []
  | l :: rest =>
      let t := strip (default "" (text_display l)) in
      if truthy (PyStr t) then t :: page_text_lines rest else page_text_lines rest
  end.

Definition mathpix_page (job_id : PyVal) (page_data : MathpixPage) : PyVal :=
  let page_num := default 1 (page page_data) in
  let sorted := sorted_lines (lines page_data) in
  PyDict [ (KStr "content", PyDict [(KStr "LATEX", PyStr (join newline (page_text_lines sorted)))]);
           (KStr "metadata", PyDict [(KStr "extractor", PyStr "Mathpix");
                                     (KStr "pdf_id", job_id);
                                     (KStr "page", PyInt page_num);
                                     (KStr "total_lines", PyInt (Z.of_nat (length sorted)));
                                     (KStr "format", PyStr "lines.json")]) ].

(** [for page_data in lines_data['pages']]. *)
Fixpoint mathpix_loop (job_id : PyVal) (pages : list MathpixPage)
    (page_contents : list (PyKey * PyVal)) : list (PyKey * PyVal) :=
  match pages with
  | [] => page_contents
  | page_data :: rest =>
      mathpix_loop job_id rest
        (py_setitem page_contents (KInt (default 1 (page page_data))) (mathpix_page job_id page_data))
  end.

(** The page stored when the reply has no [pages] list. *)
Definition mathpix_unexpected (job_id : PyVal) : PyVal :=
  PyDict [ (KStr "content", PyDict [(KStr "LATEX", PyStr "")]);
           (KStr "metadata", PyDict [(KStr "extractor", PyStr "Mathpix");
                                     (KStr "pdf_id", job_id);
                                     (KStr "page", PyInt 1);
                                     (KStr "error", PyStr "Unexpected response structure")]) ].

(** The dictionary returned when the request fails. *)
Definition mathpix_failed (e : exn) : PyVal :=
  PyDict [ (KInt 1, PyDict [ (KStr "content", PyDict [(KStr "LATEX", PyStr "")]);
                             (KStr "metadata", PyDict [(KStr "error", PyStr (exc_msg e))]) ]) ].

(** [MathpixExtractor.get_result]: it returns also when the request fails,
    and then leaves [_last_result] as it was. *)
Definition Mathpix_get_result (self : ExtractorInstance) (job_id : PyVal)
    : Outcome PyVal * ExtractorInstance :=
  match mathpix_lines api job_id with
  | Ok reply =>
      let page_contents :=
        match reply with
        | Some pages => PyDict (mathpix_loop job_id pages [])
        | None => PyDict (py_setitem [] (KInt 1) (mathpix_unexpected job_id))
        end in
      (Ok page_contents, set_last_result self page_contents)
  | Raise e => (Ok (mathpix_failed e), self)
  end.

Definition Mathpix : ExtractorImpl :=
  {| read := Mathpix_read;
     get_status := Mathpix_get_status;
     get_result := Mathpix_get_result;
     supports_webhook := λ _, false |}.

End Mathpix.

End Readers.
Import Readers.

(** ** The callers of the executor ([main.py]) *)

Module Api.

(** [PDFExtractorType] and [ImageExtractorType] ([models/enums.py]): the
    values, in the order of declaration. *)
Definition PDFExtractorType : list string :=
  [ "PyPDF2"; "PyMuPDF"; "PDFPlumber"; "Camelot"; "Tesseract"; "Textract"; "Mathpix";
    "Tabula"; "Unstructured"; "gpt-4o-mini"; "gpt-4o"; "gpt-4-turbo"; "MarkItDown";
    "LlamaParse" ].

Definition ImageExtractorType : list string :=
  [ "Tesseract"; "Textract"; "Mathpix"; "gpt-4o-mini"; "gpt-4o"; "gpt-4-turbo" ].

(** An entry of [document_data]. *)
Record DocInfo := {
  di_uuid : string;
  di_file_type : string;
  di_file_path : string
}.

(** The extractors a document is given: all those of its file type, or,
    when a selection was made, the selected ones that are of its file
    type, in the order of the selection. *)
Definition file_extractors (file_type : string) (selected_extractor_list : list string)
    : list string :=
  let all := if String.eqb file_type "pdf" then PDFExtractorType else ImageExtractorType in
  match selected_extractor_list with
  | [] => all
  | _ => filter (λ ext, ext ∈ all) selected_extractor_list
  end.

(** The calls [start_background_tasks_for_documents] makes: [db.add] of a
    job, [register_extraction_tasks] and [.delay] of the task. *)
Inductive ApiCall :=
| DbAdd (job_uuid : string) (job : DocumentExtractionJob)
| RegisterTasks (document_uuid : string) (job_uuids : list string)
| Delay (m : TaskMessage).

(** The state is the list of calls made so far; a call may raise. *)
Definition Calls (A : Type) : Type := list ApiCall → Outcome A * list ApiCall.

#[global] Instance Calls_ret : MRet Calls := λ A a s, (Ok a, s).
#[global] Instance Calls_bind : MBind Calls := λ A B f m s,
  match m s with
  | (Ok a, s') => f a s'
  | (Raise e, s') => (Raise e, s')
  end.

Definition is_DbAdd (c : ApiCall) : bool :=
  match c with DbAdd _ _ => true | _ => false end.

Section StartTasks.

(** [fails n] is the exception of the call made after [n] others, if it
    raises; [uuid4 n] is the uuid drawn after [n] others. *)
Context (fails : nat → option exn) (uuid4 : nat → string).

Definition do_call (c : ApiCall) : Calls unit := λ s,
  match fails (length s) with
  | Some e => (Raise e, s)
  | None => (Ok tt, (s ++ [c])%list)
  end.

Definition new_job (document_uuid extractor_name : string) : DocumentExtractionJob :=
  {| document_uuid_of := document_uuid; extractor := extractor_name; status := NOT_STARTED;
     start_time := None; end_time := None; latency_ms := None; cost := None |}.

(** [for extractor_name in file_extractors]: the value is [extraction_jobs]. *)
Fixpoint create_jobs (document_uuid : string) (names : list string)
    : Calls (list (string * DocumentExtractionJob)) :=
  match names with
  | [] => mret []
  | extractor_name :: rest =>
      job_uuid ← (λ s, (Ok (uuid4 (length (filter is_DbAdd s))), s));
      let extraction_job := new_job document_uuid extractor_name in
      do_call (DbAdd job_uuid extraction_job) ;;
      jobs ← create_jobs document_uuid rest;
      mret ((job_uuid, extraction_job) :: jobs)
  end.

(** The task as [.delay] sends it: first run, no countdown. *)
Definition first_message (job_uuid document_uuid file_path extractor_type : string) : TaskMessage :=
  {| tm_job_uuid := job_uuid; tm_document_uuid := document_uuid; tm_file_path := file_path;
     tm_extractor_type := extractor_type; tm_retries := 0; tm_countdown := 0 |}.

(** [for job in extraction_jobs: process_document_with_extractor.delay(..)]. *)
Fixpoint delay_jobs (document_uuid file_path : string)
    (extraction_jobs : list (string * DocumentExtractionJob)) : Calls unit :=
  match extraction_jobs with
  | [] => mret tt
  | (job_uuid, job) :: rest =>
      do_call (Delay (first_message job_uuid document_uuid file_path (extractor job))) ;;
      delay_jobs document_uuid file_path rest
  end.

Fixpoint start_background_tasks_for_documents (document_data : list DocInfo)
    (selected_extractor_list : list string) : Calls unit :=
  match document_data with
  | [] => mret tt
  | doc_info :: rest =>
      let document_uuid := di_uuid doc_info in
      extraction_jobs ← create_jobs document_uuid
                          (file_extractors (di_file_type doc_info) selected_extractor_list);
      do_call (RegisterTasks document_uuid extraction_jobs.*1) ;;
      delay_jobs document_uuid (di_file_path doc_info) extraction_jobs ;;
      start_background_tasks_for_documents rest selected_extractor_list
  end.

End StartTasks.

(** *** [retry_extraction_job] *)

(** The columns the endpoint reads of a project, a document and a job row.
    The [status] of a job is a [String] column: a row holds the string that
    was stored, the value of an [ExtractionStatus] or, as the endpoint
    allows for, the ["Failed"] of an older row. *)
Record Project := {
  project_user_id : Z;
  project_deleted_at : option Z
}.

Record Document := {
  filepath : string;
  project_uuid_of : option string;
  document_deleted_at : option Z
}.

Record JobRow := {
  job_document_uuid : string;
  job_extractor : string;
  job_status : string;
  job_start_time : option Z;
  job_end_time : option Z;
  job_latency_ms : option Z;
  job_cost : option float;
  job_deleted_at : option Z
}.

(** The tables, each keyed by its primary key [uuid]. *)
Record Database := {
  projects : gmap string Project;
  document_rows : gmap string Document;
  job_rows : gmap string JobRow;
  page_content_rows : list DocumentPageContent
}.

(** The places where the endpoint's calls to the database and to the queue
    may raise. *)
Inductive ApiSite :=
| select_project
| select_document
| select_job
| update_page_content
| session_commit
| session_rollback_api
| task_delay.

(** How a request ends: a returned body, an [HTTPException], or an
    exception that escapes the endpoint. *)
Inductive Response :=
| Returned (body : PyVal)
| HTTPException (status_code : Z) (detail : string)
| Unhandled (e : exn).

(** What the body of the [try] raises. *)
Inductive Raised (A : Type) :=
| Fine (a : A)
| Http (status_code : Z) (detail : string)
| Other (e : exn).
Arguments Fine {A} a.
Arguments Http {A} status_code detail.
Arguments Other {A} e.

#[global] Instance Raised_ret : MRet Raised := @Fine.
#[global] Instance Raised_bind : MBind Raised := λ A B f m,
  match m with
  | Fine a => f a
  | Http c d => Http c d
  | Other e => Other e
  end.

(** The value of a status, as the column stores it. *)
Definition status_value (s : ExtractionStatus) : string :=
  match s with
  | NOT_STARTED => "Not Started"
  | PROCESSING => "Processing"
  | SUCCESS => "Success"
  | FAILURE => "Failure"
  end.

Section Retry.

Context (fault : ApiSite → option exn) (now : Z) (current_user_id : Z).

(** A database call that may raise. *)
Definition query (site : ApiSite) : Raised unit :=
  match fault site with
  | Some e => Other e
  | None => Fine tt
  end.

(** [scalar_one_or_none()] followed by the 404 of a missing row. *)
Definition one_or_404 {A} (row : option A) (keep : A → bool) (detail : string) : Raised A :=
  match row with
  | Some r => if keep r then Fine r else Http 404 detail
  | None => Http 404 detail
  end.

(** The job with its status reset and its previous results cleared. *)
Definition reset_job (job : JobRow) : JobRow :=
  {| job_document_uuid := job_document_uuid job; job_extractor := job_extractor job;
     job_status := status_value NOT_STARTED; job_start_time := None; job_end_time := None;
     job_latency_ms := None; job_cost := None; job_deleted_at := job_deleted_at job |}.

(** [update(DocumentPageContent).where(extraction_job_uuid == job_uuid)
    .values(deleted_at=now)]. *)
Definition soft_delete_pages (job_uuid : string) (rows : list DocumentPageContent)
    : list DocumentPageContent :=
  map (λ row,
         if String.eqb (extraction_job_uuid row) job_uuid then
           {| uuid := uuid row; extraction_job_uuid := extraction_job_uuid row;
              page_number := page_number row; content := content row;
              metadata_ := metadata_ row; deleted_at := Some now |}
         else row) rows.

(** The body of the [try] up to and including the commit: the value is
    the database as committed, with the document and the job read. *)
Definition retry_checks_and_reset (project_uuid document_uuid job_uuid : string) (db : Database)
    : Raised (Database * Document * JobRow) :=
  query select_project ;;
  _ ← one_or_404 (projects db !! project_uuid)
        (λ p, bool_decide (project_user_id p = current_user_id ∧ project_deleted_at p = None))
        "Project not found";
  query select_document ;;
  document ← one_or_404 (document_rows db !! document_uuid)
        (λ d, bool_decide (project_uuid_of d = Some project_uuid ∧ document_deleted_at d = None))
        "Document not found";
  query select_job ;;
  job ← one_or_404 (job_rows db !! job_uuid)
        (λ r, bool_decide (job_document_uuid r = document_uuid ∧ job_deleted_at r = None))
        "Extraction job not found";
  (if bool_decide (job_status job ∈ [status_value FAILURE; "Failed"]) then Fine tt
   else Http 400 ("Cannot retry job with status: " ++ job_status job)) ;;
  let job := reset_job job in
  query update_page_content ;;
  query session_commit ;;
  Fine ({| projects := projects db; document_rows := document_rows db;
           job_rows := <[job_uuid := job]> (job_rows db);
           page_content_rows := soft_delete_pages job_uuid (page_content_rows db) |},
        document, job).

(** [retry_extraction_job]: the response, the database it leaves and the
    tasks it has queued.  A failure to queue the task is logged only. *)
Definition retry_extraction_job (project_uuid document_uuid job_uuid : string) (db : Database)
    : Response * Database * list TaskMessage :=
  match retry_checks_and_reset project_uuid document_uuid job_uuid db with
  | Fine (db', document, job) =>
      (Returned (PyDict [ (KStr "message", PyStr "Extraction job retry initiated");
                          (KStr "job_uuid", PyStr job_uuid);
                          (KStr "status", PyStr "NOT_STARTED") ]),
       db',
       match fault task_delay with
       | Some _ => []
       | None => [first_message job_uuid document_uuid (filepath document) (job_extractor job)]
       end)
  | Http status_code detail => (HTTPException status_code detail, db, [])
  | Other e =>
      match fault session_rollback_api with
      | Some e' => (Unhandled e', db, [])
      | None => (HTTPException 500 ("Failed to retry extraction job: " ++ exc_msg e), db, [])
      end
  end.

End Retry.

End Api.
Import Api.

(** ** Vocabulary of the further properties *)

(** [m] run [n] times in a row. *)
Fixpoint times (n : nat) (m : M unit) : M unit :=
  match n with
  | O => mret tt
  | S n' => m ;; times n' m
  end.

(** One round of the polling loop, as the trace shows it. *)
Definition poll_round (job_id : PyVal) : list Event := [EvSleep 5; EvGetStatus job_id].

(** ** Concrete surroundings for the further examples *)

(** A Mathpix job that is done at the third status check; its reply lists
    the two lines of its page out of order. *)
Definition example_mathpix : MathpixApi :=
  {| mathpix_upload := λ _, Ok (PyStr "pdf-1");
     mathpix_status := λ _ n, Ok (Some (if (n <? 2)%nat then "split" else "completed"));
     mathpix_lines := λ _,
       Ok (Some [ {| page := Some 1;
                     lines := [ {| line := Some 2; text_display := Some " x = 1 " |};
                                {| line := Some 1; text_display := Some "Let" |} ] |} ]) |}.

Definition example_mathpix_statuses (n : nat) : string :=
  if (n <? 2)%nat then "processing" else "succeeded".

(** The surroundings of the example with no file at any local path. *)
Definition missing_file_env : Env :=
  {| fault := λ _, None; now_start := 1000000; now_end := 1250000;
     path_exists := λ _, false; shared_path := "/shared/doc.pdf";
     uuid4 := λ n, "row-" ++ String (ascii_of_nat (48 + n)) "";
     clients := example_clients |}.

(** The surroundings of the example with a run that takes 1.001 s. *)
Definition slow_run_env : Env :=
  {| fault := λ _, None; now_start := 1000000; now_end := 2001000;
     path_exists := λ _, true; shared_path := "/shared/doc.pdf";
     uuid4 := λ n, "row-" ++ String (ascii_of_nat (48 + n)) "";
     clients := example_clients |}.

(** The surroundings of the example with a database that cannot be
    reached when the document row is queried. *)
Definition database_down_env : Env :=
  {| fault := λ cs, match cs with
                    | db_query_document =>
                        Some (Exc SA_OperationalError "could not connect to server")
                    | _ => None
                    end;
     now_start := 1000000; now_end := 1250000;
     path_exists := λ _, true; shared_path := "/shared/doc.pdf";
     uuid4 := λ n, "row-" ++ String (ascii_of_nat (48 + n)) "";
     clients := example_clients |}.

(** The world the example's job leaves when its first run finds no file:
    the job is in FAILURE and queued again. *)
Definition failed_once_world : World :=
  (process_document_with_extractor example_constants example_impl missing_file_env
     3 0 "j1" "d1" "/data/doc.pdf" "PyPDF2" fresh_world).2.

(** The error [locate_file] raises for a missing document row or file. *)
Definition not_found_error (d f : string) (w : World) : exn :=
  match documents (committed w) !! d with
  | None => Exc RuntimeError ("Document " ++ d ++ " not found")
  | Some _ => Exc RuntimeError ("File not found: " ++ f)
  end.

(** The calls the executor makes to a reader whose [read] does not return
    the page map. *)
Definition read_then_fetch (path : string) : list Event :=
  [EvRead path; EvGetStatus (PyBool true); EvGetResult (PyBool true)].

(** The one-page map PyPDF2 builds when the library fails. *)
Definition pypdf2_error_map (e : exn) : PyVal :=
  PyDict [ (KInt 1, PyDict [ (KStr "content", PyDict [(KStr "TEXT", PyStr "")]);
                             (KStr "metadata", PyDict [(KStr "error", PyStr (exc_msg e))]) ]) ].

(** A list with consecutive numbers from [n] on. *)
Fixpoint numbered {A} (n : Z) (l : list A) : list (Z * A) :=
  match l with
  | [] => []
  | a :: l' => (n, a) :: numbered (n + 1) l'
  end.

(** A pdfplumber page that answers with the text [tt.1] and the tables
    [tt.2]. *)
Definition plumber_page (tt : option string * list (list (list (option string)))) : PlumberPage :=
  {| extract_text := Ok tt.1; extract_tables := Ok tt.2 |}.

(** The entry of the page map for page [nt.1] with the text and the tables
    [nt.2]. *)
Definition plumber_entry (nt : Z * (option string * list (list (list (option string)))))
    : PyKey * PyVal :=
  (KInt nt.1, PyDict [(KStr "content", pdfplumber_content nt.2.1 nt.2.2)]).

(** A two-page PDF: a page of text, and a page with a table that
    [extract_text] gives no text for. *)
Definition example_plumber (file_path : string) : Outcome (list PlumberPage) :=
  Ok [ plumber_page (Some "Quarterly report", []);
       plumber_page (None, [[[Some "a"; None]; []; [Some "b"; Some "c"]]; []]) ].

(** OCR of a two-page scan whose second page is empty. *)
Definition example_ocr : OcrLibraries :=
  {| page_images := λ _, Ok ["png-1"; "png-2"];
     Image_open := λ file_path, Ok file_path;
     image_to_string := λ image, Ok (if String.eqb image "png-1" then "  scanned text " else "  ") |}.

(** The entry of Tesseract's page map for page [nt.1] with the OCR text
    [nt.2]. *)
Definition tesseract_entry (nt : Z * string) : PyKey * PyVal :=
  (KInt nt.1, tesseract_page nt.1 nt.2).

(** The entry of the OpenAI extractor's page map for page [nt.1] with the
    text [nt.2]. *)
Definition openai_entry (model_name : string) (nt : Z * string) : PyKey * PyVal :=
  (KInt nt.1, openai_page model_name nt.1 nt.2).

(** A two-page PDF; the model answers for the first page and the request
    for the second times out. *)
Definition example_vision : VisionServices :=
  {| pdf_pixmaps := λ _, Ok [Ok "png-1"; Ok "png-2"];
     read_bytes := λ _, Ok "png-1";
     chat_completion := λ _ img_bytes,
       if String.eqb img_bytes "png-1" then Ok (Some " Page one ")
       else Raise (Exc TimeoutError "timed out") |}.

(** A three-page PDF whose third page cannot be rendered. *)
Definition example_vision_broken : VisionServices :=
  {| pdf_pixmaps := λ _, Ok [Ok "png-1"; Ok "png-1"; Raise (Exc RuntimeError "bad page")];
     read_bytes := λ _, Ok "png-1";
     chat_completion := λ _ _, Ok (Some "Page text") |}.

(** The page and the stripped text of a block that counts: a [LINE] block
    whose text has a character that is not white space. *)
Definition line_of_block (b : Block) : option (Z * string) :=
  if bool_decide (BlockType b = Some "LINE") then
    if blank (default "" (Text b)) then None
    else Some (default 1 (Page b), strip (default "" (Text b)))
  else None.

(** The lines of page [p], in the order of the blocks. *)
Definition lines_of_page (p : Z) (blocks : list Block) : list string :=
  omap (λ b, match line_of_block b with
             | Some (q, text) => if decide (q = p) then Some text else None
             | None => None
             end) blocks.

(** Lookup in the dictionary [page_to_lines]. *)
Fixpoint lines_at (p : Z) (page_to_lines : list (Z * list string)) : option (list string) :=
  match page_to_lines with
  | [] => None
  | (q, ls) :: rest => if decide (p = q) then Some ls else lines_at p rest
  end.

(** A Mathpix service whose status request cannot connect. *)
Definition unreachable_mathpix : MathpixApi :=
  {| mathpix_upload := λ _, Ok (PyStr "pdf-1");
     mathpix_status := λ _ _, Raise (Exc ConnectionError "connection refused");
     mathpix_lines := λ _, Raise (Exc ConnectionError "connection refused") |}.

(** The entry of Mathpix's page map for one page of the reply. *)
Definition mathpix_entry (job_id : PyVal) (page_data : MathpixPage) : PyKey * PyVal :=
  (KInt (default 1 (page page_data)), mathpix_page job_id page_data).

(** A line of the reply whose text has a character that is not white
    space. *)
Definition line_has_text (l : MathpixLine) : bool :=
  negb (blank (default "" (text_display l))).

(** *** The calls of [start_background_tasks_for_documents], as a list *)

(** The jobs made for one document when [c] uuids have been drawn: one
    per extractor, with the uuids drawn in turn. *)
Definition jobs_for (uuid4 : nat → string) (c : nat) (doc : DocInfo) (selected : list string)
    : list (string * DocumentExtractionJob) :=
  imap (λ i name, (uuid4 (c + i)%nat, new_job (di_uuid doc) name))
       (file_extractors (di_file_type doc) selected).

(** The calls made for one document: the jobs are added, then registered
    together, then queued one by one. *)
Definition calls_for (uuid4 : nat → string) (c : nat) (doc : DocInfo) (selected : list string)
    : list ApiCall :=
  let jobs := jobs_for uuid4 c doc selected in
  ((λ job, DbAdd job.1 job.2) <$> jobs)
  ++ [RegisterTasks (di_uuid doc) jobs.*1]
  ++ ((λ job, Delay (first_message job.1 (di_uuid doc) (di_file_path doc) (extractor job.2)))
        <$> jobs).

Fixpoint calls_for_all (uuid4 : nat → string) (c : nat) (docs : list DocInfo)
    (selected : list string) : list ApiCall :=
  match docs with
  | [] => []
  | doc :: rest =>
      calls_for uuid4 c doc selected
      ++ calls_for_all uuid4 (c + length (file_extractors (di_file_type doc) selected)) rest selected
  end.

(** The tasks among the calls. *)
Definition delayed (calls : list ApiCall) : list TaskMessage :=
  omap (λ c, match c with Delay m => Some m | _ => None end) calls.

(** *** A database for the retry endpoint's example *)

(** A failed job as an older version stored it. *)
Definition failed_job : JobRow :=
  {| job_document_uuid := "d1"; job_extractor := "PyPDF2"; job_status := "Failed";
     job_start_time := Some 1000000; job_end_time := Some 1250000;
     job_latency_ms := Some 250; job_cost := Some 0.0%float; job_deleted_at := None |}.

Definition example_page_row (id job_uuid : string) : DocumentPageContent :=
  {| uuid := id; extraction_job_uuid := job_uuid; page_number := KInt 1;
     content := PyDict [(KStr "TEXT", PyStr "hello")]; metadata_ := PyDict [];
     deleted_at := None |}.

Definition example_database : Database :=
  {| projects := {[ "p1" := {| project_user_id := 7; project_deleted_at := None |} ]};
     document_rows := {[ "d1" := {| filepath := "uploads/d1_a.pdf";
                                    project_uuid_of := Some "p1";
                                    document_deleted_at := None |} ]};
     job_rows := {[ "j1" := failed_job ]};
     page_content_rows := [ example_page_row "row-0" "j1"; example_page_row "row-1" "j2" ] |}.

(** * Properties *)

(** ** Strings *)

Lemma lstrip_nil_iff l : lstrip_chars l = [] ↔ forallb is_space l = true.
Proof.
  induction l as [|c l IH]; simpl; [done|].
  destruct (is_space c); simpl; [done|]. split; done.
Qed.

Lemma lstrip_head l c l' : lstrip_chars l = c :: l' → is_space c = false.
Proof.
  induction l as [|a l IH]; simpl; [done|].
  destruct (is_space a) eqn:E; [done|]. by intros [= -> _].
Qed.

Lemma forallb_rev {A} (p : A → bool) l : forallb p (rev l) = forallb p l.
Proof.
  induction l as [|a l IH]; simpl; [done|].
  rewrite forallb_app, IH. simpl. rewrite andb_true_r. apply andb_comm.
Qed.

Lemma strip_empty_iff s : strip s = "" ↔ blank s = true.
Proof.
  unfold strip, blank, rstrip_chars.
  set (l := list_ascii_of_string s). split.
  - intros H.
    assert (rev (lstrip_chars (rev (lstrip_chars l))) = []) as H1.
    { destruct (rev _) eqn:E; [done|]. simpl in H. discriminate. }
    apply (f_equal (@rev ascii)) in H1. rewrite rev_involutive in H1. simpl in H1.
    apply lstrip_nil_iff in H1. rewrite forallb_rev in H1.
    destruct (lstrip_chars l) as [|c l'] eqn:E.
    + by apply lstrip_nil_iff.
    + apply lstrip_head in E. simpl in H1. by rewrite E in H1.
  - intros H. apply lstrip_nil_iff in H. by rewrite H.
Qed.

Lemma truthy_strip s : truthy (PyStr (strip s)) = negb (blank s).
Proof.
  simpl. destruct (blank s) eqn:B.
  - apply strip_empty_iff in B. by rewrite B.
  - destruct (String.eqb_spec (strip s) "") as [E|]; [|done].
    apply strip_empty_iff in E. congruence.
Qed.

(** ** The validator on typed page maps *)

Lemma assoc_encode_content tag c :
  assoc (KStr tag) (map (λ kv : string * string, (KStr kv.1, PyStr kv.2)) c)
  = PyStr <$> lookup_tag tag c.
Proof.
  induction c as [|[t s] c IH]; simpl; [done|].
  destruct (decide (KStr tag = KStr t)) as [E|N], (decide (tag = t)) as [E'|N'];
    simpl; try done; congruence.
Qed.

Lemma py_get_encode_content tag p :
  py_get (encode_content (page_content p)) tag PyNone
  = Ok (default PyNone (PyStr <$> lookup_tag tag (page_content p))).
Proof. unfold encode_content. simpl. by rewrite assoc_encode_content. Qed.

Lemma truthy_lookup_tag tag p :
  truthy (default PyNone (PyStr <$> lookup_tag tag (page_content p)))
  = negb (String.eqb (text_of p tag) "").
Proof. unfold text_of. by destruct (lookup_tag tag (page_content p)). Qed.

Lemma lookup_tag_value tag p :
  truthy (default PyNone (PyStr <$> lookup_tag tag (page_content p))) = true →
  default PyNone (PyStr <$> lookup_tag tag (page_content p)) = PyStr (text_of p tag).
Proof. unfold text_of. by destruct (lookup_tag tag (page_content p)). Qed.

Lemma page_text_encode p :
  page_text (encode_content (page_content p)) = Ok (PyStr (strip (selected_text p))).
Proof.
  unfold page_text, selected_text.
  rewrite !py_get_encode_content. cbn [mbind Outcome_bind].
  rewrite <- !truthy_lookup_tag.
  destruct (truthy (default PyNone (PyStr <$> lookup_tag "COMBINED" _))) eqn:C.
  { by rewrite (lookup_tag_value _ _ C). }
  cbn [negb]. cbn [mbind Outcome_bind].
  destruct (truthy (default PyNone (PyStr <$> lookup_tag "TEXT" _))) eqn:T.
  { by rewrite (lookup_tag_value _ _ T). }
  cbn [negb mbind Outcome_bind]. unfold py_or.
  destruct (truthy (default PyNone (PyStr <$> lookup_tag "LATEX" _))) eqn:L.
  { by rewrite (lookup_tag_value _ _ L). }
  rewrite truthy_lookup_tag in L. apply negb_false_iff in L.
  apply String.eqb_eq in L. by rewrite L.
Qed.

Lemma scan_pages_encode pages :
  scan_pages (map (λ np : Z * NormalizedPage, (KInt np.1, encode_page np.2)) pages)
  = Ok (existsb (λ np, negb (blank (selected_text np.2))) pages).
Proof.
  induction pages as [|[n p] pages IH]; [done|].
  cbn [map scan_pages fst snd existsb].
  assert (py_get (py_or (encode_page p) (PyDict [])) "content" (PyDict [])
          = Ok (encode_content (page_content p))) as -> by done.
  cbn [mbind Outcome_bind]. rewrite page_text_encode. cbn [mbind Outcome_bind].
  rewrite truthy_strip. destruct (blank (selected_text p)); simpl; [apply IH|done].
Qed.

(** On a well-formed page map the validator decides whether some page's
    selected text has a non-blank character. *)
Lemma has_meaningful_content_encode pages :
  _has_meaningful_content (encode pages)
  = Ok (existsb (λ np, negb (blank (selected_text np.2))) pages).
Proof.
  unfold _has_meaningful_content, validator_body, encode.
  destruct pages as [|np pages]; [done|].
  cbn [truthy map negb py_items mbind Outcome_bind].
  change ((KInt np.1, encode_page np.2) :: map _ pages)
    with (map (λ np : Z * NormalizedPage, (KInt np.1, encode_page np.2)) (np :: pages)).
  by rewrite scan_pages_encode.
Qed.

Lemma selected_text_cases p :
  selected_text p = text_of p "COMBINED" ∨ selected_text p = text_of p "TEXT"
  ∨ selected_text p = text_of p "LATEX".
Proof.
  unfold selected_text.
  destruct (negb _); [auto|]. destruct (negb _); auto.
Qed.

(** ** The validator on arbitrary values *)

Lemma has_meaningful_content_returns pages : ∃ b, _has_meaningful_content pages = Ok b.
Proof. unfold _has_meaningful_content. destruct (validator_body pages); eauto. Qed.

Lemma py_get_truthy data tag v :
  py_get data tag PyNone = Ok v → truthy v = true →
  ∃ c, data = PyDict c ∧ assoc (KStr tag) c = Some v.
Proof.
  destruct data; try done. simpl. intros [= <-] T. eexists; split; [done|].
  by destruct (assoc _ _).
Qed.

Lemma validator_tag_elem tag :
  tag = "COMBINED" ∨ tag = "TEXT" ∨ tag = "LATEX" → tag ∈ validator_tags.
Proof.
  unfold validator_tags. rewrite !elem_of_cons. tauto.
Qed.

Lemma page_text_truthy data text :
  page_text data = Ok text → truthy text = true →
  ∃ c tag s, data = PyDict c ∧ tag ∈ validator_tags
    ∧ assoc (KStr tag) c = Some (PyStr s) ∧ blank s = false.
Proof.
  unfold page_text. intros H T.
  destruct (py_get data "COMBINED" PyNone) as [cv|] eqn:C; [|done].
  cbn [mbind Outcome_bind] in H.
  assert (∀ v tag, py_get data tag PyNone = Ok v → truthy v = true → tag ∈ validator_tags →
            py_strip v = Ok text →
            ∃ c tag s, data = PyDict c ∧ tag ∈ validator_tags
              ∧ assoc (KStr tag) c = Some (PyStr s) ∧ blank s = false) as Hfound.
  { intros v tag G Tv Htag S.
    destruct (py_get_truthy _ _ _ G Tv) as (c & -> & A).
    destruct v; try done. simpl in S. injection S as <-.
    rewrite truthy_strip in T. apply negb_true_iff in T. eauto 10. }
  destruct (truthy cv) eqn:Tc.
  { cbn [mbind Outcome_bind] in H. eapply Hfound; eauto using validator_tag_elem. }
  destruct (py_get data "TEXT" PyNone) as [tv|] eqn:Tx; [|done].
  cbn [mbind Outcome_bind] in H.
  destruct (truthy tv) eqn:Tt.
  { cbn [mbind Outcome_bind] in H. eapply Hfound; eauto using validator_tag_elem. }
  destruct (py_get data "LATEX" PyNone) as [lv|] eqn:Lx; [|done].
  cbn [mbind Outcome_bind] in H. unfold py_or in H.
  destruct (truthy lv) eqn:Tl.
  { eapply Hfound; eauto using validator_tag_elem. }
  simpl in H. by injection H as <-.
Qed.

Lemma scan_pages_true items :
  scan_pages items = Ok true → ∃ k body, (k, body) ∈ items ∧ page_has_text body.
Proof.
  induction items as [|[k body] items IH]; [done|].
  cbn [scan_pages]. intros H.
  destruct (py_get (py_or body (PyDict [])) "content" (PyDict [])) as [data|] eqn:G; [|done].
  cbn [mbind Outcome_bind] in H.
  destruct (page_text data) as [text|] eqn:P; [|done].
  cbn [mbind Outcome_bind] in H.
  destruct (truthy text) eqn:T.
  - exists k, body. split; [apply elem_of_cons; by left|].
    destruct (page_text_truthy _ _ P T) as (c & tag & s & -> & Htag & A & B).
    unfold py_or in G. destruct (truthy body) eqn:Tb.
    + destruct body; try done. simpl in G.
      destruct (assoc (KStr "content") d) eqn:Ad; simpl in G; injection G as G.
      * subst. by exists d, c, tag, s.
      * by subst.
    + simpl in G. injection G as G. by subst.
  - destruct (IH H) as (k' & body' & Hin & Hp). exists k', body'.
    split; [apply elem_of_cons; by right|done].
Qed.

(** The validator accepts only a mapping one of whose pages has text. *)
Lemma has_meaningful_content_true pages :
  _has_meaningful_content pages = Ok true →
  ∃ d k body, pages = PyDict d ∧ (k, body) ∈ d ∧ page_has_text body.
Proof.
  unfold _has_meaningful_content, validator_body. intros H.
  destruct (truthy pages) eqn:T; [|done]. cbn [negb] in H.
  destruct pages; try done. cbn [py_items mbind Outcome_bind] in H.
  destruct (scan_pages d) as [[]|] eqn:S; try done.
  destruct (scan_pages_true _ S) as (k & body & Hin & Hp). eauto 10.
Qed.

Lemma page_has_text_not_malformed body : page_has_text body → malformed body = false.
Proof.
  intros (b & c & tag & s & -> & Hc & _). simpl. rewrite Hc.
  by apply bool_decide_eq_false.
Qed.

(** ** Cost *)

Lemma round_half_even_integer (q : Q) (z : Z) : (q == inject_Z z)%Q → round_half_even q = z.
Proof.
  intros H. unfold round_half_even.
  assert (Qfloor q = z) as -> by (rewrite (Qfloor_comp _ _ H); apply Qfloor_Z).
  assert ((q - inject_Z z == 0)%Q) as E by (rewrite H; ring).
  by rewrite (Qcompare_comp _ _ E _ _ (Qeq_refl _)).
Qed.

(** Rounding changes nothing when the scaled value is an integer. *)
Lemma decimal_round_exact (q : Q) (n : nat) (z : Z) :
  (q * inject_Z (10 ^ Z.of_nat n) == inject_Z z)%Q → (decimal_round q n == q)%Q.
Proof.
  intros H. unfold decimal_round. rewrite (round_half_even_integer _ _ H).
  assert (0 < 10 ^ Z.of_nat n) as Hpos by (apply Z.pow_pos_nonneg; lia).
  rewrite Qmake_Qdiv, Z2Pos.id by done. rewrite <- H.
  field. intros Hz. revert Hz. unfold Qeq. simpl. lia.
Qed.

Lemma rate_listed extractor_type r :
  decimal_cost_per_page !! extractor_type = Some r →
  r ∈ [0%Q; 15 # 10000; 5 # 1000; 10 # 1000; 15 # 1000].
Proof.
  unfold decimal_cost_per_page. intros H. apply elem_of_list_to_map_2 in H.
  rewrite !elem_of_cons in H. rewrite !elem_of_cons.
  destruct H as [H|[H|[H|[H|[H|[H|[H|[H|[H|H]]]]]]]]];
    try (injection H as _ ->; tauto).
  by apply elem_of_nil in H.
Qed.

(** Every rate is a whole number of ten-thousandths. *)
Lemma rate_scaled extractor_type :
  ∃ m : Z, (decimal_rate extractor_type * inject_Z (10 ^ 4) == inject_Z m)%Q.
Proof.
  unfold decimal_rate.
  destruct (decimal_cost_per_page !! extractor_type) as [r|] eqn:E; simpl.
  - apply rate_listed in E.
    repeat (apply elem_of_cons in E as [->|E]).
    + by exists 0.
    + by exists 15.
    + by exists 50.
    + by exists 100.
    + by exists 150.
    + by apply elem_of_nil in E.
  - by exists 10.
Qed.

Lemma decimal_cost_exact extractor_type page_count :
  (decimal_cost extractor_type page_count
   == decimal_rate extractor_type * inject_Z page_count)%Q.
Proof.
  unfold decimal_cost.
  destruct (rate_scaled extractor_type) as [m Hm].
  apply (decimal_round_exact _ 4 (m * page_count)).
  change (Z.of_nat 4) with 4. rewrite inject_Z_mult, <- Hm. ring.
Qed.

(** An identifier without a listed rate is priced at the default in both
    tables. *)
Lemma unpriced_rates extractor_type :
  extractor_type ∉ priced →
  cost_per_page !! extractor_type = None ∧ decimal_cost_per_page !! extractor_type = None.
Proof.
  intros H. split; apply not_elem_of_list_to_map_1; exact H.
Qed.

Lemma forallb_pointwise {A} (p q : A → bool) l :
  (∀ a, p a = q a) → forallb p l = forallb q l.
Proof. intros H. induction l as [|a l IH]; simpl; [done|]. by rewrite H, IH. Qed.

Lemma forallb_seq_le (p : nat → bool) (n k : nat) :
  forallb p (seq 0 (S n)) = true → (k ≤ n)%nat → p k = true.
Proof.
  intros H Hk. rewrite forallb_forall in H. apply H. apply in_seq. lia.
Qed.

(** ** The registry *)

Lemma READER_MAP_dom extractor_type :
  is_Some (READER_MAP !! extractor_type)
  ↔ extractor_type ∈ [ "PyMuPDF"; "PDFPlumber"; "PyPDF2"; "Tesseract"; "Textract";
                        "MarkItDown"; "LlamaParse"; "Mathpix"; "gpt-4o-mini"; "gpt-4o";
                        "gpt-4-turbo" ].
Proof.
  split.
  - intros [c H]. unfold READER_MAP in H. apply elem_of_list_to_map_2 in H.
    rewrite !elem_of_cons in H. rewrite !elem_of_cons.
    destruct H as [H|[H|[H|[H|[H|[H|[H|[H|[H|[H|[H|H]]]]]]]]]]];
      try (injection H as -> _; tauto).
    by apply elem_of_nil in H.
  - rewrite !elem_of_cons. intros H.
    destruct H as [->|[->|[->|[->|[->|[->|[->|[->|[->|[->|[->|H]]]]]]]]]]];
      try (by eexists; vm_compute).
    by apply elem_of_nil in H.
Qed.

(** ** The local extractors *)

Lemma py_setitem_fresh d k v :
  (∀ k' v', (k', v') ∈ d → k' ≠ k) → py_setitem d k v = (d ++ [(k, v)])%list.
Proof.
  induction d as [|[k' v'] d IH]; intros H; simpl; [done|].
  destruct (decide (k = k')) as [->|N].
  - exfalso. eapply H; [apply elem_of_cons; by left|done].
  - f_equal. apply IH. intros k'' v'' Hin. eapply H. apply elem_of_cons. by right.
Qed.

Lemma pypdf2_loop_numbered texts page_num acc :
  (∀ k v, (k, v) ∈ acc → ∃ z, k = KInt z ∧ z ≤ page_num) →
  pypdf2_loop (Ok <$> texts) page_num acc = Ok (acc ++ numbered_pages page_num texts)%list.
Proof.
  revert page_num acc. induction texts as [|t texts IH]; intros page_num acc Hacc; simpl.
  - by rewrite app_nil_r.
  - cbn [mbind Outcome_bind]. rewrite py_setitem_fresh.
    + rewrite IH.
      * by rewrite <- app_assoc.
      * intros k v [Hin|Hin%list_elem_of_singleton]%elem_of_app.
        -- destruct (Hacc _ _ Hin) as (z & -> & Hz). exists z. split; [done|lia].
        -- injection Hin as -> _. exists (page_num + 1). split; [done|lia].
    + intros k v Hin ->. destruct (Hacc _ _ Hin) as (z & [= <-] & Hz). lia.
Qed.

(** With a library that opens the file and reads every page, PyPDF2 leaves
    pages numbered from 1. *)
Lemma pypdf2_page_contents_numbered lib file_path texts :
  PdfReader lib file_path = Ok (Ok <$> texts) →
  pypdf2_page_contents lib file_path = PyDict (numbered_pages 0 texts).
Proof.
  intros H. unfold pypdf2_page_contents. rewrite H. cbn [mbind Outcome_bind].
  rewrite pypdf2_loop_numbered; [done|]. intros k v Hin. by apply elem_of_nil in Hin.
Qed.

Lemma numbered_pages_keys page_num texts :
  (numbered_pages page_num texts).*1
  = (λ i : nat, KInt (page_num + 1 + Z.of_nat i)) <$> seq 0 (length texts).
Proof.
  revert page_num. induction texts as [|t texts IH]; intros page_num; [done|].
  cbn [numbered_pages fmap list_fmap fst length seq]. f_equal.
  - f_equal. lia.
  - rewrite IH, <- seq_shift, <- list_fmap_compose. apply list_fmap_ext.
    intros _ i _. simpl. f_equal. lia.
Qed.

(** ** Rounding *)

Lemma round_half_even_nearest (q : Q) :
  (Qabs (inject_Z (round_half_even q) - q) <= 1 # 2)%Q.
Proof.
  unfold round_half_even.
  pose proof (Qfloor_le q) as Hlo. pose proof (Qlt_floor q) as Hhi.
  rewrite inject_Z_plus in Hhi. change (inject_Z 1) with 1%Q in Hhi.
  apply Qabs_Qle_condition.
  destruct (Qcompare_spec (q - inject_Z (Qfloor q)) (1 # 2)) as [E|L|G].
  - destruct (Z.even (Qfloor q));
      [|rewrite inject_Z_plus; change (inject_Z 1) with 1%Q]; split; lra.
  - split; lra.
  - rewrite inject_Z_plus. change (inject_Z 1) with 1%Q. split; lra.
Qed.

(** [decimal_round q n] is a multiple of [10^-n] within half a unit of [q]. *)
Lemma decimal_round_nearest (q : Q) (n : nat) :
  (Qabs (decimal_round q n - q) * inject_Z (10 ^ Z.of_nat n) <= 1 # 2)%Q.
Proof.
  assert (0 < 10 ^ Z.of_nat n) as Hpos by (apply Z.pow_pos_nonneg; lia).
  assert (0 < inject_Z (10 ^ Z.of_nat n))%Q as HposQ.
  { unfold Qlt. simpl. lia. }
  unfold decimal_round. rewrite Qmake_Qdiv, Z2Pos.id by done.
  set (s := inject_Z (10 ^ Z.of_nat n)) in *.
  assert (Qabs (inject_Z (round_half_even (q * s)) / s - q) * s
          == Qabs (inject_Z (round_half_even (q * s)) - q * s))%Q as ->.
  { transitivity (Qabs (inject_Z (round_half_even (q * s)) / s - q) * Qabs s)%Q.
    - rewrite (Qabs_pos s); [reflexivity|lra].
    - rewrite <- Qabs_Qmult. apply Qabs_wd. field. lra. }
  apply round_half_even_nearest.
Qed.

(** ** Running the monad *)

Lemma bind_run {A B} (m : M A) (k : A → M B) w :
  (m ≫= k) w = match m w with
               | (Ret a, w') => k a w'
               | (Exn e, w') => (Exn e, w')
               | (OutOfFuel, w') => (OutOfFuel, w')
               end.
Proof. reflexivity. Qed.

Lemma bind_Ret_eq {A B} (m : M A) (k : A → M B) w a w1 :
  m w = (Ret a, w1) → (m ≫= k) w = k a w1.
Proof. intros H. by rewrite bind_run, H. Qed.

Lemma bind_Ret_inv {A B} (m : M A) (k : A → M B) w b w' :
  (m ≫= k) w = (Ret b, w') → ∃ a w1, m w = (Ret a, w1) ∧ k a w1 = (Ret b, w').
Proof. rewrite bind_run. destruct (m w) as [[a|e|] w1]; [eauto|done..]. Qed.

Lemma bind_lift_Ok {A B} (a : A) (k : A → M B) w : (lift (Ok a) ≫= k) w = k a w.
Proof. reflexivity. Qed.

Lemma bind_assoc {A B C} (m : M A) (k : A → M B) (h : B → M C) w :
  ((m ≫= k) ≫= h) w = (m ≫= λ a, k a ≫= h) w.
Proof. rewrite !bind_run. by destruct (m w) as [[a|e|] w1]. Qed.

Lemma bind_ext {A B} (m : M A) (k h : A → M B) w :
  (∀ a w', k a w' = h a w') → (m ≫= k) w = (m ≫= h) w.
Proof. intros H. rewrite !bind_run. destruct (m w) as [[a|e|] w1]; auto. Qed.

Ltac unfold_monad :=
  unfold try_log, try_except, finally, when, db_rollback_at, db_execute_update, db_commit,
    record_extractor_failure, reset_circuit_breaker, mark_task_failed, mark_task_complete,
    self_retry, emit, ext, modify, raise, get_world, lift in *;
  unfold mbind, M_bind, mret, M_ret in *.

(** ** Frames: what a computation leaves alone *)

Section Preserves.

Context (R : World → World → Prop) `{!PreOrder R}.

Lemma preserves_ret {A} (a : A) : preserves R (mret a).
Proof. intros w. simpl. reflexivity. Qed.

Lemma preserves_raise {A} e : preserves R (@raise A e).
Proof. intros w. simpl. reflexivity. Qed.

Lemma preserves_out_of_fuel {A} : preserves R (@out_of_fuel A).
Proof. intros w. simpl. reflexivity. Qed.

Lemma preserves_get_world : preserves R get_world.
Proof. intros w. simpl. reflexivity. Qed.

Lemma preserves_lift {A} (o : Outcome A) : preserves R (lift o).
Proof. destruct o; [apply preserves_ret|apply preserves_raise]. Qed.

Lemma preserves_modify g : (∀ w, R w (g w)) → preserves R (modify g).
Proof. intros H w. apply H. Qed.

Lemma preserves_bind {A B} (m : M A) (k : A → M B) :
  preserves R m → (∀ a, preserves R (k a)) → preserves R (m ≫= k).
Proof.
  intros Hm Hk w. rewrite bind_run. specialize (Hm w).
  destruct (m w) as [[a|e|] w1]; simpl in *; [|done..].
  etrans; [exact Hm|]. apply Hk.
Qed.

Lemma preserves_when b (m : M unit) : preserves R m → preserves R (when b m).
Proof. destruct b; [done|]. intros _. apply preserves_ret. Qed.

Lemma preserves_try_except {A} (body : M A) handler :
  preserves R body → (∀ e, preserves R (handler e)) → preserves R (try_except body handler).
Proof.
  intros Hb Hh w. unfold try_except. specialize (Hb w).
  destruct (body w) as [[a|e|] w1]; simpl in *; [done| |done].
  etrans; [exact Hb|]. apply Hh.
Qed.

Lemma preserves_try_log (body : M unit) : preserves R body → preserves R (try_log body).
Proof. intros. apply preserves_try_except; [done|]. intros. apply preserves_ret. Qed.

Lemma preserves_ext env cs : preserves R (ext env cs).
Proof. unfold ext. destruct (fault env cs); [apply preserves_raise|apply preserves_ret]. Qed.

End Preserves.

(** Descends through the structure of a computation, leaving the
    [modify] steps and the recursive functions. *)
Ltac preserves_struct :=
  repeat first
    [ match goal with
      | |- PreOrder _ => apply _
      | |- ∀ _, _ => intros ?
      | |- preserves _ (let '(_, _) := ?p in _) => destruct p
      | |- preserves _ (match ?p with _ => _ end) => destruct p eqn:?
      | |- preserves _ (if ?p then _ else _) => destruct p eqn:?
      end
    | apply preserves_ret | apply preserves_raise | apply preserves_out_of_fuel
    | apply preserves_get_world | apply preserves_lift | apply preserves_ext
    | apply preserves_when
    | apply preserves_try_log
    | apply preserves_bind
    | apply preserves_try_except ].

#[local] Instance only_pages_and_trace_preorder : PreOrder only_pages_and_trace.
Proof.
  split; [by repeat split|].
  intros a b c (?&?&?&?&?&?&?&?) (?&?&?&?&?&?&?&?).
  repeat split; congruence.
Qed.

#[local] Instance try_frame_preorder j : PreOrder (try_frame j).
Proof.
  split; [by split|]. intros a b c [Q1 J1] [Q2 J2]. split; [congruence|auto].
Qed.

#[local] Instance same_pending_rows_preorder : PreOrder same_pending_rows.
Proof. split; [done|]. intros a b c H1 H2. unfold same_pending_rows in *. congruence. Qed.

Section Frames.

Context (K : Constants) (impl : ExtractorImpl) (env : Env).
Context (R : World → World → Prop) `{!PreOrder R}.
Hypothesis R_trace : ∀ w t, R w (set_trace t w).
Hypothesis R_pages : ∀ w p, R w (set_session (set_page_rows p (session w)) w).

Lemma preserves_emit ev : preserves R (emit ev).
Proof. apply preserves_modify. intros w. apply R_trace. Qed.

Lemma preserves_db_add row : preserves R (db_add row).
Proof. apply preserves_modify. intros w. apply R_pages. Qed.

Lemma preserves_poll fuel reader job_id status :
  preserves R (poll impl fuel reader job_id status).
Proof.
  revert reader status. induction fuel as [|fuel IH]; intros reader status; simpl.
  - preserves_struct.
  - preserves_struct; first [apply preserves_emit | apply IH].
Qed.

Lemma preserves_extract fuel reader path :
  preserves R (extract impl fuel reader path).
Proof.
  unfold extract. preserves_struct; first [apply preserves_poll | apply preserves_emit].
Qed.

Lemma preserves_add_pages job_uuid items : preserves R (add_pages env job_uuid items).
Proof.
  induction items as [|[k v] items IH]; simpl.
  - preserves_struct.
  - preserves_struct; first [apply IH | apply preserves_db_add].
Qed.

Lemma preserves_run_extraction fuel job_uuid extractor_type path :
  preserves R (run_extraction impl env fuel job_uuid extractor_type path).
Proof.
  unfold run_extraction. preserves_struct;
    first [apply preserves_poll | apply preserves_emit | apply preserves_add_pages].
Qed.

Lemma preserves_locate_file document_uuid file_path :
  preserves R (locate_file env document_uuid file_path).
Proof. unfold locate_file. preserves_struct; apply preserves_emit. Qed.

Lemma preserves_check_circuit_breaker extractor_type :
  preserves R (check_circuit_breaker K env extractor_type).
Proof. unfold check_circuit_breaker. preserves_struct. Qed.

End Frames.

Section TryBodyFrames.

Context (K : Constants) (impl : ExtractorImpl) (env : Env).
Context (fuel : nat) (j d f x : string).

Lemma middle_frame : preserves only_pages_and_trace (middle impl env fuel j d f x).
Proof.
  unfold middle. apply preserves_bind; [apply _| |intros ?].
  - apply preserves_locate_file; [apply _|]. intros; by repeat split.
  - apply preserves_run_extraction; [apply _| |]; intros; by repeat split.
Qed.

Lemma try_frame_execute cs st g :
  preserves (try_frame j) (db_execute_update env cs j st g).
Proof.
  unfold db_execute_update. preserves_struct. apply preserves_modify. intros w.
  destruct (jobs (session w) !! j) eqn:E; [|done]. split; [done|].
  intros [Hc Hs]. split; [done|]. simpl. rewrite lookup_alter_eq, E. by eexists.
Qed.

Lemma try_frame_commit cs : preserves (try_frame j) (db_commit env cs).
Proof.
  unfold db_commit. preserves_struct. apply preserves_modify. intros w.
  split; [done|]. intros [Hc Hs]. by split.
Qed.

Lemma try_frame_record_success pc :
  preserves (try_frame j) (record_success env j d x pc).
Proof.
  unfold record_success. apply preserves_bind; [apply _| |intros page_count].
  { preserves_struct. }
  apply preserves_bind; [apply _|apply try_frame_execute|intros _].
  apply preserves_bind; [apply _|apply try_frame_commit|intros _].
  unfold reset_circuit_breaker, mark_task_complete.
  preserves_struct; apply preserves_modify; intros w; by split.
Qed.

(** The body of the [try] sends nothing to the queue and removes no job
    row. *)
Lemma try_frame_try_body :
  preserves (try_frame j) (try_body K impl env fuel j d f x).
Proof.
  unfold try_body.
  apply preserves_bind; [apply _| |intros open].
  { apply preserves_check_circuit_breaker. apply _. }
  apply preserves_bind; [apply _| |intros _].
  { preserves_struct. }
  apply preserves_bind; [apply _|apply try_frame_execute|intros _].
  apply preserves_bind; [apply _|apply try_frame_commit|intros _].
  apply preserves_bind; [apply _| |intros path].
  { apply preserves_locate_file; [apply _|]. by split. }
  apply preserves_bind; [apply _| |intros pc].
  { apply preserves_run_extraction; [apply _| |]; by split. }
  apply try_frame_record_success.
Qed.

Lemma prologue_rows : preserves same_pending_rows (prologue K env j d f x).
Proof.
  unfold prologue. preserves_struct; apply preserves_modify; intros w; try done.
  unfold same_pending_rows. by destruct (jobs (session w) !! j).
Qed.

Lemma extract_rows reader path : preserves same_pending_rows (extract impl fuel reader path).
Proof. by apply preserves_extract; [apply _|]. Qed.

Lemma try_body_grouped w :
  try_body K impl env fuel j d f x w
  = (prologue K env j d f x ≫= λ path,
     run_extraction impl env fuel j x path ≫= record_success env j d x) w.
Proof.
  unfold try_body, prologue. symmetry.
  rewrite bind_assoc. apply bind_ext; intros open w1.
  rewrite bind_assoc. apply bind_ext; intros [] w2.
  rewrite bind_assoc. apply bind_ext; intros [] w3.
  by rewrite bind_assoc.
Qed.

End TryBodyFrames.

(** ** The session wrapper *)

Section Session.

Context (K : Constants) (impl : ExtractorImpl) (env : Env).
Context (fuel retries : nat) (j d f x : string).

(** The context manager changes neither the result nor anything durable. *)
Lemma session_context_spec {A} (body : M A) w :
  (get_db_session_context env body w).1 = (body (open_session w)).1
  ∧ same_durable (body (open_session w)).2 (get_db_session_context env body w).2.
Proof.
  unfold get_db_session_context. unfold_monad. fold (open_session w).
  destruct (body (open_session w)) as [[a|e|] w1]; simpl;
    destruct (fault env session_close); simpl;
    try destruct (fault env session_rollback); simpl; by repeat split.
Qed.

Lemma process_spec w :
  (process_document_with_extractor K impl env fuel retries j d f x w).1
  = (handled K impl env fuel retries j d f x (open_session w)).1
  ∧ same_durable (handled K impl env fuel retries j d f x (open_session w)).2
                 (process_document_with_extractor K impl env fuel retries j d f x w).2.
Proof. apply session_context_spec. Qed.

Lemma handled_Exn w e w1 :
  try_body K impl env fuel j d f x w = (Exn e, w1) →
  handled K impl env fuel retries j d f x w = failure_path K env retries j d f x e w1.
Proof. intros H. unfold handled, try_except. by rewrite H. Qed.

(** ** The handler *)

Lemma try_log_rollback cs w :
  try_log (db_rollback_at env cs) w = (Ret tt, open_session w).
Proof. unfold_monad. by destruct (fault env cs). Qed.

(** The guarded FAILURE update never raises and touches nothing but the
    database. *)
Lemma write_failure_spec finish latency w :
  unrecorded w = [] →
  ∃ w2, write_failure env j finish latency w = (Ret tt, w2)
    ∧ queue w2 = queue w ∧ redis w2 = redis w ∧ ttl w2 = ttl w ∧ trace w2 = trace w
    ∧ (recorded w2 = recorded w ∨ recorded w2 = (recorded w ++ [(j, FAILURE)])%list)
    ∧ (fault env db_execute_failure = None → fault env db_commit_failure = None →
       is_Some (jobs (session w) !! j) →
       recorded w2 = (recorded w ++ [(j, FAILURE)])%list
       ∧ status <$> jobs (committed w2) !! j = Some FAILURE).
Proof.
  intros Hu. unfold write_failure. unfold_monad.
  destruct (fault env db_execute_failure) eqn:E1; simpl.
  { eexists. split; [done|]. repeat split; auto; done. }
  destruct (fault env db_commit_failure) eqn:E2; simpl.
  { eexists. split; [done|]. destruct (jobs (session w) !! j); simpl; repeat split; auto; done. }
  eexists. split; [done|].
  destruct (jobs (session w) !! j) eqn:Ej; simpl; rewrite Hu; simpl.
  - repeat split; auto. by rewrite lookup_alter_eq, Ej.
  - rewrite app_nil_r. repeat split; auto;
      match goal with H : is_Some None |- _ => by destruct H end.
Qed.

Lemma failure_path_unfold e w :
  failure_path K env retries j d f x e w
  = (write_failure env j (now_end env) (latency_of (now_start env) (now_end env)) ;;
     classify_and_retry K env retries j d f x e) (open_session w).
Proof.
  unfold failure_path. by rewrite (bind_Ret_eq _ _ _ _ _ (try_log_rollback _ _)).
Qed.

Lemma classify_and_retry_spec e w :
  handler_reliable env →
  let rw := classify_and_retry K env retries j d f x e w in
  rw.1 = (if is_infrastructure_error e then Exn e
          else if (max_retries (get_retry_config K x) <? retries + 1)%nat then Exn e
          else Exn (Exc CeleryRetry (exc_msg e)))
  ∧ queue rw.2 = (if is_infrastructure_error e then queue w
                  else if (max_retries (get_retry_config K x) <? retries + 1)%nat then queue w
                  else queue w ++ [retry_message retries j d f x (countdown (get_retry_config K x))])%list
  ∧ redis rw.2 = <[circuit_key x := default 0 (redis w !! circuit_key x) + 1]> (redis w)
  ∧ trace rw.2 = (trace w ++ [EvMarkFailed d j])%list
  ∧ recorded rw.2 = recorded w ∧ committed rw.2 = committed w.
Proof.
  intros (H1&H2&H3&H4). unfold classify_and_retry. unfold_monad. rewrite H1, H2, H3. simpl.
  destruct (is_infrastructure_error e); simpl; [done|].
  destruct (_ <? _)%nat; simpl; [done|]. by rewrite H4.
Qed.

Lemma classify_and_retry_frame e w :
  let rw := classify_and_retry K env retries j d f x e w in
  (∃ e', rw.1 = Exn e')
  ∧ recorded rw.2 = recorded w ∧ committed rw.2 = committed w
  ∧ (trace rw.2 = trace w ∨ trace rw.2 = (trace w ++ [EvMarkFailed d j])%list).
Proof.
  unfold classify_and_retry. unfold_monad.
  repeat (case_match; simpl in *; simplify_eq; eauto 10).
Qed.

(** The handler always ends in an exception. *)
Lemma failure_path_frame e w :
  let rw := failure_path K env retries j d f x e w in
  (∃ e', rw.1 = Exn e')
  ∧ (recorded rw.2 = recorded w ∨ recorded rw.2 = (recorded w ++ [(j, FAILURE)])%list)
  ∧ (trace rw.2 = trace w ∨ trace rw.2 = (trace w ++ [EvMarkFailed d j])%list).
Proof.
  rewrite failure_path_unfold.
  destruct (write_failure_spec (now_end env) (latency_of (now_start env) (now_end env))
              (open_session w) eq_refl) as (w2 & Hw & _ & _ & _ & Ht & Hrec & _).
  rewrite (bind_Ret_eq _ _ _ _ _ Hw).
  destruct (classify_and_retry_frame e w2) as (He & Hr & _ & Htr).
  simpl in *. rewrite Hr, Ht in *. auto.
Qed.

Lemma handled_Ret_inv w w' :
  handled K impl env fuel retries j d f x w = (Ret tt, w') →
  try_body K impl env fuel j d f x w = (Ret tt, w').
Proof.
  unfold handled, try_except.
  destruct (try_body K impl env fuel j d f x w) as [[[]|e|] w1] eqn:E; [done| |done].
  intros H. destruct (failure_path_frame e w1) as ([e' He] & _). by rewrite H in He.
Qed.

(** What the handler does with the error [e] that the body raised in [w1]. *)
Lemma failure_path_spec e w1 :
  handler_reliable env →
  let rw := failure_path K env retries j d f x e w1 in
  rw.1 = (if is_infrastructure_error e then Exn e
          else if (max_retries (get_retry_config K x) <? retries + 1)%nat then Exn e
          else Exn (Exc CeleryRetry (exc_msg e)))
  ∧ queue rw.2 = (if is_infrastructure_error e then queue w1
                  else if (max_retries (get_retry_config K x) <? retries + 1)%nat then queue w1
                  else queue w1 ++ [retry_message retries j d f x (countdown (get_retry_config K x))])%list
  ∧ redis rw.2 = <[circuit_key x := default 0 (redis w1 !! circuit_key x) + 1]> (redis w1)
  ∧ (fault env db_execute_failure = None → fault env db_commit_failure = None →
     is_Some (jobs (committed w1) !! j) →
     recorded rw.2 = (recorded w1 ++ [(j, FAILURE)])%list
     ∧ status <$> jobs (committed rw.2) !! j = Some FAILURE).
Proof.
  intros Hr. rewrite failure_path_unfold.
  destruct (write_failure_spec (now_end env) (latency_of (now_start env) (now_end env))
              (open_session w1) eq_refl) as (w2 & Hw & Hq2 & Hred & _ & _ & _ & Hst).
  rewrite (bind_Ret_eq _ _ _ _ _ Hw).
  destruct (classify_and_retry_spec e w2 Hr) as (Hres & Hqueue & Hredis & _ & Hrec & Hc).
  simpl in *. split; [exact Hres|]. split; [by rewrite Hqueue, Hq2|].
  split; [by rewrite Hredis, Hred|].
  intros F1 F2 Hjob. rewrite Hrec, Hc. by apply Hst.
Qed.

(** ** The breaker check *)

Lemma check_open w :
  fault env redis_get = None → breaker_open K x w →
  check_circuit_breaker K env x w = (Ret true, w).
Proof.
  intros Hf (n & Hn & Hle). unfold check_circuit_breaker. unfold_monad.
  rewrite Hf, Hn. simpl. by rewrite (proj2 (Z.leb_le _ _) Hle).
Qed.

Lemma check_closed w :
  fault env redis_get = None → breaker_closed K x w →
  check_circuit_breaker K env x w = (Ret false, w).
Proof.
  intros Hf Hc. unfold check_circuit_breaker. unfold_monad. rewrite Hf. simpl.
  destruct (redis w !! circuit_key x) as [n|] eqn:E; [|done].
  specialize (Hc n E). by rewrite (proj2 (Z.leb_gt _ _) Hc).
Qed.

(** With the breaker open the body stops at the check. *)
Lemma try_body_open w :
  fault env redis_get = None → breaker_open K x w →
  try_body K impl env fuel j d f x w = (Exn (circuit_open_error x), w).
Proof.
  intros Hf Ho. unfold try_body.
  by rewrite (bind_Ret_eq _ _ _ _ _ (check_open w Hf Ho)).
Qed.

(** ** The success path *)

Lemma write_processing_spec w job :
  fault env db_execute_processing = None → fault env db_commit_processing = None →
  jobs (session w) !! j = Some job →
  ∃ w2,
    (db_execute_update env db_execute_processing j PROCESSING (values_processing (now_start env)) ;;
     db_commit env db_commit_processing) w = (Ret tt, w2)
    ∧ recorded w2 = (recorded w ++ unrecorded w ++ [(j, PROCESSING)])%list
    ∧ unrecorded w2 = []
    ∧ is_Some (jobs (session w2) !! j).
Proof.
  intros F1 F2 Hj. unfold_monad. rewrite F1. simpl. rewrite F2. simpl. rewrite Hj. simpl.
  eexists. split; [done|]. simpl. rewrite lookup_alter_eq, Hj. repeat split; eauto.
Qed.

Lemma record_success_cases pc w :
  fault env redis_delete = None → fault env notify_complete = None →
  is_Some (jobs (session w) !! j) →
  let rw := record_success env j d x pc w in
  (rw.1 = Ret tt ∧ recorded rw.2 = (recorded w ++ unrecorded w ++ [(j, SUCCESS)])%list)
  ∨ (∃ e, rw.1 = Exn e ∧ recorded rw.2 = recorded w).
Proof.
  intros F1 F2 [job Hj]. unfold record_success. unfold_monad. rewrite F1, F2.
  destruct (truthy pc); [destruct (py_len pc)|]; simpl; eauto;
    (destruct (fault env db_execute_success); simpl; [by eauto|]);
    rewrite Hj; simpl;
    (destruct (fault env db_commit_success); simpl; by eauto).
Qed.

Lemma record_success_Ret pc w w' :
  record_success env j d x pc w = (Ret tt, w') →
  page_rows (committed w') = page_rows (session w).
Proof.
  unfold record_success. unfold_monad.
  destruct (truthy pc); [destruct (py_len pc)|]; simpl; try done;
    (destruct (fault env db_execute_success); simpl; [done|]);
    (destruct (fault env db_commit_success); simpl; [done|]);
    (destruct (fault env redis_delete); simpl; [done|]);
    (destruct (fault env notify_complete); simpl; [done|]);
    intros [= <-]; by destruct (jobs (session w) !! j).
Qed.

Lemma try_body_closed w job :
  fault env redis_get = None → breaker_closed K x w →
  fault env db_execute_processing = None → fault env db_commit_processing = None →
  jobs (session w) !! j = Some job →
  ∃ w2,
    try_body K impl env fuel j d f x w
    = (middle impl env fuel j d f x ≫= record_success env j d x) w2
    ∧ recorded w2 = (recorded w ++ unrecorded w ++ [(j, PROCESSING)])%list
    ∧ unrecorded w2 = []
    ∧ is_Some (jobs (session w2) !! j).
Proof.
  intros F0 Hc F1 F2 Hj.
  destruct (write_processing_spec w job F1 F2 Hj) as (w2 & Hw & Hr & Hu & Hs).
  exists w2. split; [|done].
  unfold try_body. rewrite (bind_Ret_eq _ _ _ _ _ (check_closed w F0 Hc)).
  cbn [when]. rewrite (bind_Ret_eq _ _ w tt w) by done.
  rewrite bind_run in Hw. rewrite bind_run.
  destruct (db_execute_update _ _ _ _ _ w) as [[[]|e|] w1]; [|done..].
  rewrite (bind_Ret_eq _ _ _ _ _ Hw). unfold middle. by rewrite bind_assoc.
Qed.

(** With the breaker closed and the PROCESSING write and the bookkeeping
    after the SUCCESS commit going through, these are the writes that can
    be committed. *)
Lemma handled_closed_recorded w job :
  unrecorded w = [] →
  fault env redis_get = None → breaker_closed K x w →
  fault env db_execute_processing = None → fault env db_commit_processing = None →
  fault env redis_delete = None → fault env notify_complete = None →
  jobs (session w) !! j = Some job →
  let w' := (handled K impl env fuel retries j d f x w).2 in
  recorded w' = (recorded w ++ [(j, PROCESSING)])%list
  ∨ recorded w' = (recorded w ++ [(j, PROCESSING); (j, SUCCESS)])%list
  ∨ recorded w' = (recorded w ++ [(j, PROCESSING); (j, FAILURE)])%list.
Proof.
  intros Hu F0 Hc F1 F2 F3 F4 Hj.
  destruct (try_body_closed w job F0 Hc F1 F2 Hj) as (w2 & Ht & Hr2 & Hu2 & Hs2).
  rewrite Hu in Hr2. simpl in Hr2.
  assert (∀ e w3, recorded w3 = (recorded w ++ [(j, PROCESSING)])%list →
            let w' := (failure_path K env retries j d f x e w3).2 in
            recorded w' = (recorded w ++ [(j, PROCESSING)])%list
            ∨ recorded w' = (recorded w ++ [(j, PROCESSING); (j, FAILURE)])%list) as Hfail.
  { intros e w3 H3. destruct (failure_path_frame e w3) as (_ & Hrec & _).
    simpl in *. rewrite H3 in Hrec. rewrite <- app_assoc in Hrec. exact Hrec. }
  pose proof (middle_frame impl env fuel j d f x w2) as (_ & Hjobs & _ & Hmr & Hmu & _).
  unfold handled, try_except. rewrite Ht. rewrite bind_run.
  destruct (middle impl env fuel j d f x w2) as [[pc|e|] w3] eqn:Hm; simpl in Hjobs, Hmr, Hmu.
  - assert (is_Some (jobs (session w3) !! j)) as Hs3 by (by rewrite Hjobs).
    destruct (record_success_cases pc w3 F3 F4 Hs3) as [[Hres Hrec]|(e & Hres & Hrec)];
      destruct (record_success env j d x pc w3) as [r w4]; simpl in Hres, Hrec; subst r.
    + simpl. rewrite Hrec, Hmr, Hmu, Hr2, Hu2. simpl. rewrite <- app_assoc. auto.
    + destruct (Hfail e w4) as [H|H]; [by rewrite Hrec, Hmr|auto..].
  - destruct (Hfail e w3) as [H|H]; [by rewrite Hmr|auto..].
  - simpl. rewrite Hmr. auto.
Qed.

(** ** The rows a successful run stores *)

Lemma add_pages_Ret items w w' :
  add_pages env j items w = (Ret tt, w') →
  ∃ rows, page_rows (session w') = (page_rows (session w) ++ rows)%list
          ∧ Forall2 (row_of_page j) rows items.
Proof.
  revert w. induction items as [|[k body] items IH]; intros w; simpl.
  - intros [= <-]. exists []. rewrite app_nil_r. by split.
  - intros H. apply bind_Ret_inv in H as (c & w1 & Hc & H).
    unfold lift in Hc. destruct (py_getitem body "content") as [c'|] eqn:Hg; [|done].
    injection Hc as <- <-.
    apply bind_Ret_inv in H as (w0 & w1 & Hw & H). injection Hw as <- <-.
    apply bind_Ret_inv in H as ([] & w1 & Ha & H).
    unfold db_add, modify in Ha. injection Ha as <-.
    destruct (IH _ H) as (rows & Hrows & Hall). simpl in Hrows.
    eexists (_ :: rows). split.
    + by rewrite Hrows, <- app_assoc.
    + constructor; [|done]. by repeat split.
Qed.

Lemma validate_and_save_Ret pc w w' :
  validate_and_save env j x pc w = (Ret tt, w') →
  ∃ items rows, pc = PyDict items
    ∧ page_rows (session w') = (page_rows (session w) ++ rows)%list
    ∧ Forall2 (row_of_page j) rows items.
Proof.
  unfold validate_and_save. intros H.
  apply bind_Ret_inv in H as (ok & w1 & Hok & H).
  destruct (has_meaningful_content_returns pc) as [b Hb]. rewrite Hb in Hok.
  injection Hok as <- <-.
  destruct b; [|by apply bind_Ret_inv in H as (? & ? & ? & _)].
  apply bind_Ret_inv in H as ([] & w1 & Hw & H). injection Hw as <-.
  destruct (has_meaningful_content_true _ Hb) as (items & k & body & -> & Hin & _).
  assert (truthy (PyDict items) = true) as Ht by (by destruct items; [inversion Hin|]).
  rewrite Ht in H. cbn [when] in H.
  apply bind_Ret_inv in H as (items' & w1 & Hi & H). injection Hi as <- <-.
  destruct (add_pages_Ret _ _ _ H) as (rows & ? & ?). eauto 10.
Qed.

(** A failed validation raises before any row is added. *)
Lemma validate_and_save_rejects pc w :
  _has_meaningful_content pc = Ok false →
  validate_and_save env j x pc w
  = (Exn (Exc RuntimeError ("No meaningful content extracted by " ++ x)), w).
Proof. intros H. unfold validate_and_save. by rewrite H. Qed.

Lemma run_extraction_Ret path pc w w' :
  run_extraction impl env fuel j x path w = (Ret pc, w') →
  ∃ reader w1 items rows,
    get_reader (clients env) x = Ok reader
    ∧ extract impl fuel reader path w = (Ret (PyDict items), w1)
    ∧ page_rows (session w') = (page_rows (session w) ++ rows)%list
    ∧ Forall2 (row_of_page j) rows items.
Proof.
  unfold run_extraction. intros H.
  apply bind_Ret_inv in H as (reader & w0 & Hr & H).
  unfold lift in Hr. destruct (get_reader (clients env) x) as [reader'|] eqn:Hg; [|done].
  injection Hr as <- <-.
  apply bind_Ret_inv in H as (pc' & w1 & He & H).
  apply bind_Ret_inv in H as ([] & w2 & Hv & H). injection H as <- <-.
  destruct (validate_and_save_Ret _ _ _ Hv) as (items & rows & -> & Hrows & Hall).
  pose proof (extract_rows impl fuel reader' path w) as Hx. rewrite He in Hx.
  unfold same_pending_rows in Hx. simpl in Hx. rewrite Hx in Hrows.
  eauto 10.
Qed.

Lemma try_body_Ret w w' :
  try_body K impl env fuel j d f x w = (Ret tt, w') →
  ∃ reader path w1 w2 items rows,
    get_reader (clients env) x = Ok reader
    ∧ extract impl fuel reader path w1 = (Ret (PyDict items), w2)
    ∧ page_rows (committed w') = (page_rows (session w) ++ rows)%list
    ∧ Forall2 (row_of_page j) rows items.
Proof.
  rewrite try_body_grouped. intros H.
  apply bind_Ret_inv in H as (path & w1 & Hp & H).
  apply bind_Ret_inv in H as (pc & w2 & Hx & H).
  pose proof (prologue_rows K env j d f x w) as Hrows. rewrite Hp in Hrows.
  unfold same_pending_rows in Hrows. simpl in Hrows.
  destruct (run_extraction_Ret _ _ _ _ Hx) as (reader & w1' & items & rows & Hg & He & Hr & Hall).
  apply record_success_Ret in H. rewrite H, Hr, Hrows. eauto 10.
Qed.

End Session.

(** ** Status sequences *)

Lemma status_sequence_recorded j initial w l :
  recorded w = (λ s, (j, s)) <$> l → status_sequence j initial w = initial :: l.
Proof.
  intros H. unfold status_sequence. rewrite H. f_equal. clear H.
  induction l as [|s l IH]; [done|].
  cbn [fmap list_fmap]. rewrite filter_cons_True by done. cbn [fmap list_fmap snd].
  f_equal. exact IH.
Qed.

Lemma status_sequence_app j initial w w' l :
  recorded w' = (recorded w ++ ((λ s, (j, s)) <$> l))%list →
  status_sequence j initial w' = (status_sequence j initial w ++ l)%list.
Proof.
  intros H. unfold status_sequence. rewrite H, filter_app, fmap_app.
  rewrite app_comm_cons. f_equal. clear H.
  induction l as [|s l IH]; [done|].
  cbn [fmap list_fmap]. rewrite filter_cons_True by done. cbn [fmap list_fmap snd].
  f_equal. exact IH.
Qed.

(** ** Examples *)

Example validator_hello :
  _has_meaningful_content
    (PyDict [(KInt 1, PyDict [(KStr "content", PyDict [(KStr "TEXT", PyStr "Hello")])])])
  = Ok true.
Proof. reflexivity. Qed.

Example validator_blank :
  _has_meaningful_content
    (PyDict [(KInt 1, PyDict [(KStr "content", PyDict [(KStr "TEXT", PyStr "")])]);
             (KInt 2, PyDict [(KStr "content", PyDict [(KStr "TEXT", PyStr "  ")])])])
  = Ok false.
Proof. reflexivity. Qed.

(** A page that is not a mapping ends the scan: the page after it is not
    looked at. *)
Example validator_stops_at_junk :
  _has_meaningful_content
    (PyDict [(KInt 1, PyStr "junk");
             (KInt 2, PyDict [(KStr "content", PyDict [(KStr "TEXT", PyStr "Hello")])])])
  = Ok false.
Proof. reflexivity. Qed.

(** A white-space [COMBINED] value hides the [TEXT] value. *)
Example validator_blank_combined_hides_text :
  _has_meaningful_content
    (encode [(1, {| page_content := [("COMBINED", "  "); ("TEXT", "Hello")];
                    page_metadata := None |})])
  = Ok false.
Proof. reflexivity. Qed.

(** [0.0015 * 3] is not [0.0045] in binary64; rounding to four decimals
    gives the binary64 number nearest to [0.0045]. *)
Example cost_textract_three_pages :
  (0.0015 * 3)%float = 0.0045000000000000005%float
  ∧ calculate_extraction_cost "Textract" 3 = 0.0045%float
  ∧ decimal_cost "Textract" 3 = 45 # 10000.
Proof. by vm_compute. Qed.

(** "PyPDF2" is the registered identifier, "PyPDF" the priced one: a
    PyPDF2 job is priced at the default rate. *)
Example cost_unlisted_one_page :
  calculate_extraction_cost "PyPDF2" 1 = 0.001%float
  ∧ decimal_cost "PyPDF2" 1 = 10 # 10000.
Proof. by vm_compute. Qed.

(** CPython's [round(2.675, 2)] is [2.67], and [round(0.125, 2)] is [0.12]. *)
Example py_round_known_values :
  py_round 2.675%float 2 = 2.67%float ∧ py_round 0.125%float 2 = 0.12%float.
Proof. by vm_compute. Qed.

(** A run of 1.001 s is stored as 1000 ms: [1.001 * 1000] is just below
    1001 in binary64. *)
Example latency_in_binary64 :
  latency_of 0 1001000 = 1000 ∧ latency_of 1000000 1250000 = 250
  ∧ latency_of 0 999 = 0 ∧ latency_of 0 1009000 = 1008.
Proof. by vm_compute. Qed.

Example connection_error_is_infrastructure :
  is_infrastructure_error (Exc ConnectionError "refused") = true.
Proof. reflexivity. Qed.

Example runtime_error_is_retryable :
  is_infrastructure_error (Exc RuntimeError "Extraction failed for job") = false.
Proof. reflexivity. Qed.

(** A PyPDF2 job on a new world: two pages stored, each with its content
    only. *)
Example pypdf2_job_succeeds :
  let rw := process_document_with_extractor example_constants example_impl example_env
              3 0 "j1" "d1" "/data/doc.pdf" "PyPDF2" fresh_world in
  rw.1 = Ret tt
  ∧ status_sequence "j1" NOT_STARTED rw.2 = [NOT_STARTED; PROCESSING; SUCCESS]
  ∧ trace rw.2 = [EvRead "/data/doc.pdf"; EvGetStatus (PyBool true);
                  EvGetResult (PyBool true); EvMarkComplete "d1" "j1"]
  ∧ page_rows (committed rw.2)
    = [ new_page_row "row-0" "j1" (KInt 1) (PyDict [(KStr "TEXT", PyStr "hello")]);
        new_page_row "row-1" "j1" (KInt 2) (PyDict [(KStr "TEXT", PyStr "")]) ].
Proof. vm_compute. by repeat split. Qed.

(** * The claims *)

(** ** C4: the content validator *)

(** C4, at the input that refutes it.  The specification counts markdown
    among the recognized kind tags, so a page map whose only page holds
    ["hello"] under [MARKDOWN] is meaningful in its words; the code reads
    [COMBINED], [TEXT] and [LATEX] only and rejects that map. *)
Lemma markdown_only_page_rejected :
  spec_isMeaningful markdown_only = true
  ∧ _has_meaningful_content (encode markdown_only) = Ok false.
Proof. split; reflexivity. Qed.

(** C4, amended.  On a normalized page map the validator returns false
    when the map is empty or when, on every page, the [COMBINED], [TEXT]
    and [LATEX] values are all empty or white space; it returns true when,
    on some page, the first non-empty one of these three values has a
    character that is not white space.  [TABLE] and [MARKDOWN] values are
    not read.  The check runs before persistence: when it fails,
    [validate_and_save] raises and leaves the world as it was, with no
    page row added. *)
Theorem validator_reads_combined_text_latex (pages : list (Z * NormalizedPage)) :
  (pages = [] → _has_meaningful_content (encode pages) = Ok false)
  ∧ ((∀ n p tag, (n, p) ∈ pages → tag ∈ validator_tags → blank (text_of p tag) = true) →
     _has_meaningful_content (encode pages) = Ok false)
  ∧ ((∃ n p, (n, p) ∈ pages ∧ blank (selected_text p) = false) →
     _has_meaningful_content (encode pages) = Ok true)
  ∧ (∀ env job_uuid extractor_type w,
       _has_meaningful_content (encode pages) = Ok false →
       validate_and_save env job_uuid extractor_type (encode pages) w
       = (Exn (Exc RuntimeError ("No meaningful content extracted by " ++ extractor_type)), w)).
Proof.
  rewrite has_meaningful_content_encode. repeat split.
  - by intros ->.
  - intros Hblank. f_equal. apply not_true_is_false. intros Hex.
    apply existsb_exists in Hex as ([n p] & Hin & Hp). simpl in Hp.
    apply negb_true_iff in Hp. apply list_elem_of_In in Hin.
    destruct (selected_text_cases p) as [E|[E|E]]; rewrite E in Hp;
      rewrite (Hblank n p _ Hin) in Hp; try done; by apply validator_tag_elem; auto.
  - intros (n & p & Hin & Hp). f_equal. apply existsb_exists.
    exists (n, p). split; [by apply list_elem_of_In|]. simpl. by rewrite Hp.
  - intros env job_uuid extractor_type w H. apply validate_and_save_rejects.
    by rewrite has_meaningful_content_encode.
Qed.

(** ** C9: the validator is total *)

(** C9.  For every value given as the page map the validator returns a
    boolean (the model's function can end in a raised exception, and never
    does).  [None] and anything that is not a mapping give false.  A map
    all of whose pages are malformed ([None], not a mapping, or without a
    ["content"] entry) gives false.  The result is true only if some page
    is a mapping whose content mapping holds a non-blank string. *)
Theorem has_meaningful_content_total (pages : PyVal) :
  (∃ b, _has_meaningful_content pages = Ok b)
  ∧ _has_meaningful_content PyNone = Ok false
  ∧ (is_dict pages = false → _has_meaningful_content pages = Ok false)
  ∧ (∀ d, pages = PyDict d → Forall (λ kv, malformed kv.2 = true) d →
     _has_meaningful_content pages = Ok false)
  ∧ (_has_meaningful_content pages = Ok true →
     ∃ d k body, pages = PyDict d ∧ (k, body) ∈ d ∧ page_has_text body).
Proof.
  split; [apply has_meaningful_content_returns|]. split; [done|].
  assert (∀ P : Prop, (_has_meaningful_content pages = Ok true → P → False) →
            P → _has_meaningful_content pages = Ok false) as Hfalse.
  { intros P HP p. destruct (has_meaningful_content_returns pages) as [[] Hb]; [|done].
    by destruct (HP Hb p). }
  split; [|split].
  - apply Hfalse. intros Ht Hd.
    destruct (has_meaningful_content_true _ Ht) as (d & _ & _ & -> & _). done.
  - intros d -> Hall. revert Hall. apply Hfalse. intros Ht Hall.
    destruct (has_meaningful_content_true _ Ht) as (d' & k & body & [= <-] & Hin & Hp).
    rewrite Forall_forall in Hall. specialize (Hall _ Hin). simpl in Hall.
    by rewrite (page_has_text_not_malformed _ Hp) in Hall.
  - apply has_meaningful_content_true.
Qed.

(** ** C8: the cost of a job *)

Lemma cost_unpriced extractor_type page_count :
  extractor_type ∉ priced →
  calculate_extraction_cost extractor_type page_count = calculate_extraction_cost "" page_count
  ∧ decimal_cost extractor_type page_count = decimal_cost "" page_count.
Proof.
  intros H. destruct (unpriced_rates _ H) as [H1 H2].
  unfold calculate_extraction_cost, decimal_cost, decimal_rate. by rewrite H1, H2.
Qed.

(** Up to 1000 pages, for every identifier, the float cost is the binary64
    number nearest to the decimal cost. *)
Lemma costs_agree_1000 extractor_type : costs_agree extractor_type 1000 = true.
Proof.
  destruct (decide (extractor_type ∈ priced)) as [Hin|Hout].
  - unfold priced in Hin. rewrite !elem_of_cons in Hin.
    destruct Hin as [->|[->|[->|[->|[->|[->|[->|[->|[->|Hin]]]]]]]]];
      [vm_compute; reflexivity..|by apply elem_of_nil in Hin].
  - transitivity (costs_agree "" 1000); [|vm_compute; reflexivity].
    unfold costs_agree. apply forallb_pointwise. intros k.
    by destruct (cost_unpriced extractor_type (Z.of_nat k) Hout) as [-> ->].
Qed.

(** C8.  The cost is [round(base_cost * page_count, 4)], with [base_cost]
    the extractor's rate, or 0.001 when the extractor has none listed.  In
    exact decimal arithmetic the rounded value is within half of 0.0001 of
    the product, and, every rate being a multiple of 0.0001, it is the
    product itself; for one page it is the rate.  The binary64 number the
    code computes is the one nearest to that decimal value, for every page
    count from 0 to 1000 (by evaluation of the IEEE operations), and the
    binary64 rate is the one nearest to the decimal rate. *)
Theorem cost_is_rate_times_pages (extractor_type : string) (page_count : Z) :
  calculate_extraction_cost extractor_type page_count
  = py_round (default 0.001%float (cost_per_page !! extractor_type) * Z_to_float page_count) 4
  ∧ (extractor_type ∉ priced →
     cost_per_page !! extractor_type = None ∧ decimal_rate extractor_type = 1 # 1000)
  ∧ (Qabs (decimal_cost extractor_type page_count
           - decimal_rate extractor_type * inject_Z page_count)
     * inject_Z (10 ^ 4) <= 1 # 2)%Q
  ∧ (decimal_cost extractor_type page_count
     == decimal_rate extractor_type * inject_Z page_count)%Q
  ∧ (decimal_cost extractor_type 1 == decimal_rate extractor_type)%Q
  ∧ (0 ≤ page_count ≤ 1000 →
     PrimFloat.eqb (calculate_extraction_cost extractor_type page_count)
                   (Q_to_float (decimal_cost extractor_type page_count)) = true)
  ∧ PrimFloat.eqb (default 0.001%float (cost_per_page !! extractor_type))
                  (Q_to_float (decimal_rate extractor_type)) = true.
Proof.
  split; [done|]. split.
  { intros H. destruct (unpriced_rates _ H) as [H1 H2]. unfold decimal_rate. by rewrite H2. }
  split; [apply (decimal_round_nearest _ 4)|].
  split; [apply decimal_cost_exact|]. split.
  { rewrite decimal_cost_exact. change (inject_Z 1) with 1%Q. ring. }
  split.
  - intros [Hlo Hhi].
    pose proof (forallb_seq_le _ 1000 (Z.to_nat page_count) (costs_agree_1000 extractor_type))
      as H.
    cbv beta in H. rewrite Z2Nat.id in H by done. apply H. lia.
  - destruct (decide (extractor_type ∈ priced)) as [Hin|Hout].
    + unfold priced in Hin. rewrite !elem_of_cons in Hin.
      destruct Hin as [->|[->|[->|[->|[->|[->|[->|[->|[->|Hin]]]]]]]]];
        [vm_compute; reflexivity..|by apply elem_of_nil in Hin].
    + destruct (unpriced_rates _ Hout) as [H1 H2]. unfold decimal_rate.
      rewrite H1, H2. vm_compute. reflexivity.
Qed.

(** ** C7: resolution of an extractor identifier *)

Section Unresolved.

Context (K : Constants) (impl : ExtractorImpl) (env : Env).
Context (fuel retries : nat) (j d f x : string).

(** The body of the [try] up to the call of [get_reader], for a job whose
    document row and local file are there. *)
Lemma prologue_found w job name :
  fault env redis_get = None → breaker_closed K x w →
  fault env db_execute_processing = None → fault env db_commit_processing = None →
  fault env db_query_document = None →
  jobs (session w) !! j = Some job →
  documents (session w) !! d = Some name →
  String.prefix "projects/" f = false → path_exists env f = true →
  ∃ w2, prologue K env j d f x w = (Ret f, w2)
    ∧ recorded w2 = (recorded w ++ unrecorded w ++ [(j, PROCESSING)])%list
    ∧ queue w2 = queue w ∧ redis w2 = redis w ∧ trace w2 = trace w
    ∧ is_Some (jobs (committed w2) !! j).
Proof.
  intros F0 Hc F1 F2 F3 Hj Hd Hp He.
  unfold prologue. rewrite (bind_Ret_eq _ _ _ _ _ (check_closed K env x w F0 Hc)).
  cbn [when]. rewrite (bind_Ret_eq _ _ w tt w eq_refl).
  unfold locate_file. unfold_monad. rewrite F1, F2, F3, Hj. cbn. rewrite Hd, Hp, He.
  eexists. split; [done|]. cbn. rewrite lookup_alter_eq, Hj. repeat split; eauto.
Qed.

(** A reader that cannot be obtained: the body fails there, after the
    PROCESSING commit and before any call of an extractor, and the handler
    takes over. *)
Lemma unresolved_reader_run w job name e :
  get_reader (clients env) x = Raise e →
  handler_reliable env →
  fault env redis_get = None → breaker_closed K x w →
  fault env db_execute_processing = None → fault env db_commit_processing = None →
  fault env db_query_document = None →
  fault env db_execute_failure = None → fault env db_commit_failure = None →
  jobs (committed w) !! j = Some job →
  documents (committed w) !! d = Some name →
  String.prefix "projects/" f = false → path_exists env f = true →
  let rw := process_document_with_extractor K impl env fuel retries j d f x w in
  let cfg := get_retry_config K x in
  rw.1 = (if is_infrastructure_error e then Exn e
          else if (max_retries cfg <? retries + 1)%nat then Exn e
          else Exn (Exc CeleryRetry (exc_msg e)))
  ∧ recorded rw.2 = (recorded w ++ [(j, PROCESSING); (j, FAILURE)])%list
  ∧ status <$> jobs (committed rw.2) !! j = Some FAILURE
  ∧ queue rw.2 = (if is_infrastructure_error e then queue w
                  else if (max_retries cfg <? retries + 1)%nat then queue w
                  else queue w ++ [retry_message retries j d f x (countdown cfg)])%list.
Proof.
  intros Hg Hrel F0 Hc F1 F2 F3 F4 F5 Hj Hd Hp He rw cfg. subst rw.
  destruct (process_spec K impl env fuel retries j d f x w)
    as (Hres & Hcom & Hrec & _ & _ & Hq & _).
  rewrite Hres, Hcom, Hrec, Hq. clear Hres Hcom Hrec Hq.
  destruct (prologue_found (open_session w) job name F0 Hc F1 F2 F3 Hj Hd Hp He)
    as (w2 & Hpro & Hr2 & Hq2 & _ & _ & Hj2).
  assert (try_body K impl env fuel j d f x (open_session w) = (Exn e, w2)) as Ht.
  { rewrite try_body_grouped, bind_run, Hpro. cbn [fst snd]. rewrite bind_run.
    unfold run_extraction. rewrite Hg. done. }
  rewrite (handled_Exn K impl env fuel retries j d f x _ _ _ Ht).
  destruct (failure_path_spec K env retries j d f x e w2 Hrel) as (H1 & H2 & _ & H4).
  destruct (H4 F4 F5 Hj2) as [H5 H6].
  rewrite H1, H2, H5, H6, Hr2, Hq2. cbn. by rewrite <- app_assoc.
Qed.

End Unresolved.



(** ** C5: what a synchronous extractor's [read] returns *)

Lemma finished_succeeded : finished "succeeded" = true.
Proof. by vm_compute. Qed.

Lemma call_Ok {A} ev (a : A) reader w :
  call ev (Ok a, reader) w = (Ret (a, reader), set_trace (trace w ++ [ev]) w).
Proof. reflexivity. Qed.

Lemma reader_get_status_Ok impl reader job_id w status reader' :
  get_status impl reader job_id (length (filter is_get_status (trace w))) = (Ok status, reader') →
  reader_get_status impl reader job_id w
  = (Ret (status, reader'), set_trace (trace w ++ [EvGetStatus job_id]) w).
Proof.
  intros H. unfold reader_get_status.
  rewrite (bind_Ret_eq get_world _ w w w eq_refl), H. apply call_Ok.
Qed.

Lemma poll_finished impl fuel reader job_id status w :
  finished status = true →
  poll impl fuel reader job_id status w = (Ret (status, reader), w).
Proof. intros H. destruct fuel; simpl; by rewrite H. Qed.

(** The executor still reaches PyPDF2's page map: not from the value of
    [read], but by one status check, which answers "succeeded", and
    [get_result]; it never sleeps. *)
Lemma extract_PyPDF2 lib remote fuel self path w :
  ext_class self = PyPDF2Extractor →
  extract (repo_impl lib remote) fuel self path w
  = (Ret (pypdf2_page_contents lib path),
     set_trace (trace w ++ [EvRead path; EvGetStatus (PyBool true); EvGetResult (PyBool true)]) w).
Proof.
  intros Hc. unfold extract.
  assert (read (repo_impl lib remote) self path
          = (Ok (PyBool true), set_last_result self (pypdf2_page_contents lib path))) as ->.
  { cbn [read repo_impl]. by rewrite Hc. }
  rewrite (bind_Ret_eq _ _ _ _ _ (call_Ok _ _ _ _)).
  set (self' := set_last_result self (pypdf2_page_contents lib path)).
  assert (ext_class self' = PyPDF2Extractor) as Hc' by done.
  cbn [supports_webhook repo_impl]. rewrite Hc'. cbn [dispatch PyPDF2 supports_webhook is_dict].
  assert (∀ n, get_status (repo_impl lib remote) self' (PyBool true) n
               = (Ok "succeeded", self')) as Hs.
  { intros n. cbn [get_status repo_impl]. by rewrite Hc'. }
  rewrite (bind_Ret_eq _ _ _ _ _ (reader_get_status_Ok _ _ _ _ _ _ (Hs _))).
  rewrite (bind_Ret_eq _ _ _ _ _ (poll_finished _ _ _ _ _ _ finished_succeeded)).
  cbn [when String.eqb Ascii.eqb Bool.eqb]. rewrite (bind_Ret_eq _ _ _ tt _ eq_refl).
  cbn [get_result repo_impl]. rewrite Hc'. cbn [dispatch PyPDF2 get_result].
  unfold sync_get_result. rewrite (bind_Ret_eq _ _ _ _ _ (call_Ok _ _ _ _)).
  cbn [mret M_ret set_trace trace _last_result self' set_last_result].
  by rewrite <- !app_assoc.
Qed.

(** The sibling extractors: MarkItDown returns the page map it built, and
    PyMuPDF returns [True] as PyPDF2 does. *)
Lemma MarkItDown_read_returns_page_map lib self file_path :
  (MarkItDown_read lib self file_path).1 = Ok (markitdown_page_contents lib file_path)
  ∧ is_dict (markitdown_page_contents lib file_path) = true.
Proof.
  split; [done|]. unfold markitdown_page_contents.
  by destruct (markitdown_convert lib file_path).
Qed.

Lemma PyMuPDF_read_returns_True lib self file_path v :
  (PyMuPDF_read lib self file_path).1 = Ok v → v = PyBool true.
Proof.
  unfold PyMuPDF_read.
  destruct (pages ← fitz_open lib file_path; pymupdf_loop pages 0 []); simpl; [|done].
  by intros [= <-].
Qed.

(** C5, at the input where the code departs from it.  [PyPDF2Extractor.read],
    on any file and with any answer of the PDF library, returns [True];
    [True] is not a dictionary, so the executor cannot use it as the page
    map; the page map is left in [_last_result]. *)
Theorem PyPDF2_read_returns_True (lib : Libraries) (self : ExtractorInstance) (file_path : string) :
  (PyPDF2_read lib self file_path).1 = Ok (PyBool true)
  ∧ is_dict (PyBool true) = false
  ∧ _last_result (PyPDF2_read lib self file_path).2 = pypdf2_page_contents lib file_path.
Proof. by repeat split. Qed.

(** ** C1: the open breaker *)

(** C1, at the input that refutes it.  Five failures are counted against
    PyPDF2 and the threshold is five, so the breaker is open.  The job is
    run for the first time under a policy of three retries with a delay of
    60: the invocation ends in Celery's [Retry], and the same job is on
    the queue again, as retry number 1. *)
Lemma circuit_open_consumes_retry :
  let rw := process_document_with_extractor example_constants example_impl example_env
              3 0 "j1" "d1" "/data/doc.pdf" "PyPDF2" open_breaker_world in
  check_circuit_breaker example_constants example_env "PyPDF2" open_breaker_world
  = (Ret true, open_breaker_world)
  ∧ rw.1 = Exn (Exc CeleryRetry
           "Circuit breaker is OPEN for PyPDF2. Too many recent failures. Try again later.")
  ∧ queue open_breaker_world = []
  ∧ queue rw.2 = [retry_message 0 "j1" "d1" "/data/doc.pdf" "PyPDF2" 60].
Proof. vm_compute. by repeat split. Qed.

(** C1, amended.  When the breaker is open for the job's extractor, the
    invocation fails and makes no call to the extractor: nothing is added
    to the trace but, at most, the failure notice to the file coordinator.
    The failure is a [RuntimeError] that takes the common failure path.  So,
    with Redis, the file coordinator and the queue answering, one more
    failure is counted against the breaker, and the retry policy applies
    as to any error that is not infrastructure-classed: while retries
    remain the job is sent to the queue again with the configured delay
    and the invocation ends in [Retry]; otherwise the [RuntimeError]
    propagates and the queue is unchanged.  With the FAILURE update going
    through, the job is left in FAILURE. *)
Theorem circuit_open_fails_as_ordinary_error K impl env fuel retries j d f x w :
  fault env redis_get = None → breaker_open K x w →
  let cfg := get_retry_config K x in
  let rw := process_document_with_extractor K impl env fuel retries j d f x w in
  (∃ e, rw.1 = Exn e)
  ∧ (trace rw.2 = trace w ∨ trace rw.2 = (trace w ++ [EvMarkFailed d j])%list)
  ∧ (handler_reliable env →
     rw.1 = (if (max_retries cfg <? retries + 1)%nat then Exn (circuit_open_error x)
             else Exn (Exc CeleryRetry (exc_msg (circuit_open_error x))))
     ∧ queue rw.2 = (if (max_retries cfg <? retries + 1)%nat then queue w
                     else queue w ++ [retry_message retries j d f x (countdown cfg)])%list
     ∧ redis rw.2 = <[circuit_key x := default 0 (redis w !! circuit_key x) + 1]> (redis w))
  ∧ (fault env db_execute_failure = None → fault env db_commit_failure = None →
     is_Some (jobs (committed w) !! j) →
     status <$> jobs (committed rw.2) !! j = Some FAILURE).
Proof.
  intros Hf Ho cfg rw.
  destruct (process_spec K impl env fuel retries j d f x w)
    as (Hres & Hcom & _ & Hred & _ & Hq & Htr).
  fold rw in Hres, Hcom, Hred, Hq, Htr.
  assert (handled K impl env fuel retries j d f x (open_session w)
          = failure_path K env retries j d f x (circuit_open_error x) (open_session w)) as Hh.
  { apply handled_Exn. by apply try_body_open. }
  rewrite Hh in Hres, Hcom, Hred, Hq, Htr. rewrite Hres, Htr, Hq, Hred, Hcom.
  destruct (failure_path_frame K env retries j d f x (circuit_open_error x) (open_session w))
    as (He & _ & Ht).
  split; [exact He|]. split; [exact Ht|]. split.
  - intros Hr.
    destruct (failure_path_spec K env retries j d f x (circuit_open_error x) (open_session w) Hr)
      as (H1 & H2 & H3 & _).
    by rewrite H1, H2, H3.
  - intros F1 F2 Hj.
    rewrite failure_path_unfold.
    destruct (write_failure_spec env j (now_end env) (latency_of (now_start env) (now_end env))
                (open_session (open_session w)) eq_refl)
      as (w2 & Hw & _ & _ & _ & _ & _ & Hst).
    rewrite (bind_Ret_eq _ _ _ _ _ Hw).
    destruct (classify_and_retry_frame K env retries j d f x (circuit_open_error x) w2)
      as (_ & _ & Hc & _).
    simpl in Hc. rewrite Hc. by apply Hst.
Qed.

(** The amended C1 at the open breaker of the example. *)
Lemma circuit_open_fails_as_ordinary_error_witness :
  let cfg := get_retry_config example_constants "PyPDF2" in
  let rw := process_document_with_extractor example_constants example_impl example_env
              3 0 "j1" "d1" "/data/doc.pdf" "PyPDF2" open_breaker_world in
  (∃ e, rw.1 = Exn e)
  ∧ (trace rw.2 = trace open_breaker_world
     ∨ trace rw.2 = (trace open_breaker_world ++ [EvMarkFailed "d1" "j1"])%list)
  ∧ (rw.1 = (if (max_retries cfg <? 0 + 1)%nat then Exn (circuit_open_error "PyPDF2")
             else Exn (Exc CeleryRetry (exc_msg (circuit_open_error "PyPDF2"))))
     ∧ queue rw.2 = (if (max_retries cfg <? 0 + 1)%nat then queue open_breaker_world
                     else queue open_breaker_world
                          ++ [retry_message 0 "j1" "d1" "/data/doc.pdf" "PyPDF2" (countdown cfg)])%list
     ∧ redis rw.2 = <[circuit_key "PyPDF2" :=
                       default 0 (redis open_breaker_world !! circuit_key "PyPDF2") + 1]>
                      (redis open_breaker_world))
  ∧ status <$> jobs (committed rw.2) !! "j1" = Some FAILURE.
Proof.
  pose proof (circuit_open_fails_as_ordinary_error example_constants example_impl example_env
                3 0 "j1" "d1" "/data/doc.pdf" "PyPDF2" open_breaker_world) as H.
  assert (fault example_env redis_get = None) as Hf by reflexivity.
  assert (breaker_open example_constants "PyPDF2" open_breaker_world) as Ho.
  { exists 5. split; [by vm_compute|simpl; lia]. }
  assert (handler_reliable example_env) as Hr by (by repeat split).
  assert (is_Some (jobs (committed open_breaker_world) !! "j1")) as Hj.
  { exists example_job. by vm_compute. }
  destruct (H Hf Ho) as (H1 & H2 & H3 & H4).
  split; [exact H1|]. split; [exact H2|]. split; [exact (H3 Hr)|].
  exact (H4 eq_refl eq_refl Hj).
Defined.

(** ** C2: extractors that deliver by webhook *)

(** Whatever a webhook extractor's [read] returns, the executor goes on with
    [None] for the page map. *)
Lemma extract_webhook impl fuel reader path w v reader' :
  read impl reader path = (Ok v, reader') →
  supports_webhook impl reader' = true →
  extract impl fuel reader path w = (Ret PyNone, set_trace (trace w ++ [EvRead path]) w).
Proof.
  intros Hr Hs. unfold extract. rewrite Hr.
  rewrite (bind_Ret_eq _ _ _ _ _ (call_Ok _ _ _ _)). by rewrite Hs.
Qed.

(** And [None] does not pass the validator, so the run takes the failure
    path. *)
Lemma webhook_run_extraction_fails impl env fuel j x path w reader v reader' :
  get_reader (clients env) x = Ok reader →
  read impl reader path = (Ok v, reader') →
  supports_webhook impl reader' = true →
  run_extraction impl env fuel j x path w
  = (Exn (Exc RuntimeError ("No meaningful content extracted by " ++ x)),
     set_trace (trace w ++ [EvRead path]) w).
Proof.
  intros Hg Hr Hs. unfold run_extraction. rewrite Hg, bind_lift_Ok.
  rewrite (bind_Ret_eq _ _ _ _ _ (extract_webhook _ fuel _ _ _ _ _ Hr Hs)).
  by rewrite bind_run, validate_and_save_rejects.
Qed.

(** C2, at the input where the code departs from it.  "LlamaParse" is
    registered, and the extractor behind it here supports webhooks and
    returns a job handle from [read].  No status is polled, but the pass
    does not end pending: the missing page map fails validation, the job is
    set to FAILURE in this very pass, and it is sent to the queue for a
    retry. *)
Theorem webhook_job_marked_failure :
  let rw := process_document_with_extractor example_constants example_impl example_env
              3 0 "j1" "d1" "/data/doc.pdf" "LlamaParse" fresh_world in
  supports_webhook example_impl (construct LlamaParseExtractor) = true
  ∧ rw.1 = Exn (Exc CeleryRetry "No meaningful content extracted by LlamaParse")
  ∧ trace rw.2 = [EvRead "/data/doc.pdf"; EvMarkFailed "d1" "j1"]
  ∧ status_sequence "j1" NOT_STARTED rw.2 = [NOT_STARTED; PROCESSING; FAILURE]
  ∧ status <$> jobs (committed rw.2) !! "j1" = Some FAILURE
  ∧ queue rw.2 = [retry_message 0 "j1" "d1" "/data/doc.pdf" "LlamaParse" 60].
Proof. vm_compute. by repeat split. Qed.

(** ** C3: the status sequence *)

(** C3, at the input that refutes it.  With the breaker open, the job goes
    from NOT_STARTED straight to FAILURE: PROCESSING is never written. *)
Lemma circuit_open_skips_processing :
  let rw := process_document_with_extractor example_constants example_impl example_env
              3 0 "j1" "d1" "/data/doc.pdf" "PyPDF2" open_breaker_world in
  status_sequence "j1" NOT_STARTED rw.2 = [NOT_STARTED; FAILURE]
  ∧ ¬ ([NOT_STARTED; FAILURE] `prefix_of` [NOT_STARTED; PROCESSING; SUCCESS])
  ∧ ¬ ([NOT_STARTED; FAILURE] `prefix_of` [NOT_STARTED; PROCESSING; FAILURE]).
Proof.
  split; [by vm_compute|].
  split; intros [k Hk]; simplify_eq.
Qed.

(** A second input that refutes C3: the run that Celery re-sends after a
    failure.  The job is not set back to NOT_STARTED; PROCESSING is written
    over FAILURE. *)
Lemma retry_writes_processing_over_failure :
  let rw := process_document_with_extractor example_constants example_impl example_env
              3 1 "j1" "d1" "/data/doc.pdf" "PyPDF2" failed_once_world in
  status_sequence "j1" NOT_STARTED failed_once_world = [NOT_STARTED; PROCESSING; FAILURE]
  ∧ queue failed_once_world = [retry_message 0 "j1" "d1" "/data/doc.pdf" "PyPDF2" 60]
  ∧ rw.1 = Ret tt
  ∧ status_sequence "j1" NOT_STARTED rw.2
    = [NOT_STARTED; PROCESSING; FAILURE; PROCESSING; SUCCESS].
Proof. vm_compute. by repeat split. Qed.

(** C3, amended.  Take any run of the executor on a job whose row exists,
    first run or retry, whatever has been recorded for the job before, and
    let the breaker lookup answer.  If the breaker is closed, and neither
    the PROCESSING update and its commit nor the bookkeeping after the
    SUCCESS commit (the breaker reset and the completion notice) raises,
    the run appends to the recorded sequence PROCESSING, followed by at
    most one of SUCCESS and FAILURE.  If the breaker is open and the
    FAILURE update goes through, it appends FAILURE alone.  So the first
    run of a job created NOT_STARTED, with the breaker closed, records a
    prefix of [NOT_STARTED, PROCESSING, SUCCESS] or of
    [NOT_STARTED, PROCESSING, FAILURE]; a retry does not start from
    NOT_STARTED again but writes PROCESSING after the FAILURE of the run
    before. *)
Theorem status_sequence_of_each_run K impl env fuel retries j d f x w job
    (initial : ExtractionStatus) :
  jobs (committed w) !! j = Some job →
  fault env redis_get = None →
  let w' := (process_document_with_extractor K impl env fuel retries j d f x w).2 in
  let before := status_sequence j initial w in
  let after := status_sequence j initial w' in
  (breaker_closed K x w →
   fault env db_execute_processing = None → fault env db_commit_processing = None →
   fault env redis_delete = None → fault env notify_complete = None →
   (after = before ++ [PROCESSING] ∨ after = before ++ [PROCESSING; SUCCESS]
    ∨ after = before ++ [PROCESSING; FAILURE])%list
   ∧ (recorded w = [] → initial = NOT_STARTED →
      after `prefix_of` [NOT_STARTED; PROCESSING; SUCCESS]
      ∨ after `prefix_of` [NOT_STARTED; PROCESSING; FAILURE])
   ∧ (∀ earlier, before = (earlier ++ [FAILURE])%list →
      (earlier ++ [FAILURE; PROCESSING])%list `prefix_of` after))
  ∧ (breaker_open K x w →
     fault env db_execute_failure = None → fault env db_commit_failure = None →
     after = (before ++ [FAILURE])%list).
Proof.
  intros Hj F0 w' before after.
  destruct (process_spec K impl env fuel retries j d f x w) as (_ & _ & Hr & _).
  fold w' in Hr. split.
  - intros Hc F1 F2 F3 F4.
    assert ((after = before ++ [PROCESSING] ∨ after = before ++ [PROCESSING; SUCCESS]
             ∨ after = before ++ [PROCESSING; FAILURE])%list) as Hafter.
    { destruct (handled_closed_recorded K impl env fuel retries j d f x (open_session w) job)
        as [H|[H|H]]; try done; rewrite <- Hr in H; cbn [recorded open_session] in H.
      - left. by apply (status_sequence_app j initial w w' [PROCESSING]).
      - right. left. by apply (status_sequence_app j initial w w' [PROCESSING; SUCCESS]).
      - right. right. by apply (status_sequence_app j initial w w' [PROCESSING; FAILURE]). }
    split; [exact Hafter|]. split.
    + intros Hrec ->.
      assert (before = [NOT_STARTED]) as Hb.
      { subst before. unfold status_sequence. by rewrite Hrec. }
      rewrite Hb in Hafter. destruct Hafter as [-> | [-> | ->]].
      * left. by exists [SUCCESS].
      * by left.
      * by right.
    + intros earlier Hb. rewrite Hb in Hafter.
      destruct Hafter as [Ha|[Ha|Ha]]; rewrite Ha.
      * exists []. by rewrite <- !app_assoc.
      * exists [SUCCESS]. by rewrite <- !app_assoc.
      * exists [FAILURE]. by rewrite <- !app_assoc.
  - intros Ho F1 F2.
    assert (handled K impl env fuel retries j d f x (open_session w)
            = failure_path K env retries j d f x (circuit_open_error x) (open_session w)) as Hh.
    { apply handled_Exn. by apply try_body_open. }
    rewrite Hh, failure_path_unfold in Hr.
    destruct (write_failure_spec env j (now_end env) (latency_of (now_start env) (now_end env))
                (open_session (open_session w)) eq_refl)
      as (w2 & Hw & _ & _ & _ & _ & _ & Hwr).
    rewrite (bind_Ret_eq _ _ _ _ _ Hw) in Hr.
    destruct (classify_and_retry_frame K env retries j d f x (circuit_open_error x) w2)
      as (_ & Hc & _).
    simpl in Hc. rewrite Hc in Hr.
    destruct (Hwr F1 F2) as [Hw2 _]; [simpl; by rewrite Hj|].
    simpl in Hw2. rewrite Hw2 in Hr.
    by apply (status_sequence_app j initial w w' [FAILURE]).
Qed.

(** The amended C3 at the retry of the example's job: the first run found
    no file and left the job in FAILURE, the breaker is closed. *)
Lemma status_sequence_of_each_run_witness :
  let w' := (process_document_with_extractor example_constants example_impl example_env
               3 1 "j1" "d1" "/data/doc.pdf" "PyPDF2" failed_once_world).2 in
  let before := status_sequence "j1" NOT_STARTED failed_once_world in
  let after := status_sequence "j1" NOT_STARTED w' in
  before = [NOT_STARTED; PROCESSING; FAILURE]
  ∧ (after = before ++ [PROCESSING] ∨ after = before ++ [PROCESSING; SUCCESS]
     ∨ after = before ++ [PROCESSING; FAILURE])%list
  ∧ ([NOT_STARTED; PROCESSING] ++ [FAILURE; PROCESSING])%list `prefix_of` after.
Proof.
  pose proof (status_sequence_of_each_run example_constants example_impl example_env
                3 1 "j1" "d1" "/data/doc.pdf" "PyPDF2" failed_once_world
                (values_final FAILURE 1250000 250 0.0%float
                   (values_processing 1000000 example_job)) NOT_STARTED) as H.
  assert (jobs (committed failed_once_world) !! "j1"
          = Some (values_final FAILURE 1250000 250 0.0%float
                    (values_processing 1000000 example_job))) as H1 by (by vm_compute).
  assert (fault example_env redis_get = None) as H2 by reflexivity.
  assert (breaker_closed example_constants "PyPDF2" failed_once_world) as H3.
  { intros n Hn. vm_compute in Hn. injection Hn as <-. reflexivity. }
  assert (status_sequence "j1" NOT_STARTED failed_once_world
          = [NOT_STARTED; PROCESSING; FAILURE]) as H4 by (by vm_compute).
  destruct (H H1 H2) as [Hclosed _].
  destruct (Hclosed H3 eq_refl eq_refl eq_refl eq_refl) as (Ha & _ & Hb).
  split; [exact H4|]. split; [exact Ha|]. exact (Hb [NOT_STARTED; PROCESSING] H4).
Defined.

(** ** C6: classification of failures and the retry policy *)

(** The tuple of [is_infrastructure_error] names seven classes; four of
    them are the roots of the others. *)
Lemma is_infrastructure_error_roots (e : exn) :
  is_infrastructure_error e
  = isinstance e [OSError; SA_DatabaseError; PG_DatabaseError; SA_PendingRollbackError].
Proof. destruct e as [[] msg]; reflexivity. Qed.



(** ** C10: what is stored of a page *)

(** C10.  When the task returns normally, the rows it has added to the
    page table are, in order, one per item of the page map the extractor
    produced: each row carries the job's uuid, the item's page number and
    the page's ["content"] entry; its [metadata_] column has the default
    empty dict and [deleted_at] is unset.  Nothing else of the page, its
    ["metadata"] entry included, is stored. *)
Theorem persisted_rows_hold_content_only K impl env fuel retries j d f x w w' :
  process_document_with_extractor K impl env fuel retries j d f x w = (Ret tt, w') →
  ∃ reader path w1 w2 items rows,
    get_reader (clients env) x = Ok reader
    ∧ extract impl fuel reader path w1 = (Ret (PyDict items), w2)
    ∧ page_rows (committed w') = (page_rows (committed w) ++ rows)%list
    ∧ Forall2 (row_of_page j) rows items.
Proof.
  intros H.
  destruct (process_spec K impl env fuel retries j d f x w) as (Hres & Hcom & _).
  rewrite H in Hres, Hcom. simpl in Hres, Hcom.
  destruct (handled K impl env fuel retries j d f x (open_session w)) as [r w2] eqn:Hh.
  simpl in Hres, Hcom. subst r. apply handled_Ret_inv in Hh.
  destruct (try_body_Ret K impl env fuel j d f x _ _ Hh)
    as (reader & path & wa & wb & items & rows & Hg & He & Hrows & Hall).
  exists reader, path, wa, wb, items, rows. by rewrite Hcom, Hrows.
Qed.

(** C10 at the PyPDF2 job of the example: the two pages PyPDF2 builds carry
    a ["metadata"] entry, the two rows stored do not. *)
Lemma persisted_rows_hold_content_only_witness :
  let w' := (process_document_with_extractor example_constants example_impl example_env
               3 0 "j1" "d1" "/data/doc.pdf" "PyPDF2" fresh_world).2 in
  ∃ reader path w1 w2 items rows,
    get_reader (clients example_env) "PyPDF2" = Ok reader
    ∧ extract example_impl 3 reader path w1 = (Ret (PyDict items), w2)
    ∧ page_rows (committed w') = (page_rows (committed fresh_world) ++ rows)%list
    ∧ Forall2 (row_of_page "j1") rows items.
Proof.
  apply (persisted_rows_hold_content_only example_constants example_impl example_env
           3 0 "j1" "d1" "/data/doc.pdf" "PyPDF2" fresh_world).
  by vm_compute.
Defined.

(** * Further properties *)

(** X1.  The validator, exactly, on a normalized page map: true when some
    page's selected text, which is the first non-empty one of its
    [COMBINED], [TEXT] and [LATEX] values, has a character that is not
    white space. *)
Theorem validator_exact_on_page_maps (pages : list (Z * NormalizedPage)) :
  _has_meaningful_content (encode pages)
  = Ok (existsb (λ np, negb (blank (selected_text np.2))) pages).
Proof. exact (has_meaningful_content_encode pages). Qed.

(** X2.  When the PDF library opens the file and reads every page, PyPDF2's
    page map has one entry per page, keyed 1, 2, ... in page order. *)
Theorem pypdf2_pages_numbered_from_one (texts : list (option string))
    (other_open : string → Outcome (list (Outcome (option string))))
    (convert : string → Outcome (option string)) (file_path : string) :
  let lib := {| PdfReader := λ _, Ok (Ok <$> texts);
                fitz_open := other_open; markitdown_convert := convert |} in
  pypdf2_page_contents lib file_path = PyDict (numbered_pages 0 texts)
  ∧ (numbered_pages 0 texts).*1 = (λ i : nat, KInt (1 + Z.of_nat i)) <$> seq 0 (length texts).
Proof.
  intros lib. split.
  - by apply pypdf2_page_contents_numbered.
  - by rewrite numbered_pages_keys.
Qed.

(** X3.  For a PyPDF2 reader the executor obtains the page map that [read]
    built through one status check and [get_result]; it never sleeps. *)
Theorem pypdf2_executor_gets_page_map lib remote fuel v path w :
  extract (repo_impl lib remote) fuel {| ext_class := PyPDF2Extractor; _last_result := v |} path w
  = (Ret (pypdf2_page_contents lib path),
     set_trace (trace w ++ [EvRead path; EvGetStatus (PyBool true); EvGetResult (PyBool true)]) w).
Proof. by apply extract_PyPDF2. Qed.

(** X4.  The [except] clause never returns normally: whatever the body raised,
    the task ends in an exception. *)
Theorem failed_attempt_ends_in_exception K env retries j d f x e w :
  ∃ e', (failure_path K env retries j d f x e w).1 = Exn e'.
Proof. by destruct (failure_path_frame K env retries j d f x e w) as [He _]. Qed.

Lemma record_success_Ret_redis env j d x pc w w' :
  record_success env j d x pc w = (Ret tt, w') →
  redis w' = delete (circuit_key x) (redis w)
  ∧ trace w' = (trace w ++ [EvMarkComplete d j])%list.
Proof.
  unfold record_success. unfold_monad.
  destruct (truthy pc); [destruct (py_len pc)|]; simpl; try done;
    (destruct (fault env db_execute_success); simpl; [done|]);
    (destruct (fault env db_commit_success); simpl; [done|]);
    (destruct (fault env redis_delete); simpl; [done|]);
    (destruct (fault env notify_complete); simpl; [done|]);
    intros [= <-]; by destruct (jobs (session w) !! j).
Qed.

(** X5.  A task that returns normally has cleared the failure count of its
    extractor, and its last call is the completion notice. *)
Theorem success_resets_breaker K impl env fuel retries j d f x w w' :
  process_document_with_extractor K impl env fuel retries j d f x w = (Ret tt, w') →
  redis w' !! circuit_key x = None
  ∧ last (trace w') = Some (EvMarkComplete d j).
Proof.
  intros H.
  destruct (process_spec K impl env fuel retries j d f x w) as (Hres & _ & _ & Hred & _ & _ & Htr).
  rewrite H in Hres, Hred, Htr. simpl in Hres, Hred, Htr.
  destruct (handled K impl env fuel retries j d f x (open_session w)) as [r w2] eqn:Hh.
  simpl in Hres, Hred, Htr. subst r. apply handled_Ret_inv in Hh.
  rewrite try_body_grouped in Hh.
  apply bind_Ret_inv in Hh as (path & w3 & _ & Hh).
  apply bind_Ret_inv in Hh as (pc & w4 & _ & Hh).
  apply record_success_Ret_redis in Hh as [Hr Ht].
  rewrite Hred, Hr, Htr, Ht. split; [apply lookup_delete_eq|apply last_snoc].
Qed.

(** The PyPDF2 job of the example returns normally. *)
Lemma success_resets_breaker_witness :
  let w' := (process_document_with_extractor example_constants example_impl example_env
               3 0 "j1" "d1" "/data/doc.pdf" "PyPDF2" fresh_world).2 in
  redis w' !! circuit_key "PyPDF2" = None
  ∧ last (trace w') = Some (EvMarkComplete "d1" "j1").
Proof.
  apply (success_resets_breaker example_constants example_impl example_env
           3 0 "j1" "d1" "/data/doc.pdf" "PyPDF2" fresh_world).
  by vm_compute.
Defined.

(** * Further properties of the executor's helpers *)

(** X6.  The errors that [is_infrastructure_error] accepts are the
    instances of [OSError], of SQLAlchemy's [DatabaseError], of psycopg2's
    [DatabaseError] and of [PendingRollbackError]: the entries
    [OperationalError], [ConnectionError] and [FileNotFoundError] of the
    tuple add nothing.  The errors the executor raises itself
    ([RuntimeError], the registry's [ValueError], the [KeyError] of a page
    without content) and Celery's [Retry] are not among them. *)
Theorem infrastructure_error_classes (e : exn) :
  (is_infrastructure_error e = true
   ↔ isinstance e [OSError; SA_DatabaseError; PG_DatabaseError; SA_PendingRollbackError] = true)
  ∧ (exc_class e ∈ [RuntimeError; NotImplementedError; ValueError; KeyError; TypeError;
                    AttributeError; CeleryRetry] →
     is_infrastructure_error e = false)
  ∧ (exc_class e ∈ [PermissionError; TimeoutError; SA_IntegrityError; PG_OperationalError] →
     is_infrastructure_error e = true).
Proof.
  destruct e as [c msg]. split; [|split].
  - destruct c; by vm_compute.
  - simpl. rewrite !elem_of_cons. intros H.
    repeat (destruct H as [-> | H]; [by vm_compute|]). by apply elem_of_nil in H.
  - simpl. rewrite !elem_of_cons. intros H.
    repeat (destruct H as [-> | H]; [by vm_compute|]). by apply elem_of_nil in H.
Qed.

Lemma circuit_key_inj x y : circuit_key x = circuit_key y → x = y.
Proof. unfold circuit_key. intros H. cbn in H. by simplify_eq. Qed.

Lemma record_extractor_failure_run K env x w :
  fault env redis_incr = None → fault env redis_expire = None →
  record_extractor_failure K env x w
  = (Ret tt,
     set_redis (<[circuit_key x := default 0 (redis w !! circuit_key x) + 1]> (redis w))
               (<[circuit_key x := CIRCUIT_BREAKER_TIMEOUT K]> (ttl w)) w).
Proof.
  intros Hi He. unfold record_extractor_failure. unfold_monad. rewrite Hi, He. by destruct w.
Qed.

Lemma check_circuit_breaker_run K env x w :
  fault env redis_get = None →
  check_circuit_breaker K env x w
  = (Ret (match redis w !! circuit_key x with
          | Some failure_count => CIRCUIT_BREAKER_THRESHOLD K <=? failure_count
          | None => false
          end), w).
Proof.
  intros Hg. unfold check_circuit_breaker. unfold_monad. rewrite Hg.
  by destruct (redis w !! circuit_key x).
Qed.

Lemma times_record_failure K env x n w :
  fault env redis_incr = None → fault env redis_expire = None →
  ∃ w', times (S n) (record_extractor_failure K env x) w = (Ret tt, w')
    ∧ redis w' !! circuit_key x = Some (default 0 (redis w !! circuit_key x) + Z.of_nat (S n))
    ∧ ttl w' !! circuit_key x = Some (CIRCUIT_BREAKER_TIMEOUT K)
    ∧ (∀ k, k ≠ circuit_key x → redis w' !! k = redis w !! k ∧ ttl w' !! k = ttl w !! k)
    ∧ committed w' = committed w ∧ queue w' = queue w ∧ trace w' = trace w.
Proof.
  intros Hi He. revert w. induction n as [|n IH]; intros w.
  - eexists. split.
    { cbn [times]. rewrite (bind_Ret_eq _ _ _ _ _ (record_extractor_failure_run K env x w Hi He)).
      reflexivity. }
    destruct w; simpl. rewrite !lookup_insert_eq.
    repeat split; try done; by rewrite lookup_insert_ne.
  - destruct (IH (set_redis (<[circuit_key x := default 0 (redis w !! circuit_key x) + 1]> (redis w))
                            (<[circuit_key x := CIRCUIT_BREAKER_TIMEOUT K]> (ttl w)) w))
      as (w' & Hrun & Hr & Ht & Hk & Hc & Hq & Htr).
    exists w'. split.
    { change (times (S (S n)) ?m) with (m ;; times (S n) m).
      by rewrite (bind_Ret_eq _ _ _ _ _ (record_extractor_failure_run K env x w Hi He)). }
    destruct w; simpl in *. rewrite lookup_insert_eq in Hr. simpl in Hr.
    split; [rewrite Hr; f_equal; lia|]. split; [done|].
    split; [|done]. intros k Hne. destruct (Hk k Hne) as [-> ->].
    by rewrite !lookup_insert_ne.
Qed.

(** X7.  Failures of an extractor add up under its key: after [n+1]
    recorded failures the stored count is the earlier count (0 when the key
    was absent) plus [n+1], the key expires after the breaker's timeout,
    and the next check finds the breaker open exactly when that count has
    reached the threshold.  The counts of the other extractors are as
    they were. *)
Theorem failures_open_breaker_at_threshold K env (x y : string) (n : nat) w :
  fault env redis_incr = None → fault env redis_expire = None → fault env redis_get = None →
  let w' := (times (S n) (record_extractor_failure K env x) w).2 in
  let count := default 0 (redis w !! circuit_key x) + Z.of_nat (S n) in
  redis w' !! circuit_key x = Some count
  ∧ ttl w' !! circuit_key x = Some (CIRCUIT_BREAKER_TIMEOUT K)
  ∧ (check_circuit_breaker K env x w').1 = Ret (CIRCUIT_BREAKER_THRESHOLD K <=? count)
  ∧ (x ≠ y → redis w' !! circuit_key y = redis w !! circuit_key y).
Proof.
  intros Hi He Hg.
  destruct (times_record_failure K env x n w Hi He) as (w' & Hrun & Hr & Ht & Hk & _).
  rewrite Hrun. cbn [snd]. split; [done|]. split; [done|]. split.
  - rewrite (check_circuit_breaker_run K env x w' Hg), Hr. done.
  - intros Hne. apply Hk. intros E. by apply circuit_key_inj in E.
Qed.

(** Five failures of PyPDF2 counted from nothing open its breaker. *)
Lemma failures_open_breaker_at_threshold_witness :
  let w' := (times 5 (record_extractor_failure example_constants example_env "PyPDF2")
               fresh_world).2 in
  redis w' !! circuit_key "PyPDF2" = Some 5
  ∧ ttl w' !! circuit_key "PyPDF2" = Some 300
  ∧ (check_circuit_breaker example_constants example_env "PyPDF2" w').1 = Ret true
  ∧ ("PyPDF2" ≠ "Textract" → redis w' !! circuit_key "Textract" = None).
Proof.
  apply (failures_open_breaker_at_threshold example_constants example_env
           "PyPDF2" "Textract" 4 fresh_world); reflexivity.
Defined.

(** X8.  A reset closes the breaker whatever had been counted: the key and
    its expiry are gone, the next check answers closed, a failure after
    the reset counts as the first, and the other extractors' counts are
    as they were. *)
Theorem reset_closes_breaker K env (x y : string) w :
  fault env redis_delete = None → fault env redis_get = None →
  fault env redis_incr = None → fault env redis_expire = None →
  let w' := (reset_circuit_breaker env x w).2 in
  redis w' !! circuit_key x = None
  ∧ ttl w' !! circuit_key x = None
  ∧ (check_circuit_breaker K env x w').1 = Ret false
  ∧ redis (record_extractor_failure K env x w').2 !! circuit_key x = Some 1
  ∧ (x ≠ y → redis w' !! circuit_key y = redis w !! circuit_key y).
Proof.
  intros Hd Hg Hi He.
  assert (reset_circuit_breaker env x w
          = (Ret tt, set_redis (delete (circuit_key x) (redis w))
                               (delete (circuit_key x) (ttl w)) w)) as ->.
  { unfold reset_circuit_breaker. unfold_monad. by rewrite Hd. }
  cbn [snd].
  set (w' := set_redis _ _ w).
  assert (redis w' !! circuit_key x = None) as Hr.
  { subst w'. destruct w; simpl. apply lookup_delete_eq. }
  split; [done|]. split; [subst w'; destruct w; simpl; apply lookup_delete_eq|].
  split; [by rewrite (check_circuit_breaker_run K env x w' Hg), Hr|]. split.
  - rewrite (record_extractor_failure_run K env x w' Hi He). cbn [snd].
    rewrite Hr. destruct w'; simpl. by rewrite lookup_insert_eq.
  - intros Hne. subst w'. destruct w; simpl. apply lookup_delete_ne.
    intros E. by apply circuit_key_inj in E.
Qed.

Lemma reset_closes_breaker_witness :
  let w' := (reset_circuit_breaker example_env "PyPDF2" open_breaker_world).2 in
  redis w' !! circuit_key "PyPDF2" = None
  ∧ ttl w' !! circuit_key "PyPDF2" = None
  ∧ (check_circuit_breaker example_constants example_env "PyPDF2" w').1 = Ret false
  ∧ redis (record_extractor_failure example_constants example_env "PyPDF2" w').2
      !! circuit_key "PyPDF2" = Some 1
  ∧ ("PyPDF2" ≠ "Textract"
     → redis w' !! circuit_key "Textract" = redis open_breaker_world !! circuit_key "Textract").
Proof.
  apply (reset_closes_breaker example_constants example_env "PyPDF2" "Textract"
           open_breaker_world); reflexivity.
Defined.

(** X9.  The session context manager gives back what its body gave, value
    or exception: a rollback or a close that fails is logged, never raised,
    and the manager commits nothing of its own.  When the body raises, the
    changes it left pending are discarded whether or not the rollback
    call itself succeeds. *)
Theorem session_context_passes_outcome env {A} (body : M A) w :
  let r := get_db_session_context env body w in
  let b := body (open_session w) in
  r.1 = b.1
  ∧ committed r.2 = committed b.2 ∧ recorded r.2 = recorded b.2
  ∧ redis r.2 = redis b.2 ∧ queue r.2 = queue b.2 ∧ trace r.2 = trace b.2
  ∧ (∀ e, b.1 = Exn e → session r.2 = committed r.2 ∧ unrecorded r.2 = []).
Proof.
  intros r b.
  destruct (session_context_spec env body w) as (H1 & Hc & Hr & Hre & _ & Hq & Ht).
  repeat (split; [done|]).
  intros e He. subst r b. revert He.
  unfold get_db_session_context, open_session. unfold_monad.
  destruct (body _) as [[a|e'|] w1]; simpl; try done. intros _.
  destruct (fault env session_rollback), (fault env session_close); by destruct w1.
Qed.

(** * Further properties of the polling loop *)

Lemma filter_get_status_sleep t :
  filter is_get_status (t ++ [EvSleep 5])%list = filter is_get_status t.
Proof. rewrite filter_app. simpl. by rewrite app_nil_r. Qed.

Lemma poll_step impl fuel reader job_id status w s reader' :
  finished status = false →
  get_status impl reader job_id (length (filter is_get_status (trace w))) = (Ok s, reader') →
  poll impl (S fuel) reader job_id status w
  = poll impl fuel reader' job_id s (set_trace (trace w ++ poll_round job_id)%list w).
Proof.
  intros Hf Hs. cbn [poll]. rewrite Hf.
  change (emit (EvSleep 5) ≫= ?k) with (mbind k (emit (EvSleep 5))).
  rewrite (bind_Ret_eq (emit (EvSleep 5)) _ w tt (set_trace (trace w ++ [EvSleep 5])%list w) eq_refl).
  rewrite (bind_Ret_eq _ _ _ (s, reader')
             (set_trace (trace w ++ poll_round job_id)%list w)); [done|].
  erewrite reader_get_status_Ok.
  - f_equal. destruct w; simpl. by rewrite <- app_assoc.
  - destruct w; simpl. by rewrite filter_get_status_sleep.
Qed.

(** X10.  The polling loop has no timeout: as long as every status check
    answers something other than "succeeded" or "failed", the loop neither
    returns nor raises, however many rounds it is given; each round is one
    sleep of five seconds and one status check. *)
Theorem poll_has_no_timeout impl (fuel : nat) reader job_id status w :
  (∀ self n, ∃ s self', get_status impl self job_id n = (Ok s, self') ∧ finished s = false) →
  finished status = false →
  let r := poll impl fuel reader job_id status w in
  r.1 = OutOfFuel ∧ trace r.2 = (trace w ++ concat (replicate fuel (poll_round job_id)))%list.
Proof.
  intros Hs. revert reader status w.
  induction fuel as [|fuel IH]; intros reader status w Hf.
  - cbn [poll]. rewrite Hf. simpl. by rewrite app_nil_r.
  - destruct (Hs reader (length (filter is_get_status (trace w)))) as (s & reader' & Hg & Hf').
    rewrite (poll_step _ _ _ _ _ _ _ _ Hf Hg).
    destruct (IH reader' s (set_trace (trace w ++ poll_round job_id)%list w) Hf') as [H1 H2].
    split; [done|]. rewrite H2. destruct w; simpl. by rewrite <- app_assoc.
Qed.

(** The job of the example's remote extractor stays "processing". *)
Lemma poll_has_no_timeout_witness :
  let r := poll webhook_extractor 7 (construct LlamaParseExtractor) (PyStr "remote-1")
             "processing" fresh_world in
  r.1 = OutOfFuel
  ∧ trace r.2 = (trace fresh_world ++ concat (replicate 7 (poll_round (PyStr "remote-1"))))%list.
Proof.
  apply (poll_has_no_timeout webhook_extractor 7 (construct LlamaParseExtractor)
           (PyStr "remote-1") "processing" fresh_world).
  - intros self n. exists "processing", self. split; reflexivity.
  - reflexivity.
Defined.

Lemma filter_get_status_round t job_id :
  length (filter is_get_status (t ++ poll_round job_id)%list)
  = S (length (filter is_get_status t)).
Proof. rewrite filter_app, length_app. simpl. lia. Qed.

Lemma poll_rounds impl (statuses : nat → string) job_id (k : nat) :
  (∀ self n, get_status impl self job_id n = (Ok (statuses n), self)) →
  ∀ (fuel : nat) reader status w,
    (k ≤ fuel)%nat →
    let nth_status (i : nat) :=
      match i with
      | O => status
      | S i' => statuses (length (filter is_get_status (trace w)) + i')%nat
      end in
    (∀ i, (i < k)%nat → finished (nth_status i) = false) →
    finished (nth_status k) = true →
    poll impl fuel reader job_id status w
    = (Ret (nth_status k, reader),
       set_trace (trace w ++ concat (replicate k (poll_round job_id)))%list w).
Proof.
  intros Hs. induction k as [|k IH]; intros fuel reader status w Hk nth_status Hlt Hfin;
    subst nth_status; cbn beta in *.
  - rewrite (poll_finished impl fuel reader job_id status w Hfin).
    simpl. rewrite app_nil_r. by destruct w.
  - destruct fuel as [|fuel]; [lia|].
    rewrite (poll_step impl fuel reader job_id status w _ reader (Hlt 0%nat ltac:(lia)) (Hs _ _)).
    assert (∀ i : nat,
              (length (filter is_get_status
                         (trace (set_trace (trace w ++ poll_round job_id)%list w))) + i)%nat
              = (length (filter is_get_status (trace w)) + S i)%nat) as Hshift.
    { intros i. cbn [trace set_trace]. destruct w; cbn [trace].
      rewrite filter_get_status_round. lia. }
    rewrite IH.
    + f_equal; [|destruct w; simpl; by rewrite <- app_assoc].
      f_equal. f_equal. destruct k as [|k]; [by rewrite Nat.add_0_r|]. by rewrite Hshift.
    + lia.
    + intros i Hi. specialize (Hlt (S i) ltac:(lia)). cbn beta iota in Hlt.
      destruct i as [|i]; [by rewrite Nat.add_0_r in Hlt|]. by rewrite Hshift.
    + destruct k as [|k]; [by rewrite Nat.add_0_r in Hfin|]. by rewrite Hshift.
Qed.

(** X11.  An extractor without webhooks whose [read] returns a job handle
    is polled: one status check at once, then one sleep of five seconds
    and one check per round, until a check answers "succeeded" or
    "failed".  If the [k]-th round is the first to do so, the executor has
    made [k+1] checks and [k] sleeps; on "failed" it raises [RuntimeError]
    without asking for the result, on "succeeded" it asks for the result
    once and hands it on, as it is or as the exception it raised. *)
Theorem extract_polls_until_finished impl (statuses : nat → string) (fuel k : nat)
    reader reader' path handle w :
  (∀ self, supports_webhook impl self = false) →
  read impl reader path = (Ok handle, reader') →
  is_dict handle = false →
  (∀ self n, get_status impl self handle n = (Ok (statuses n), self)) →
  let c := length (filter is_get_status (trace w)) in
  (∀ i, (i < k)%nat → finished (statuses (c + i)%nat) = false) →
  finished (statuses (c + k)%nat) = true →
  (k ≤ fuel)%nat →
  let r := extract impl fuel reader path w in
  let polled := (trace w ++ [EvRead path; EvGetStatus handle]
                 ++ concat (replicate k (poll_round handle)))%list in
  if String.eqb (statuses (c + k)%nat) "failed" then
    r = (Exn (Exc RuntimeError "Extraction failed for job"), set_trace polled w)
  else
    r.1 = match (get_result impl reader' handle).1 with
          | Ok page_contents => Ret page_contents
          | Raise e => Exn e
          end
    ∧ trace r.2 = (polled ++ [EvGetResult handle])%list.
Proof.
  intros Hw Hread Hd Hs c Hlt Hfin Hk r polled. subst r. unfold extract.
  rewrite Hread. rewrite (bind_Ret_eq _ _ _ _ _ (call_Ok _ _ _ _)).
  rewrite Hw, Hd.
  set (w1 := set_trace (trace w ++ [EvRead path])%list w).
  assert (length (filter is_get_status (trace w1)) = c) as Hc.
  { subst w1 c. destruct w; simpl. rewrite filter_app. simpl. by rewrite app_nil_r. }
  rewrite (bind_Ret_eq _ _ _ _ _ (reader_get_status_Ok impl reader' handle w1 _ _ (Hs _ _))).
  set (w2 := set_trace (trace w1 ++ [EvGetStatus handle])%list w1).
  assert (length (filter is_get_status (trace w2)) = S c) as Hc2.
  { subst w2. destruct w1; simpl in *. rewrite filter_app, length_app. simpl. lia. }
  pose proof (poll_rounds impl statuses handle k Hs fuel reader' (statuses c) w2 Hk) as Hp.
  cbv zeta in Hp. rewrite Hc2 in Hp.
  assert (∀ i : nat, match i with O => statuses c | S i' => statuses (S c + i')%nat end
                     = statuses (c + i)%nat) as Hnth.
  { intros [|i]; [by rewrite Nat.add_0_r|]. f_equal. lia. }
  specialize (Hp ltac:(intros i Hi; rewrite Hnth; by apply Hlt) ltac:(by rewrite Hnth)).
  rewrite Hnth in Hp. rewrite Hc. rewrite (bind_Ret_eq _ _ _ _ _ Hp).
  set (w3 := set_trace _ w2).
  assert (trace w3 = polled) as Ht.
  { subst w3 w2 w1 polled. destruct w; simpl. by rewrite <- !app_assoc. }
  assert (set_trace polled w = w3) as Hw3.
  { subst w3 w2 w1. rewrite <- Ht. by destruct w. }
  destruct (String.eqb (statuses (c + k)%nat) "failed") eqn:E.
  - cbn [when]. unfold_monad. by rewrite Hw3.
  - cbn [when]. rewrite (bind_Ret_eq _ _ w3 tt w3 eq_refl).
    destruct (get_result impl reader' handle) as [[v|e] reader''] eqn:G; cbn [fst].
    + rewrite (bind_Ret_eq _ _ _ _ _ (call_Ok _ _ _ _)). cbn. split; [done|].
      subst polled. by rewrite <- !app_assoc.
    + unfold call. unfold_monad. cbn. split; [done|].
      subst polled. by rewrite <- !app_assoc.
Qed.

(** The Mathpix job of the example: three checks, two sleeps, one result. *)
Lemma extract_polls_until_finished_witness :
  let r := extract (Mathpix example_mathpix) 5 (construct MathpixExtractor) "/data/doc.pdf"
             fresh_world in
  r.1 = Ret (PyDict [(KInt 1, mathpix_page (PyStr "pdf-1")
                                {| page := Some 1;
                                   lines := [ {| line := Some 2; text_display := Some " x = 1 " |};
                                              {| line := Some 1; text_display := Some "Let" |} ] |})])
  ∧ trace r.2 = [ EvRead "/data/doc.pdf"; EvGetStatus (PyStr "pdf-1");
                  EvSleep 5; EvGetStatus (PyStr "pdf-1");
                  EvSleep 5; EvGetStatus (PyStr "pdf-1");
                  EvGetResult (PyStr "pdf-1") ].
Proof.
  apply (extract_polls_until_finished (Mathpix example_mathpix) example_mathpix_statuses
           5 2 (construct MathpixExtractor) (construct MathpixExtractor) "/data/doc.pdf"
           (PyStr "pdf-1") fresh_world).
  - reflexivity.
  - reflexivity.
  - reflexivity.
  - intros self n. unfold example_mathpix_statuses. simpl.
    unfold Mathpix_get_status. simpl. by destruct (n <? 2)%nat.
  - intros [|[|i]] Hi; [reflexivity|reflexivity|lia].
  - reflexivity.
  - lia.
Defined.

(** * Further properties of a whole run *)

Section RunFacts.

Context (K : Constants) (impl : ExtractorImpl) (env : Env).
Context (fuel retries : nat) (j d f x : string).

Lemma prologue_Ret path w w1 :
  prologue K env j d f x w = (Ret path, w1) →
  jobs (session w1) !! j = values_processing (now_start env) <$> jobs (session w) !! j
  ∧ jobs (committed w1) = jobs (session w1)
  ∧ page_rows (committed w1) = page_rows (session w)
  ∧ page_rows (session w1) = page_rows (session w).
Proof.
  unfold prologue, check_circuit_breaker, locate_file, download_to_shared_volume.
  unfold_monad.
  destruct (fault env redis_get); [done|].
  destruct (redis w !! circuit_key x) as [n|];
    [destruct (CIRCUIT_BREAKER_THRESHOLD K <=? n); [done|]|];
    (destruct (fault env db_execute_processing); [done|]);
    (destruct (fault env db_commit_processing); [done|]);
    (destruct (fault env db_query_document); [done|]);
    cbn;
    (destruct (jobs (session w) !! j) as [job|] eqn:Hj; cbn;
     (destruct (documents (session w) !! d); [|done]);
     (destruct (String.prefix "projects/" f);
      [destruct (fault env download_file); [done|]
      |destruct (path_exists env f); [|done]]);
     intros [= _ <-]; cbn; by rewrite ?lookup_alter_eq, ?Hj).
Qed.


Lemma run_extraction_frame path :
  preserves only_pages_and_trace (run_extraction impl env fuel j x path).
Proof. apply preserves_run_extraction; [apply _| |]; intros; by repeat split. Qed.

Lemma run_extraction_Ret_items path pc w w' :
  run_extraction impl env fuel j x path w = (Ret pc, w') →
  ∃ items rows, pc = PyDict items ∧ items ≠ []
    ∧ page_rows (session w') = (page_rows (session w) ++ rows)%list
    ∧ Forall2 (row_of_page j) rows items.
Proof.
  unfold run_extraction. intros H.
  apply bind_Ret_inv in H as (reader & w0 & Hr & H).
  unfold lift in Hr. destruct (get_reader (clients env) x) as [reader'|] eqn:Hg; [|done].
  injection Hr as <- <-.
  apply bind_Ret_inv in H as (pc' & w1 & He & H).
  apply bind_Ret_inv in H as ([] & w2 & Hv & H). injection H as <- <-.
  destruct (validate_and_save_Ret env j x _ _ _ Hv) as (items & rows & -> & Hrows & Hall).
  pose proof (extract_rows impl fuel reader' path w) as Hx. rewrite He in Hx.
  unfold same_pending_rows in Hx. simpl in Hx. rewrite Hx in Hrows.
  exists items, rows. repeat split; try done.
  intros ->. by rewrite (validate_and_save_rejects env j x (PyDict []) w1) in Hv.
Qed.

Lemma record_success_Ret_job items w w' :
  record_success env j d x (PyDict items) w = (Ret tt, w') →
  jobs (committed w') !! j
  = values_final SUCCESS (now_end env) (latency_of (now_start env) (now_end env))
      (calculate_extraction_cost x (Z.of_nat (length items))) <$> jobs (session w) !! j.
Proof.
  unfold record_success.
  assert ((if truthy (PyDict items) then lift (py_len (PyDict items)) else mret 0)
          = (mret (Z.of_nat (length items)) : M Z)) as ->.
  { by destruct items. }
  rewrite (bind_Ret_eq _ _ w (Z.of_nat (length items)) w eq_refl).
  cbv zeta. generalize (calculate_extraction_cost x (Z.of_nat (length items))) as c. intros c.
  unfold_monad. simpl.
  (destruct (fault env db_execute_success); simpl; [done|]);
  (destruct (fault env db_commit_success); simpl; [done|]);
  (destruct (fault env redis_delete); simpl; [done|]);
  (destruct (fault env notify_complete); simpl; [done|]).
  intros [= <-]. destruct (jobs (session w) !! j) eqn:Hj; simpl; by rewrite ?lookup_alter_eq, ?Hj.
Qed.

End RunFacts.

(** X12.  A run that returns normally leaves the job row with status
    SUCCESS, the start and end times of the run, the latency between them
    and the cost of as many pages as it has stored page rows; the
    document and extractor columns are as they were.  The latency is
    [int(total_seconds() * 1000)] as binary64 arithmetic gives it, which
    can be one below the exact number of milliseconds.  The cost is
    priced by the extractor identifier the task was called with. *)
Theorem success_row_fields K impl env fuel retries j d f x w w' job0 :
  process_document_with_extractor K impl env fuel retries j d f x w = (Ret tt, w') →
  jobs (committed w) !! j = Some job0 →
  ∃ n : nat,
    (0 < n)%nat
    ∧ length (page_rows (committed w')) = (length (page_rows (committed w)) + n)%nat
    ∧ jobs (committed w') !! j
      = Some {| document_uuid_of := document_uuid_of job0; extractor := extractor job0;
                status := SUCCESS; start_time := Some (now_start env);
                end_time := Some (now_end env);
                latency_ms := Some (latency_of (now_start env) (now_end env));
                cost := Some (calculate_extraction_cost x (Z.of_nat n)) |}.
Proof.
  intros H Hj.
  destruct (process_spec K impl env fuel retries j d f x w) as (Hres & Hc & _).
  rewrite H in Hres, Hc. cbn [fst snd] in Hres, Hc.
  destruct (handled K impl env fuel retries j d f x (open_session w)) as [r w2] eqn:Hh.
  cbn [fst snd] in Hres, Hc. subst r. apply handled_Ret_inv in Hh.
  rewrite try_body_grouped in Hh.
  apply bind_Ret_inv in Hh as (path & w3 & Hp & Hh).
  apply bind_Ret_inv in Hh as (pc & w4 & Hx & Hh).
  apply prologue_Ret in Hp as (Hj3 & _ & _ & Hrows3).
  destruct (run_extraction_Ret_items impl env fuel j x path pc w3 w4 Hx)
    as (items & rows & -> & Hne & Hrows4 & Hall).
  pose proof (run_extraction_frame impl env fuel j x path w3) as Hf. rewrite Hx in Hf.
  destruct Hf as (_ & Hj4 & _). cbn [snd] in Hj4.
  pose proof (record_success_Ret env j d x _ _ _ Hh) as Hrows.
  apply record_success_Ret_job in Hh.
  exists (length items). rewrite Hc, Hrows, Hrows4, Hrows3, Hh, Hj4, Hj3.
  split; [destruct items; [done|simpl; lia]|]. split.
  - rewrite length_app. by rewrite (Forall2_length _ _ _ Hall).
  - destruct w; cbn in *. by rewrite Hj.
Qed.

(** The PyPDF2 job of the example in a run of 1.001 s: two pages at the
    default rate, and a latency of 1000 ms. *)
Lemma success_row_fields_witness :
  ∃ n : nat,
    (0 < n)%nat
    ∧ length (page_rows (committed
        (process_document_with_extractor example_constants example_impl slow_run_env
           3 0 "j1" "d1" "/data/doc.pdf" "PyPDF2" fresh_world).2))
      = (length (page_rows (committed fresh_world)) + n)%nat
    ∧ jobs (committed
        (process_document_with_extractor example_constants example_impl slow_run_env
           3 0 "j1" "d1" "/data/doc.pdf" "PyPDF2" fresh_world).2) !! "j1"
      = Some {| document_uuid_of := "d1"; extractor := "PyPDF2";
                status := SUCCESS; start_time := Some 1000000;
                end_time := Some 2001000;
                latency_ms := Some 1000;
                cost := Some (calculate_extraction_cost "PyPDF2" (Z.of_nat n)) |}.
Proof.
  apply (success_row_fields example_constants example_impl slow_run_env
           3 0 "j1" "d1" "/data/doc.pdf" "PyPDF2" fresh_world _ example_job).
  - by vm_compute.
  - reflexivity.
Defined.

Section FailedRun.

Context (K : Constants) (impl : ExtractorImpl) (env : Env).
Context (fuel retries : nat) (j d f x : string).

Lemma prologue_committed_rows w :
  page_rows (session w) = page_rows (committed w) →
  page_rows (committed (prologue K env j d f x w).2) = page_rows (committed w).
Proof.
  intros Hs.
  unfold prologue, check_circuit_breaker, locate_file, download_to_shared_volume.
  unfold_monad.
  destruct (fault env redis_get); [done|].
  destruct (redis w !! circuit_key x) as [n|];
    [destruct (CIRCUIT_BREAKER_THRESHOLD K <=? n); [done|]|];
    (destruct (fault env db_execute_processing); [done|]);
    (destruct (jobs (session w) !! j) as [job|] eqn:Hj);
    (destruct (fault env db_commit_processing); [done|]);
    (destruct (fault env db_query_document); [done|]);
    cbn;
    (destruct (documents (session w) !! d); [|done]);
    (destruct (String.prefix "projects/" f);
     [destruct (fault env download_file); [done|]
     |destruct (path_exists env f); [|done]]);
    done.
Qed.

Lemma record_success_not_Ret pc w r w1 :
  fault env redis_delete = None → fault env notify_complete = None →
  record_success env j d x pc w = (r, w1) → r ≠ Ret tt →
  committed w1 = committed w.
Proof.
  intros F1 F2. unfold record_success. cbv zeta.
  assert (∀ c : float,
            (db_execute_update env db_execute_success j SUCCESS
               (values_final SUCCESS (now_end env)
                  (latency_of (now_start env) (now_end env)) c) ;;
             db_commit env db_commit_success ;;
             reset_circuit_breaker env x ;;
             mark_task_complete env d j) w = (r, w1) →
            r ≠ Ret tt → committed w1 = committed w) as Htail.
  { intros c. unfold_monad. rewrite F1, F2. simpl.
    (destruct (fault env db_execute_success); simpl; [by intros [= <- <-]|]);
    (destruct (fault env db_commit_success); simpl;
     [intros [= <- <-]; by destruct (jobs (session w) !! j)|]);
    by intros [= <- <-]. }
  destruct (truthy pc); [destruct (py_len pc) as [n|e]|].
  - rewrite (bind_Ret_eq _ _ w n w eq_refl). apply Htail.
  - unfold_monad. simpl. by intros [= <- <-].
  - rewrite (bind_Ret_eq _ _ w 0 w eq_refl). apply Htail.
Qed.

Lemma try_body_not_Ret w r w1 :
  fault env redis_delete = None → fault env notify_complete = None →
  page_rows (session w) = page_rows (committed w) →
  try_body K impl env fuel j d f x w = (r, w1) → r ≠ Ret tt →
  page_rows (committed w1) = page_rows (committed w).
Proof.
  intros F1 F2 Hs. rewrite try_body_grouped, bind_run.
  pose proof (prologue_committed_rows w Hs) as Hp.
  destruct (prologue K env j d f x w) as [[path|e|] w3] eqn:Hpro; cbn [snd] in Hp;
    [|by intros [= <- <-]..].
  rewrite bind_run.
  pose proof (run_extraction_frame impl env fuel j x path w3) as Hf.
  destruct (run_extraction impl env fuel j x path w3) as [[pc|e|] w4]; cbn [snd] in Hf;
    destruct Hf as (Hc & _); [|intros [= <- <-]; by rewrite Hc..].
  intros Hr Hne. by rewrite (record_success_not_Ret _ _ _ _ F1 F2 Hr Hne), Hc.
Qed.

Lemma failure_path_committed_rows e w :
  page_rows (committed (failure_path K env retries j d f x e w).2) = page_rows (committed w).
Proof.
  rewrite failure_path_unfold, bind_run.
  assert (page_rows (committed (write_failure env j (now_end env)
                                  (latency_of (now_start env) (now_end env))
                                  (open_session w)).2) = page_rows (committed w)) as Hw.
  { unfold write_failure. unfold_monad.
    destruct (fault env db_execute_failure); cbn; [by destruct w|].
    destruct (fault env db_commit_failure); cbn;
      destruct w; cbn; by destruct (jobs committed0 !! j). }
  destruct (write_failure _ _ _ _ _) as [[[]|e'|] w2]; cbn [snd] in *; try done.
  destruct (classify_and_retry_frame K env retries j d f x e w2) as (_ & _ & Hc & _).
  by rewrite Hc.
Qed.

End FailedRun.

(** X13.  A run that does not return normally stores no page row: unless
    the breaker reset or the completion notice raises after the SUCCESS
    commit, the committed page rows are those from before the run,
    whatever failed and wherever. *)
Theorem failed_run_persists_no_pages K impl env fuel retries j d f x w :
  fault env redis_delete = None → fault env notify_complete = None →
  let r := process_document_with_extractor K impl env fuel retries j d f x w in
  r.1 ≠ Ret tt →
  page_rows (committed r.2) = page_rows (committed w).
Proof.
  intros F1 F2 r Hne. subst r.
  destruct (process_spec K impl env fuel retries j d f x w) as (Hres & Hc & _).
  rewrite Hres in Hne. rewrite Hc. clear Hres Hc.
  unfold handled, try_except in *.
  destruct (try_body K impl env fuel j d f x (open_session w)) as [r w1] eqn:Ht.
  assert (r ≠ Ret tt → page_rows (committed w1) = page_rows (committed w)) as Hrows.
  { intros Hr.
    by rewrite (try_body_not_Ret K impl env fuel j d f x (open_session w) r w1 F1 F2
                  eq_refl Ht Hr). }
  destruct r as [[]|e|]; cbn [fst snd] in *; [done| |by apply Hrows].
  rewrite failure_path_committed_rows. by apply Hrows.
Qed.

(** The run against the open breaker of the example. *)
Lemma failed_run_persists_no_pages_witness :
  page_rows (committed
    (process_document_with_extractor example_constants example_impl example_env
       3 0 "j1" "d1" "/data/doc.pdf" "PyPDF2" open_breaker_world).2)
  = page_rows (committed open_breaker_world).
Proof.
  apply (failed_run_persists_no_pages example_constants example_impl example_env
           3 0 "j1" "d1" "/data/doc.pdf" "PyPDF2" open_breaker_world);
    [reflexivity|reflexivity|by vm_compute].
Defined.

Section MissingFile.

Context (K : Constants) (impl : ExtractorImpl) (env : Env).
Context (fuel retries : nat) (j d f x : string).

Lemma prologue_not_found w job :
  fault env redis_get = None → breaker_closed K x w →
  fault env db_execute_processing = None → fault env db_commit_processing = None →
  fault env db_query_document = None →
  session w = committed w →
  jobs (committed w) !! j = Some job →
  (documents (committed w) !! d = None
   ∨ (String.prefix "projects/" f = false ∧ path_exists env f = false)) →
  ∃ w2, prologue K env j d f x w = (Exn (not_found_error d f w), w2)
    ∧ queue w2 = queue w ∧ redis w2 = redis w ∧ trace w2 = trace w.
Proof.
  intros F0 Hc F1 F2 F3 Hs Hj Hmiss.
  unfold prologue. rewrite (bind_Ret_eq _ _ _ _ _ (check_closed K env x w F0 Hc)).
  cbn [when]. rewrite (bind_Ret_eq _ _ w tt w eq_refl).
  unfold locate_file, not_found_error. unfold_monad. rewrite F1, F2, F3, Hs, Hj. cbn.
  destruct (documents (committed w) !! d) as [name|] eqn:Hd.
  - destruct Hmiss as [|[-> ->]]; [done|]. eexists. by split.
  - eexists. by split.
Qed.

End MissingFile.

(** X14.  A document row that is missing and a local file that does not
    exist are reported as [RuntimeError], not as [FileNotFoundError]: the
    run is therefore not treated as an infrastructure failure.  With the
    breaker closed it never calls the extractor, counts a failure against
    the breaker and, while retries remain, is queued again. *)
Theorem missing_file_is_retried K impl env fuel retries j d f x w job :
  handler_reliable env →
  fault env redis_get = None → breaker_closed K x w →
  fault env db_execute_processing = None → fault env db_commit_processing = None →
  fault env db_query_document = None →
  jobs (committed w) !! j = Some job →
  (documents (committed w) !! d = None
   ∨ (String.prefix "projects/" f = false ∧ path_exists env f = false)) →
  let r := process_document_with_extractor K impl env fuel retries j d f x w in
  let e := not_found_error d f w in
  let cfg := get_retry_config K x in
  is_infrastructure_error e = false
  ∧ r.1 = (if (max_retries cfg <? retries + 1)%nat then Exn e
           else Exn (Exc CeleryRetry (exc_msg e)))
  ∧ queue r.2 = (if (max_retries cfg <? retries + 1)%nat then queue w
                 else queue w ++ [retry_message retries j d f x (countdown cfg)])%list
  ∧ redis r.2 = <[circuit_key x := default 0 (redis w !! circuit_key x) + 1]> (redis w)
  ∧ trace r.2 = (trace w ++ [EvMarkFailed d j])%list.
Proof.
  intros Hrel F0 Hc F1 F2 F3 Hj Hmiss r e cfg.
  assert (is_infrastructure_error e = false) as Hinfra.
  { subst e. unfold not_found_error. by destruct (documents (committed w) !! d). }
  split; [done|]. subst r.
  destruct (process_spec K impl env fuel retries j d f x w)
    as (Hres & _ & _ & Hred & _ & Hq & Htr).
  rewrite Hres, Hq, Hred, Htr. clear Hres Hq Hred Htr.
  destruct (prologue_not_found K env j d f x (open_session w) job F0 Hc F1 F2 F3 eq_refl Hj Hmiss)
    as (w2 & Hp & Hq2 & Hr2 & Ht2).
  assert (try_body K impl env fuel j d f x (open_session w) = (Exn e, w2)) as Ht.
  { rewrite try_body_grouped, bind_run, Hp. done. }
  rewrite (handled_Exn K impl env fuel retries j d f x _ _ _ Ht), failure_path_unfold, bind_run.
  destruct (write_failure_spec env j (now_end env) (latency_of (now_start env) (now_end env))
              (open_session w2) eq_refl) as (w3 & Hw & Hq3 & Hr3 & _ & Ht3 & _).
  rewrite Hw.
  destruct (classify_and_retry_spec K env retries j d f x e w3 Hrel)
    as (H1 & H2 & H3 & H4 & _).
  rewrite H1, H2, H3, H4, Hinfra, Hq3, Hr3, Ht3. cbn [queue redis trace open_session set_recorded set_session].
  by rewrite Hq2, Hr2, Ht2.
Qed.

(** The job of the example when its file is not on disk. *)
Lemma missing_file_is_retried_witness :
  let r := process_document_with_extractor example_constants example_impl missing_file_env
             3 0 "j1" "d1" "/data/doc.pdf" "PyPDF2" fresh_world in
  is_infrastructure_error (Exc RuntimeError "File not found: /data/doc.pdf") = false
  ∧ r.1 = Exn (Exc CeleryRetry "File not found: /data/doc.pdf")
  ∧ queue r.2 = [retry_message 0 "j1" "d1" "/data/doc.pdf" "PyPDF2" 60]
  ∧ redis r.2 = <[circuit_key "PyPDF2" := 1]> ∅
  ∧ trace r.2 = [EvMarkFailed "d1" "j1"].
Proof.
  apply (missing_file_is_retried example_constants example_impl missing_file_env
           3 0 "j1" "d1" "/data/doc.pdf" "PyPDF2" fresh_world example_job).
  - by repeat split.
  - reflexivity.
  - intros n Hn. by vm_compute in Hn.
  - reflexivity.
  - reflexivity.
  - reflexivity.
  - reflexivity.
  - right. by split.
Defined.

(** * Further properties of the extractors *)

Lemma pypdf2_loop_raise texts e rest page_num page_contents :
  pypdf2_loop ((Ok <$> texts) ++ Raise e :: rest)%list page_num page_contents = Raise e.
Proof.
  revert page_num page_contents. induction texts as [|t texts IH]; intros; [done|].
  cbn. apply IH.
Qed.

Lemma run_extraction_rejects impl env fuel j x path reader pc w w1 :
  get_reader (clients env) x = Ok reader →
  extract impl fuel reader path w = (Ret pc, w1) →
  _has_meaningful_content pc = Ok false →
  run_extraction impl env fuel j x path w
  = (Exn (Exc RuntimeError ("No meaningful content extracted by " ++ x)), w1).
Proof.
  intros Hg He Hv. unfold run_extraction. rewrite Hg, bind_lift_Ok.
  rewrite (bind_Ret_eq _ _ _ _ _ He). rewrite bind_run.
  by rewrite (validate_and_save_rejects env j x pc w1 Hv).
Qed.

(** X15.  PyPDF2 never lets a failure of the PDF library out of [read]:
    whether the file cannot be opened or a page cannot be read, it leaves
    a one-page map with empty text and the error message as metadata, and
    the pages read before the failure are dropped.  The executor then
    rejects that map: the run fails with "No meaningful content extracted
    by PyPDF2", an error that is retried, whatever the library's error
    was, and no page row is added. *)
Theorem pypdf2_library_failure_masked lib remote env fuel j path w e :
  (PdfReader lib path = Raise e
   ∨ ∃ texts rest, PdfReader lib path = Ok ((Ok <$> texts) ++ Raise e :: rest)%list) →
  (∀ self, PyPDF2_read lib self path = (Ok (PyBool true), set_last_result self (pypdf2_error_map e)))
  ∧ run_extraction (repo_impl lib remote) env fuel j "PyPDF2" path w
    = (Exn (Exc RuntimeError "No meaningful content extracted by PyPDF2"),
       set_trace (trace w ++ read_then_fetch path)%list w)
  ∧ is_infrastructure_error (Exc RuntimeError "No meaningful content extracted by PyPDF2") = false.
Proof.
  intros H.
  assert (pypdf2_page_contents lib path = pypdf2_error_map e) as Hpc.
  { unfold pypdf2_page_contents.
    destruct H as [->|(texts & rest & ->)]; [done|]. cbn. by rewrite pypdf2_loop_raise. }
  split; [|split; [|done]].
  - intros self. unfold PyPDF2_read. by rewrite Hpc.
  - apply (run_extraction_rejects _ _ _ _ _ _ (construct PyPDF2Extractor) (pypdf2_error_map e)).
    + done.
    + rewrite <- Hpc. by apply extract_PyPDF2.
    + done.
Qed.

(** A PDF whose second page cannot be read. *)
Lemma pypdf2_library_failure_masked_witness :
  let lib := {| PdfReader := λ _, Ok [Ok (Some "hello"); Raise (Exc OSError "bad page")];
                fitz_open := λ _, Ok []; markitdown_convert := λ _, Ok None |} in
  (∀ self, PyPDF2_read lib self "/data/doc.pdf"
           = (Ok (PyBool true), set_last_result self (pypdf2_error_map (Exc OSError "bad page"))))
  ∧ run_extraction (repo_impl lib webhook_extractor) example_env 3 "j1" "PyPDF2" "/data/doc.pdf"
      fresh_world
    = (Exn (Exc RuntimeError "No meaningful content extracted by PyPDF2"),
       set_trace (trace fresh_world ++ read_then_fetch "/data/doc.pdf")%list fresh_world)
  ∧ is_infrastructure_error (Exc RuntimeError "No meaningful content extracted by PyPDF2") = false.
Proof.
  intros lib.
  apply (pypdf2_library_failure_masked lib webhook_extractor example_env 3 "j1" "/data/doc.pdf"
           fresh_world (Exc OSError "bad page")).
  right. by exists [Some "hello"], [].
Defined.

Lemma pymupdf_loop_raise texts e rest page_num page_contents :
  pymupdf_loop ((Ok <$> texts) ++ Raise e :: rest)%list page_num page_contents = Raise e.
Proof.
  revert page_num page_contents. induction texts as [|t texts IH]; intros; [done|].
  cbn. apply IH.
Qed.

(** X16.  PyMuPDF has no [try]: a failure of the library, at opening the
    file or at any page, leaves [read] as the exception it is, with
    [_last_result] untouched, and reaches the executor's handler after
    the one [read] call.  The handler therefore classifies the library's
    own error, where the same failure inside PyPDF2 is always retried. *)
Theorem pymupdf_failure_propagates lib remote env fuel j path w e :
  (fitz_open lib path = Raise e
   ∨ ∃ texts rest, fitz_open lib path = Ok ((Ok <$> texts) ++ Raise e :: rest)%list) →
  (∀ self, PyMuPDF_read lib self path = (Raise e, self))
  ∧ run_extraction (repo_impl lib remote) env fuel j "PyMuPDF" path w
    = (Exn e, set_trace (trace w ++ [EvRead path])%list w).
Proof.
  intros H.
  assert (∀ self, PyMuPDF_read lib self path = (Raise e, self)) as Hread.
  { intros self. unfold PyMuPDF_read.
    destruct H as [->|(texts & rest & ->)]; [done|]. cbn. by rewrite pymupdf_loop_raise. }
  split; [done|].
  unfold run_extraction.
  assert (get_reader (clients env) "PyMuPDF" = Ok (construct PyMuPDFExtractor)) as -> by done.
  rewrite bind_lift_Ok, bind_run. unfold extract.
  assert (read (repo_impl lib remote) (construct PyMuPDFExtractor) path
          = (Raise e, construct PyMuPDFExtractor)) as ->.
  { cbn [read repo_impl construct ext_class dispatch PyMuPDF]. apply Hread. }
  unfold call. unfold_monad. cbn. done.
Qed.

(** A file PyMuPDF cannot open. *)
Lemma pymupdf_failure_propagates_witness :
  let lib := {| PdfReader := λ _, Ok []; fitz_open := λ _, Raise (Exc FileNotFoundError "no such file");
                markitdown_convert := λ _, Ok None |} in
  (∀ self, PyMuPDF_read lib self "/data/doc.pdf"
           = (Raise (Exc FileNotFoundError "no such file"), self))
  ∧ run_extraction (repo_impl lib webhook_extractor) example_env 3 "j1" "PyMuPDF" "/data/doc.pdf"
      fresh_world
    = (Exn (Exc FileNotFoundError "no such file"),
       set_trace (trace fresh_world ++ [EvRead "/data/doc.pdf"])%list fresh_world).
Proof.
  intros lib.
  apply (pymupdf_failure_propagates lib webhook_extractor example_env 3 "j1" "/data/doc.pdf"
           fresh_world (Exc FileNotFoundError "no such file")).
  by left.
Defined.

Lemma selected_text_markitdown text m :
  selected_text {| page_content := [("MARKDOWN", text); ("TEXT", text); ("COMBINED", text)];
                   page_metadata := m |} = text.
Proof.
  unfold selected_text, text_of. cbn.
  repeat (destruct (decide (_ = _)); try done). cbn.
  destruct (String.eqb_spec text "") as [->|]; done.
Qed.

(** X17.  MarkItDown always returns a map of exactly one page, whatever
    the document, and never raises: a failure of the conversion gives the
    page with empty text.  The validator accepts the map exactly when the
    conversion produced text with a character that is not white space. *)
Theorem markitdown_one_page lib self path :
  let pm := markitdown_page_contents lib path in
  MarkItDown_read lib self path = (Ok pm, set_last_result self pm)
  ∧ py_len pm = Ok 1
  ∧ _has_meaningful_content pm
    = Ok (match markitdown_convert lib path with
          | Ok (Some text) => negb (blank text)
          | _ => false
          end).
Proof.
  intros pm. split; [done|]. subst pm. unfold markitdown_page_contents.
  destruct (markitdown_convert lib path) as [[text|]|e]; (split; [done|]); [|done..].
  change (PyDict [(KInt 1, _)])
    with (encode [(1, {| page_content := [("MARKDOWN", text); ("TEXT", text); ("COMBINED", text)];
                         page_metadata := Some [ (KStr "extractor", PyStr "MarkItDown");
                                                 (KStr "format", PyStr "markdown");
                                                 (KStr "total_pages", PyInt 1) ] |})]).
  rewrite has_meaningful_content_encode. cbn [existsb snd].
  by rewrite selected_text_markitdown, orb_false_r.
Qed.

(** ** Page maps with consecutive keys *)

Lemma numbered_keys {A} n (l : list A) :
  (numbered n l).*1 = (λ i : nat, n + Z.of_nat i) <$> seq 0 (length l).
Proof.
  revert n. induction l as [|a l IH]; intros n; [done|].
  cbn [numbered fmap list_fmap length seq fst]. f_equal; [lia|].
  rewrite IH, <- seq_shift, <- list_fmap_compose. apply list_fmap_ext.
  intros _ i _. simpl. lia.
Qed.

Lemma existsb_numbered {A} (g : A → bool) n (l : list A) :
  existsb (λ np : Z * A, g np.2) (numbered n l) = existsb g l.
Proof. revert n. induction l as [|a l IH]; intros n; [done|]. simpl. by rewrite IH. Qed.

Lemma numbered_bound {A} n (l : list A) k a : (k, a) ∈ numbered n l → n ≤ k.
Proof.
  revert n. induction l as [|b l IH]; intros n; simpl.
  - by intros ?%elem_of_nil.
  - intros [[= -> _]|Hin]%elem_of_cons; [lia|]. apply IH in Hin. lia.
Qed.

(** Storing numbered pages one after the other, under keys that are all
    new, appends them. *)
Lemma setitem_numbered {A} (page_of : Z → A → PyVal) (l : list A) n acc :
  (∀ k v, (k, v) ∈ acc → ∃ z, k = KInt z ∧ z < n) →
  foldl (λ d na, py_setitem d (KInt na.1) (page_of na.1 na.2)) acc (numbered n l)
  = (acc ++ ((λ na, (KInt na.1, page_of na.1 na.2)) <$> numbered n l))%list.
Proof.
  revert n acc. induction l as [|a l IH]; intros n acc Hacc; simpl.
  - by rewrite app_nil_r.
  - rewrite py_setitem_fresh.
    + rewrite IH.
      * by rewrite <- app_assoc.
      * intros k v [Hin|Hin%list_elem_of_singleton]%elem_of_app.
        -- destruct (Hacc _ _ Hin) as (z & -> & Hz). exists z. split; [done|lia].
        -- injection Hin as -> _. exists n. split; [done|lia].
    + intros k v Hin ->. destruct (Hacc _ _ Hin) as (z & [= <-] & Hz). lia.
Qed.

Lemma encode_fmap {A} (norm : Z * A → NormalizedPage) (l : list (Z * A)) :
  encode ((λ na, (na.1, norm na)) <$> l)
  = PyDict ((λ na, (KInt na.1, encode_page (norm na))) <$> l).
Proof. unfold encode. f_equal. induction l as [|a l IH]; [done|]. cbn. by rewrite IH. Qed.

Lemma existsb_pointwise {A} (g h : A → bool) (l : list A) :
  (∀ a, g a = h a) → existsb g l = existsb h l.
Proof. intros H. induction l as [|a l IH]; [done|]. cbn. by rewrite H, IH. Qed.

Lemma existsb_fmap {A B} (g : B → bool) (h : A → B) (l : list A) :
  existsb g (h <$> l) = existsb (g ∘ h) l.
Proof. induction l as [|a l IH]; [done|]. cbn. by rewrite IH. Qed.

(** The validator on a map of numbered pages, each with one text the
    validator selects. *)
Lemma has_meaningful_content_numbered {A} (norm : Z * A → NormalizedPage) (text : A → string)
    (entry : Z * A → PyKey * PyVal) n (l : list A) :
  (∀ na, entry na = (KInt na.1, encode_page (norm na))) →
  (∀ na, selected_text (norm na) = text na.2) →
  _has_meaningful_content (PyDict (entry <$> numbered n l))
  = Ok (existsb (λ a, negb (blank (text a))) l).
Proof.
  intros Hentry Hsel.
  rewrite (list_fmap_ext entry (λ na, (KInt na.1, encode_page (norm na)))) by done.
  rewrite <- encode_fmap, has_meaningful_content_encode, existsb_fmap. f_equal.
  rewrite <- (existsb_numbered _ n l). apply existsb_pointwise. intros na. cbn. by rewrite Hsel.
Qed.

(** ** pdfplumber *)

Lemma pdfplumber_loop_foldl tts n acc :
  pdfplumber_loop (plumber_page <$> tts) n acc
  = Ok (foldl (λ d na, py_setitem d (KInt na.1)
                         (PyDict [(KStr "content", pdfplumber_content na.2.1 na.2.2)]))
              acc (numbered n tts)).
Proof.
  revert n acc. induction tts as [|tt tts IH]; intros n acc; [done|].
  cbn. apply IH.
Qed.

Lemma selected_text_plumber text table m :
  selected_text {| page_content := [("COMBINED", text); ("TABLE", table)]; page_metadata := m |}
  = text.
Proof.
  unfold selected_text, text_of. cbn.
  repeat (destruct (decide (_ = _)); try done). cbn.
  destruct (String.eqb_spec text "") as [->|]; done.
Qed.

(** X18.  When pdfplumber opens the file and reads every page, [read]
    returns the page map itself, also kept in [_last_result]: one entry
    per page, keyed from 1 in page order, with a [COMBINED] and a [TABLE]
    value and no metadata.  The validator looks at the page text only: it
    accepts the map exactly when some page has text with a character that
    is not white space, whatever the tables found.  The executor uses the
    returned map as it is: it makes the one [read] call, no status check
    and no [get_result] call. *)
Theorem pdfplumber_text_decides pdfplumber_open self path
    (tts : list (option string * list (list (list (option string))))) :
  pdfplumber_open path = Ok (plumber_page <$> tts) →
  let d := plumber_entry <$> numbered 1 tts in
  PDFPlumber_read pdfplumber_open self path = (Ok (PyDict d), set_last_result self (PyDict d))
  ∧ d.*1 = (λ i : nat, KInt (1 + Z.of_nat i)) <$> seq 0 (length tts)
  ∧ _has_meaningful_content (PyDict d)
    = Ok (existsb (λ tt, negb (blank (default "" tt.1))) tts)
  ∧ (∀ fuel w, extract (PDFPlumber pdfplumber_open) fuel self path w
               = (Ret (PyDict d), set_trace (trace w ++ [EvRead path])%list w)).
Proof.
  intros Hopen d.
  assert (PDFPlumber_read pdfplumber_open self path
          = (Ok (PyDict d), set_last_result self (PyDict d))) as Hread.
  { unfold PDFPlumber_read. rewrite Hopen. cbn [mbind Outcome_bind].
    rewrite pdfplumber_loop_foldl.
    rewrite (setitem_numbered (λ _ tt, PyDict [(KStr "content", pdfplumber_content tt.1 tt.2)]))
      by (by intros ? ? ?%elem_of_nil).
    done. }
  split; [done|]. split; [|split]; [| |intros fuel w; unfold extract;
    cbn [read PDFPlumber]; rewrite Hread;
    by rewrite (bind_Ret_eq _ _ _ _ _ (call_Ok _ _ _ _))].
  - subst d. rewrite <- list_fmap_compose.
    rewrite (list_fmap_ext (fst ∘ plumber_entry) (KInt ∘ fst)) by done.
    by rewrite list_fmap_compose, numbered_keys, <- list_fmap_compose.
  - subst d.
    apply (has_meaningful_content_numbered
             (λ nt, {| page_content :=
                         [ ("COMBINED", default "" nt.2.1);
                           ("TABLE", match format_tables nt.2.2 with
                                     | [] => ""
                                     | _ => join (newline ++ newline) (format_tables nt.2.2)
                                     end) ];
                       page_metadata := None |})
             (λ tt, default "" tt.1)); [done|].
    intros na. apply selected_text_plumber.
Qed.

(** The PDF of the example: the page with only a table does not count. *)
Lemma pdfplumber_text_decides_witness :
  let tts := [ (Some "Quarterly report", []);
               (None, [[[Some "a"; None]; []; [Some "b"; Some "c"]]; []]) ] in
  let d := plumber_entry <$> numbered 1 tts in
  PDFPlumber_read example_plumber (construct PDFPlumberExtractor) "/data/doc.pdf"
  = (Ok (PyDict d), set_last_result (construct PDFPlumberExtractor) (PyDict d))
  ∧ d.*1 = (λ i : nat, KInt (1 + Z.of_nat i)) <$> seq 0 2
  ∧ _has_meaningful_content (PyDict d) = Ok true
  ∧ (∀ fuel w, extract (PDFPlumber example_plumber) fuel (construct PDFPlumberExtractor)
                 "/data/doc.pdf" w
               = (Ret (PyDict d), set_trace (trace w ++ [EvRead "/data/doc.pdf"])%list w)).
Proof.
  intros tts.
  apply (pdfplumber_text_decides example_plumber (construct PDFPlumberExtractor)
           "/data/doc.pdf" tts).
  reflexivity.
Defined.

(** ** Tesseract *)

Lemma lstrip_snoc l c :
  is_space c = false → lstrip_chars (l ++ [c]) = (lstrip_chars l ++ [c])%list.
Proof.
  intros Hc. induction l as [|a l IH]; simpl; [by rewrite Hc|].
  by destruct (is_space a).
Qed.

Lemma blank_strip s : blank (strip s) = blank s.
Proof.
  destruct (blank s) eqn:B.
  { apply strip_empty_iff in B. by rewrite B. }
  unfold strip, rstrip_chars, blank in *.
  rewrite list_ascii_of_string_of_list_ascii.
  destruct (lstrip_chars (list_ascii_of_string s)) as [|c l] eqn:E.
  { apply lstrip_nil_iff in E. congruence. }
  apply lstrip_head in E. cbn [rev]. rewrite (lstrip_snoc _ _ E), rev_app_distr.
  simpl. by rewrite E.
Qed.

Lemma tesseract_loop_foldl ocr images texts n acc :
  Forall2 (λ image text, image_to_string ocr image = Ok text) images texts →
  tesseract_loop ocr images n acc
  = Ok (foldl (λ d nt, py_setitem d (KInt nt.1) (tesseract_page nt.1 nt.2)) acc (numbered n texts)).
Proof.
  intros H. revert n acc. induction H as [|image text images texts Himg _ IH]; intros n acc;
    [done|].
  cbn. rewrite Himg. cbn. apply IH.
Qed.

Lemma selected_text_only_TEXT text m :
  selected_text {| page_content := [("TEXT", text)]; page_metadata := m |} = text.
Proof.
  unfold selected_text, text_of. cbn.
  repeat (destruct (decide (_ = _)); try done). cbn.
  destruct (String.eqb_spec text "") as [->|]; done.
Qed.

(** X19.  Tesseract treats a path as a PDF when it ends in ".pdf" in any
    letter case, and as a single image otherwise.  When the images are
    obtained and every one is read, [read] returns the page map itself:
    one entry per image, keyed from 1, whose text is the OCR text without
    the white space around it.  The validator accepts the map exactly
    when some image gave a character that is not white space. *)
Theorem tesseract_pages_numbered ocr self path (images texts : list string) :
  (endswith (lower path) ".pdf" = true ∧ page_images ocr path = Ok images
   ∨ endswith (lower path) ".pdf" = false
     ∧ ∃ image, Image_open ocr path = Ok image ∧ images = [image]) →
  Forall2 (λ image text, image_to_string ocr image = Ok text) images texts →
  let d := tesseract_entry <$> numbered 1 texts in
  Tesseract_read ocr self path = (Ok (PyDict d), set_last_result self (PyDict d))
  ∧ d.*1 = (λ i : nat, KInt (1 + Z.of_nat i)) <$> seq 0 (length images)
  ∧ _has_meaningful_content (PyDict d) = Ok (existsb (λ text, negb (blank text)) texts).
Proof.
  intros Himages Htexts d. split; [|split].
  - unfold Tesseract_read.
    assert ((if endswith (lower path) ".pdf" then page_images ocr path
             else image ← Image_open ocr path; Ok [image]) = Ok images) as ->.
    { destruct Himages as [[-> ->]|(-> & image & -> & ->)]; done. }
    cbn [mbind Outcome_bind]. rewrite (tesseract_loop_foldl ocr images texts 1 [] Htexts).
    rewrite (setitem_numbered tesseract_page) by (by intros ? ? ?%elem_of_nil).
    done.
  - subst d. rewrite <- list_fmap_compose.
    rewrite (list_fmap_ext (fst ∘ tesseract_entry) (KInt ∘ fst)) by done.
    rewrite list_fmap_compose, numbered_keys, <- list_fmap_compose.
    by rewrite (Forall2_length _ _ _ Htexts).
  - subst d.
    rewrite (has_meaningful_content_numbered
               (λ nt, {| page_content := [("TEXT", strip nt.2)];
                         page_metadata := Some [ (KStr "extractor", PyStr "Tesseract");
                                                 (KStr "page_number", PyInt nt.1) ] |})
               strip); [|done|intros na; apply selected_text_only_TEXT].
    f_equal. apply existsb_pointwise. intros text. by rewrite blank_strip.
Qed.

(** The scan of the example, named in capitals. *)
Lemma tesseract_pages_numbered_witness :
  let d := tesseract_entry <$> numbered 1 ["  scanned text "; "  "] in
  Tesseract_read example_ocr (construct TesseractExtractor) "/data/SCAN.PDF"
  = (Ok (PyDict d), set_last_result (construct TesseractExtractor) (PyDict d))
  ∧ d.*1 = (λ i : nat, KInt (1 + Z.of_nat i)) <$> seq 0 2
  ∧ _has_meaningful_content (PyDict d) = Ok true.
Proof.
  apply (tesseract_pages_numbered example_ocr (construct TesseractExtractor) "/data/SCAN.PDF"
           ["png-1"; "png-2"] ["  scanned text "; "  "]).
  - left. split; [by vm_compute|reflexivity].
  - repeat constructor.
Defined.

(** ** The OpenAI vision extractor *)

Lemma openai_loop_foldl svc model pngs n acc :
  openai_loop svc model (Ok <$> pngs) n acc
  = foldl (λ d nt, py_setitem d (KInt nt.1) (openai_page model nt.1 nt.2)) acc
          (numbered (n + 1) (_extract_text_from_image svc model <$> pngs)).
Proof.
  revert n acc. induction pngs as [|png pngs IH]; intros n acc; [done|].
  cbn. apply IH.
Qed.

Lemma openai_loop_render_failure svc model pngs e rest n acc :
  openai_loop svc model ((Ok <$> pngs) ++ Raise e :: rest)%list n acc
  = py_setitem
      (foldl (λ d nt, py_setitem d (KInt nt.1) (openai_page model nt.1 nt.2)) acc
             (numbered (n + 1) (_extract_text_from_image svc model <$> pngs)))
      (KInt 1) (openai_error_page model e).
Proof.
  revert n acc. induction pngs as [|png pngs IH]; intros n acc; [done|].
  cbn. apply IH.
Qed.

Lemma selected_text_openai model n text :
  selected_text {| page_content := [("TEXT", text)];
                   page_metadata := Some [ (KStr "extractor", PyStr ("OpenAI " ++ model));
                                           (KStr "page_number", PyInt n);
                                           (KStr "model", PyStr model) ] |} = text.
Proof. apply selected_text_only_TEXT. Qed.

Lemma error_text_not_blank msg : blank ("Error extracting text: " ++ msg) = false.
Proof. done. Qed.

(** X20.  The OpenAI extractor turns a failed API call into page text:
    when the PDF is rendered and the request for some page fails, that
    page's text is "Error extracting text: " followed by the error
    message, [read] returns normally with one entry per page, keyed from
    1, and the validator accepts the map as meaningful content. *)
Theorem openai_api_error_counts_as_content svc model self path (pngs : list string) :
  endswith (lower path) ".pdf" = true →
  pdf_pixmaps svc path = Ok (Ok <$> pngs) →
  let d := openai_entry model <$> numbered 1 (_extract_text_from_image svc model <$> pngs) in
  OpenAIVision_read svc model self path = (Ok (PyDict d), set_last_result self (PyDict d))
  ∧ d.*1 = (λ i : nat, KInt (1 + Z.of_nat i)) <$> seq 0 (length pngs)
  ∧ (∀ png e, png ∈ pngs → chat_completion svc model png = Raise e →
       _extract_text_from_image svc model png = "Error extracting text: " ++ exc_msg e
       ∧ _has_meaningful_content (PyDict d) = Ok true).
Proof.
  intros Hpdf Hpix d. split; [|split].
  - unfold OpenAIVision_read, _process_pdf. rewrite Hpdf, Hpix, openai_loop_foldl.
    rewrite (setitem_numbered (openai_page model)) by (by intros ? ? ?%elem_of_nil).
    done.
  - subst d. rewrite <- list_fmap_compose.
    rewrite (list_fmap_ext (fst ∘ openai_entry model) (KInt ∘ fst)) by done.
    by rewrite list_fmap_compose, numbered_keys, <- list_fmap_compose, length_fmap.
  - intros png e Hin Hfail.
    assert (_extract_text_from_image svc model png = "Error extracting text: " ++ exc_msg e) as Ht.
    { unfold _extract_text_from_image. by rewrite Hfail. }
    split; [done|]. subst d.
    rewrite (has_meaningful_content_numbered
               (λ nt, {| page_content := [("TEXT", nt.2)];
                         page_metadata := Some [ (KStr "extractor", PyStr ("OpenAI " ++ model));
                                                 (KStr "page_number", PyInt nt.1);
                                                 (KStr "model", PyStr model) ] |})
               id); [|done|intros na; apply selected_text_only_TEXT].
    f_equal. apply existsb_exists. exists (_extract_text_from_image svc model png). split.
    + apply list_elem_of_In, list_elem_of_fmap. by exists png.
    + by rewrite Ht.
Qed.

(** The PDF of the example: the second page's request times out. *)
Lemma openai_api_error_counts_as_content_witness :
  let d := openai_entry "gpt-4o" <$> numbered 1 ["Page one"; "Error extracting text: timed out"] in
  OpenAIVision_read example_vision "gpt-4o" (construct (OpenAIVisionExtractor "gpt-4o")) "/data/doc.pdf"
  = (Ok (PyDict d), set_last_result (construct (OpenAIVisionExtractor "gpt-4o")) (PyDict d))
  ∧ _has_meaningful_content (PyDict d) = Ok true.
Proof.
  destruct (openai_api_error_counts_as_content example_vision "gpt-4o"
              (construct (OpenAIVisionExtractor "gpt-4o")) "/data/doc.pdf" ["png-1"; "png-2"])
    as (Hread & _ & Herr); [by vm_compute|reflexivity|].
  split; [exact Hread|].
  apply (Herr "png-2" (Exc TimeoutError "timed out")); [|reflexivity].
  apply elem_of_cons. right. apply elem_of_cons. by left.
Defined.

(** X21.  When a page of the PDF cannot be rendered, the OpenAI extractor
    stores its error page under key 1 of the map built so far: the text
    already extracted for page 1 is replaced by an empty text, the pages
    between stay, and the pages after the failing one are never
    processed. *)
Theorem openai_render_failure_overwrites_first_page svc model self path
    (pngs : list string) e rest :
  endswith (lower path) ".pdf" = true →
  pdf_pixmaps svc path = Ok ((Ok <$> pngs) ++ Raise e :: rest)%list →
  let d := openai_entry model <$> numbered 1 (_extract_text_from_image svc model <$> pngs) in
  let result := ((KInt 1, openai_error_page model e) :: drop 1 d) in
  OpenAIVision_read svc model self path
  = (Ok (PyDict result), set_last_result self (PyDict result))
  ∧ length result = Nat.max 1 (length pngs)
  ∧ _has_meaningful_content (PyDict result)
    = Ok (existsb (λ png, negb (blank (_extract_text_from_image svc model png))) (drop 1 pngs)).
Proof.
  intros Hpdf Hpix d result.
  assert (py_setitem d (KInt 1) (openai_error_page model e) = result) as Hset.
  { subst result d. destruct pngs as [|png pngs]; [done|].
    cbn [fmap list_fmap numbered openai_entry fst py_setitem drop].
    by destruct (decide (KInt 1 = KInt 1)). }
  split; [|split].
  - unfold OpenAIVision_read, _process_pdf. rewrite Hpdf, Hpix, openai_loop_render_failure.
    rewrite (setitem_numbered (openai_page model)) by (by intros ? ? ?%elem_of_nil).
    change (py_setitem _ (KInt 1) _) with (py_setitem d (KInt 1) (openai_error_page model e)).
    by rewrite Hset.
  - subst result d. cbn [length]. rewrite length_drop, !length_fmap.
    assert (∀ {A} n (l : list A), length (numbered n l) = length l) as Hlen.
    { intros A n l. revert n. induction l; intros; simpl; [done|]. by rewrite IHl. }
    rewrite Hlen, length_fmap. lia.
  - subst result d. destruct pngs as [|png pngs]; [done|].
    change (_has_meaningful_content
              (PyDict ((KInt 1, openai_error_page model e)
                       :: (openai_entry model
                             <$> numbered (1 + 1) (_extract_text_from_image svc model <$> pngs))))
            = Ok (existsb (λ png, negb (blank (_extract_text_from_image svc model png))) pngs)).
    set (texts := _extract_text_from_image svc model <$> pngs).
    set (norm := λ nt : Z * string,
           {| page_content := [("TEXT", nt.2)];
              page_metadata := Some [ (KStr "extractor", PyStr ("OpenAI " ++ model));
                                      (KStr "page_number", PyInt nt.1);
                                      (KStr "model", PyStr model) ] |}).
    set (failed := {| page_content := [("TEXT", "")];
                      page_metadata := Some [ (KStr "extractor", PyStr ("OpenAI " ++ model));
                                              (KStr "error", PyStr (exc_msg e)) ] |}).
    pose proof (encode_fmap norm (numbered (1 + 1) texts)) as He.
    unfold encode in He. injection He as He.
    assert (PyDict ((KInt 1, openai_error_page model e)
                    :: (openai_entry model <$> numbered (1 + 1) texts))
            = encode ((1, failed) :: ((λ nt, (nt.1, norm nt)) <$> numbered (1 + 1) texts))) as ->.
    { unfold encode. cbn [map fst snd]. by rewrite He. }
    rewrite has_meaningful_content_encode. f_equal. cbn [existsb snd].
    subst failed. rewrite selected_text_only_TEXT.
    cbn [blank list_ascii_of_string forallb negb orb]. rewrite existsb_fmap.
    rewrite (existsb_pointwise _ (λ nt : Z * string, negb (blank nt.2)))
      by (intros nt; subst norm; cbn; by rewrite selected_text_only_TEXT).
    rewrite (existsb_numbered (λ text, negb (blank text))).
    subst texts. by rewrite existsb_fmap.
Qed.

(** The PDF of the example: two pages rendered, the third not. *)
Lemma openai_render_failure_overwrites_first_page_witness :
  let result := [ (KInt 1, openai_error_page "gpt-4o" (Exc RuntimeError "bad page"));
                  (KInt 2, openai_page "gpt-4o" 2 "Page text") ] in
  OpenAIVision_read example_vision_broken "gpt-4o" (construct (OpenAIVisionExtractor "gpt-4o"))
    "/data/doc.pdf"
  = (Ok (PyDict result), set_last_result (construct (OpenAIVisionExtractor "gpt-4o")) (PyDict result))
  ∧ length result = 2%nat
  ∧ _has_meaningful_content (PyDict result) = Ok true.
Proof.
  apply (openai_render_failure_overwrites_first_page example_vision_broken "gpt-4o"
           (construct (OpenAIVisionExtractor "gpt-4o")) "/data/doc.pdf" ["png-1"; "png-1"]
           (Exc RuntimeError "bad page") []).
  - by vm_compute.
  - reflexivity.
Defined.

(** ** Textract's blocks *)

Lemma blocks_step_line page_to_lines b :
  blocks_step page_to_lines b
  = match line_of_block b with
    | Some (q, text) => setdefault_append page_to_lines q text
    | None => page_to_lines
    end.
Proof.
  unfold blocks_step, line_of_block. destruct (bool_decide _); [|done].
  rewrite truthy_strip. by destruct (blank _).
Qed.

Lemma line_of_block_not_blank b q text : line_of_block b = Some (q, text) → blank text = false.
Proof.
  unfold line_of_block. destruct (bool_decide _); [|done].
  destruct (blank (default "" (Text b))) eqn:B; [done|]. intros [= _ <-]. by rewrite blank_strip.
Qed.

Lemma lines_at_setdefault_append p acc q text :
  lines_at p (setdefault_append acc q text)
  = if decide (p = q) then Some (default [] (lines_at p acc) ++ [text])%list
    else lines_at p acc.
Proof.
  induction acc as [|[r ls] acc IH]; cbn.
  - by destruct (decide (p = q)).
  - destruct (decide (q = r)) as [->|Hqr]; cbn.
    + by destruct (decide (p = r)).
    + destruct (decide (p = r)) as [->|Hpr]; [|done].
      by destruct (decide (r = q)) as [->|].
Qed.

Lemma keys_setdefault_append acc q text :
  NoDup acc.*1 → NoDup (setdefault_append acc q text).*1
  ∧ ∀ k, k ∈ (setdefault_append acc q text).*1 ↔ k = q ∨ k ∈ acc.*1.
Proof.
  induction acc as [|[r ls] acc IH]; cbn.
  - intros _. split; [apply NoDup_singleton|]. intros k. rewrite list_elem_of_singleton.
    split; [by left|]. intros [->|H%elem_of_nil]; done.
  - intros [Hr Hnd]%NoDup_cons. destruct (decide (q = r)) as [->|Hqr]; cbn.
    + split; [by apply NoDup_cons|]. intros k. rewrite elem_of_cons. tauto.
    + destruct (IH Hnd) as [Hnd' Hk]. split.
      * apply NoDup_cons. split; [|done]. rewrite Hk. intros [->|]; done.
      * intros k. rewrite !elem_of_cons, Hk. tauto.
Qed.

Lemma fold_blocks_NoDup blocks acc :
  NoDup acc.*1 → NoDup (fold_left blocks_step blocks acc).*1.
Proof.
  revert acc. induction blocks as [|b blocks IH]; intros acc Hnd; [done|].
  cbn. apply IH. rewrite blocks_step_line.
  destruct (line_of_block b) as [[q text]|]; [|done]. by apply keys_setdefault_append.
Qed.

Lemma lines_of_page_cons p b blocks :
  lines_of_page p (b :: blocks)
  = match line_of_block b with
    | Some (q, text) =>
        if decide (q = p) then text :: lines_of_page p blocks else lines_of_page p blocks
    | None => lines_of_page p blocks
    end.
Proof.
  unfold lines_of_page. cbn. destruct (line_of_block b) as [[q text]|]; [|done].
  by destruct (decide (q = p)).
Qed.

Lemma fold_blocks_lines_at p blocks acc :
  lines_at p (fold_left blocks_step blocks acc)
  = match lines_of_page p blocks with
    | [] => lines_at p acc
    | ls => Some (default [] (lines_at p acc) ++ ls)%list
    end.
Proof.
  revert acc. induction blocks as [|b blocks IH]; intros acc; [done|].
  cbn [fold_left]. rewrite IH, blocks_step_line, lines_of_page_cons.
  destruct (line_of_block b) as [[q text]|]; [|done].
  rewrite lines_at_setdefault_append.
  destruct (decide (q = p)) as [->|Hqp].
  - rewrite decide_True by done. cbn. destruct (lines_of_page p blocks); [done|].
    by rewrite <- app_assoc.
  - by rewrite decide_False by done.
Qed.

Lemma assoc_textract_pages p acc :
  assoc (KInt p) (map (λ pl : Z * list string, (KInt pl.1, textract_page pl.2)) acc)
  = textract_page <$> lines_at p acc.
Proof.
  induction acc as [|[q ls] acc IH]; [done|]. cbn.
  destruct (decide (KInt p = KInt q)) as [[= ->]|Hne].
  - by rewrite decide_True.
  - rewrite decide_False by congruence. apply IH.
Qed.

Lemma textract_keys (acc : list (Z * list string)) :
  (map (λ pl : Z * list string, (KInt pl.1, textract_page pl.2)) acc).*1 = KInt <$> acc.*1.
Proof. induction acc as [|pl acc IH]; [done|]. cbn. by rewrite IH. Qed.

(** X22.  [_blocks_to_pages] groups the lines by page: the map has one
    entry for each page number that has a [LINE] block with text, each
    page number once, and the text of a page is its lines, stripped, in
    the order of the blocks, joined by line feeds.  A block without a
    page number belongs to page 1; blocks of other types, and lines that
    are empty or white space, are left out, so a page with none has no
    entry. *)
Theorem blocks_grouped_by_page (blocks : list Block) (p : Z) :
  ∃ d, _blocks_to_pages blocks = PyDict d
    ∧ NoDup d.*1
    ∧ assoc (KInt p) d = match lines_of_page p blocks with
                         | [] => None
                         | ls => Some (PyDict [(KStr "content",
                                                PyDict [(KStr "TEXT", PyStr (join newline ls))])])
                         end.
Proof.
  eexists. split; [reflexivity|]. split.
  - rewrite textract_keys.
    assert (Inj eq eq KInt) as Hinj by (by intros ? ? [= ->]).
    apply (NoDup_fmap_2 KInt), fold_blocks_NoDup. constructor.
  - rewrite assoc_textract_pages, fold_blocks_lines_at. cbn.
    by destruct (lines_of_page p blocks).
Qed.

Lemma blank_app_false a b : blank a = false → blank (a ++ b) = false.
Proof.
  unfold blank. induction a as [|c a IH]; [done|].
  cbn [list_ascii_of_string forallb String.append].
  change (String c a +:+ b) with (String c (a +:+ b)). cbn [list_ascii_of_string forallb].
  destruct (is_space c); [apply IH|done].
Qed.

Lemma join_not_blank t ts : blank t = false → blank (join newline (t :: ts)) = false.
Proof.
  intros H. unfold join. cbn [String.concat]. destruct ts; [done|]. by apply blank_app_false.
Qed.

(** Every page collected so far has a first line that is not blank. *)
Lemma fold_blocks_first_line blocks acc :
  Forall (λ pl : Z * list string, ∃ t ts, pl.2 = t :: ts ∧ blank t = false) acc →
  Forall (λ pl : Z * list string, ∃ t ts, pl.2 = t :: ts ∧ blank t = false)
         (fold_left blocks_step blocks acc).
Proof.
  revert acc. induction blocks as [|b blocks IH]; intros acc Hacc; [done|].
  cbn. apply IH. rewrite blocks_step_line.
  destruct (line_of_block b) as [[q text]|] eqn:Hb; [|done].
  apply line_of_block_not_blank in Hb. clear IH.
  induction Hacc as [|[r ls] acc (t & ts & Hls & Ht) Hacc IHacc]; cbn.
  - constructor; [|done]. by exists text, [].
  - destruct (decide (q = r)) as [->|]; constructor; try done.
    + cbn in *. subst ls. by exists t, (ts ++ [text])%list.
    + by exists t, ts.
Qed.

Lemma fold_blocks_nil blocks acc :
  match fold_left blocks_step blocks acc with [] => true | _ => false end
  = match acc with [] => true | _ => false end
    && negb (existsb (λ b, match line_of_block b with Some _ => true | None => false end) blocks).
Proof.
  revert acc. induction blocks as [|b blocks IH]; intros acc; cbn.
  - by rewrite andb_true_r.
  - rewrite IH, blocks_step_line. destruct (line_of_block b) as [[q text]|]; [|done].
    cbn. rewrite andb_false_r.
    destruct acc as [|[r ls] acc]; cbn; [done|]. by destruct (decide (q = r)).
Qed.

(** X23.  The validator accepts Textract's page map exactly when some
    [LINE] block has a text with a character that is not white space: a
    response without such a block gives the empty map, which the executor
    rejects as no meaningful content. *)
Theorem blocks_meaningful_iff_line (blocks : list Block) :
  _has_meaningful_content (_blocks_to_pages blocks)
  = Ok (existsb (λ b, match line_of_block b with Some _ => true | None => false end) blocks)
  ∧ (Forall (λ b, line_of_block b = None) blocks → _blocks_to_pages blocks = PyDict []).
Proof.
  unfold _blocks_to_pages.
  pose proof (fold_blocks_first_line blocks [] ltac:(constructor)) as Hgood.
  pose proof (fold_blocks_nil blocks []) as Hnil. cbn [andb] in Hnil.
  set (acc := fold_left blocks_step blocks []) in *. split.
  - assert (PyDict (map (λ pl : Z * list string, (KInt pl.1, textract_page pl.2)) acc)
            = encode ((λ pl, (pl.1, {| page_content := [("TEXT", join newline pl.2)];
                                       page_metadata := None |})) <$> acc)) as ->.
    { rewrite (encode_fmap (λ pl : Z * list string,
                              {| page_content := [("TEXT", join newline pl.2)];
                                 page_metadata := None |})).
      by f_equal. }
    rewrite has_meaningful_content_encode, existsb_fmap. f_equal.
    rewrite (existsb_pointwise _ (λ pl : Z * list string, negb (blank (join newline pl.2))))
      by (intros pl; cbn; by rewrite selected_text_only_TEXT).
    destruct (existsb _ blocks); cbn in Hnil.
    + destruct acc as [|pl acc]; [done|]. cbn.
      apply Forall_cons in Hgood as [(t & ts & -> & Ht) _]. by rewrite join_not_blank.
    + by destruct acc.
  - intros Hnone.
    assert (existsb (λ b, match line_of_block b with Some _ => true | None => false end) blocks
            = false) as Hex.
    { clear Hnil Hgood acc.
      induction Hnone as [|b blocks Hb _ IH]; [done|]. cbn. rewrite Hb. exact IH. }
    rewrite Hex in Hnil. by destruct acc.
Qed.

(** ** Mathpix *)

Lemma finished_failed : finished "failed" = true.
Proof. by vm_compute. Qed.

(** X24.  Mathpix's [get_status] never raises and answers one of
    "succeeded", "failed" and "processing": "succeeded" only for the
    service's "completed", "processing" for every status it does not
    know, and "failed" also when the request itself fails.  A status
    request that cannot be made therefore ends the job at once: the
    executor raises "Extraction failed" after that one check, without
    sleeping or asking for the result, and the error is one it retries,
    whatever the underlying error was. *)
Theorem mathpix_status_error_fails_job api (fuel : nat) reader path handle w e :
  mathpix_upload api path = Ok handle →
  is_dict handle = false →
  mathpix_status api handle (length (filter is_get_status (trace w))) = Raise e →
  extract (Mathpix api) fuel reader path w
  = (Exn (Exc RuntimeError "Extraction failed for job"),
     set_trace (trace w ++ [EvRead path; EvGetStatus handle])%list w)
  ∧ is_infrastructure_error (Exc RuntimeError "Extraction failed for job") = false
  ∧ (∀ self job_id n, ∃ s,
       Mathpix_get_status api self job_id n = (Ok s, self)
       ∧ s ∈ ["succeeded"; "failed"; "processing"]
       ∧ (s = "succeeded" ↔ mathpix_status api job_id n = Ok (Some "completed"))).
Proof.
  intros Hup Hd Hst. split; [|split; [done|]].
  - unfold extract. cbn [read Mathpix]. unfold Mathpix_read. rewrite Hup.
    rewrite (bind_Ret_eq _ _ _ _ _ (call_Ok _ _ _ _)). cbn [supports_webhook Mathpix].
    rewrite Hd.
    set (w1 := set_trace (trace w ++ [EvRead path])%list w).
    assert (get_status (Mathpix api) reader handle (length (filter is_get_status (trace w1)))
            = (Ok "failed", reader)) as Hs.
    { cbn [get_status Mathpix]. unfold Mathpix_get_status.
      assert (length (filter is_get_status (trace w1)) = length (filter is_get_status (trace w)))
        as ->.
      { subst w1. destruct w; cbn. rewrite filter_app. cbn. by rewrite app_nil_r. }
      by rewrite Hst. }
    rewrite (bind_Ret_eq _ _ _ _ _ (reader_get_status_Ok _ _ _ _ _ _ Hs)).
    rewrite (bind_Ret_eq _ _ _ _ _ (poll_finished _ _ _ _ _ _ finished_failed)).
    cbn [when String.eqb Ascii.eqb Bool.eqb]. unfold_monad. cbn.
    subst w1. destruct w; cbn. by rewrite <- app_assoc.
  - intros self job_id n. unfold Mathpix_get_status.
    destruct (mathpix_status api job_id n) as [[status|]|e'] eqn:E; cbn.
    + destruct (String.eqb_spec status "completed") as [->|Hc].
      { eexists. split; [done|]. split; [set_solver|]. done. }
      destruct (String.eqb_spec status "error") as [->|He];
        (eexists; split; [done|]; split; [set_solver|]; split; [done|congruence]).
    + eexists. split; [done|]. split; [set_solver|]. done.
    + eexists. split; [done|]. split; [set_solver|]. done.
Qed.

(** A job whose first status request cannot connect. *)
Lemma mathpix_status_error_fails_job_witness :
  extract (Mathpix unreachable_mathpix) 5 (construct MathpixExtractor) "/data/doc.pdf" fresh_world
  = (Exn (Exc RuntimeError "Extraction failed for job"),
     set_trace (trace fresh_world ++ [EvRead "/data/doc.pdf"; EvGetStatus (PyStr "pdf-1")])%list
               fresh_world)
  ∧ is_infrastructure_error (Exc ConnectionError "connection refused") = true.
Proof.
  split; [|reflexivity].
  apply (mathpix_status_error_fails_job unreachable_mathpix 5 (construct MathpixExtractor)
           "/data/doc.pdf" (PyStr "pdf-1") fresh_world (Exc ConnectionError "connection refused"));
    reflexivity.
Defined.

Lemma existsb_insert_line (g : MathpixLine → bool) x sorted :
  existsb g (insert_line x sorted) = g x || existsb g sorted.
Proof.
  induction sorted as [|y sorted IH]; cbn; [done|].
  destruct (line_key x <=? line_key y); cbn; [done|].
  rewrite IH. by destruct (g x), (g y).
Qed.

Lemma existsb_sorted_lines (g : MathpixLine → bool) ls :
  existsb g (sorted_lines ls) = existsb g ls.
Proof.
  unfold sorted_lines. induction ls as [|l ls IH]; [done|].
  cbn [foldr existsb]. by rewrite existsb_insert_line, IH.
Qed.

Lemma insert_line_sorted x sorted :
  StronglySorted (λ a b, line_key a ≤ line_key b) sorted →
  StronglySorted (λ a b, line_key a ≤ line_key b) (insert_line x sorted).
Proof.
  induction 1 as [|y sorted Hs IH Hy]; cbn.
  - repeat constructor.
  - destruct (Z.leb_spec (line_key x) (line_key y)) as [Hle|Hgt].
    + constructor; [by constructor|]. constructor; [done|].
      eapply Forall_impl; [exact Hy|]. intros z Hz. cbn in *. lia.
    + constructor; [done|].
      assert (∀ s, Forall (λ b, line_key y ≤ line_key b) s →
                   Forall (λ b, line_key y ≤ line_key b) (insert_line x s)) as Hins.
      { clear -Hgt. induction s as [|z s IHs]; cbn; intros Hall.
        - constructor; [lia|done].
        - apply Forall_cons in Hall as [Hz Hall].
          destruct (line_key x <=? line_key z); repeat constructor; auto; lia. }
      by apply Hins.
Qed.

Lemma insert_line_perm x sorted : insert_line x sorted ≡ₚ x :: sorted.
Proof.
  induction sorted as [|y sorted IH]; cbn; [done|].
  destruct (line_key x <=? line_key y); [done|]. rewrite IH. apply Permutation_swap.
Qed.

Lemma page_text_lines_blank ls :
  blank (join newline (page_text_lines ls)) = negb (existsb line_has_text ls).
Proof.
  induction ls as [|l ls IH]; [done|]. cbn [page_text_lines existsb].
  unfold line_has_text at 1. rewrite truthy_strip.
  destruct (blank (default "" (text_display l))) eqn:B; cbn [negb orb]; [done|].
  apply join_not_blank. by rewrite blank_strip.
Qed.

Lemma selected_text_only_LATEX text m :
  selected_text {| page_content := [("LATEX", text)]; page_metadata := m |} = text.
Proof.
  unfold selected_text, text_of. cbn.
  repeat (destruct (decide (_ = _)); try done).
Qed.

(** X25.  Mathpix's [get_result] never raises.  When the request fails
    it returns a one-page map with empty text, and leaves [_last_result]
    as it was; that map, like the one stored when the reply has no list
    of pages, is rejected by the validator, so the job fails as "no
    meaningful content" and the request's own error is not seen.  When
    the reply lists pages under distinct numbers, the map has one entry
    per page in the order of the reply, and the validator accepts it
    exactly when some line of some page has a character that is not
    white space. *)
Theorem mathpix_result_never_raises api self job_id :
  (∃ page_contents self', Mathpix_get_result api self job_id = (Ok page_contents, self'))
  ∧ (∀ e, mathpix_lines api job_id = Raise e →
       Mathpix_get_result api self job_id = (Ok (mathpix_failed e), self)
       ∧ _has_meaningful_content (mathpix_failed e) = Ok false)
  ∧ (mathpix_lines api job_id = Ok None →
     ∃ page_contents,
       Mathpix_get_result api self job_id = (Ok page_contents, set_last_result self page_contents)
       ∧ page_contents = PyDict [(KInt 1, mathpix_unexpected job_id)]
       ∧ _has_meaningful_content page_contents = Ok false)
  ∧ (∀ pages, mathpix_lines api job_id = Ok (Some pages) →
       NoDup ((λ page_data, default 1 (page page_data)) <$> pages) →
       let page_contents := PyDict (mathpix_entry job_id <$> pages) in
       Mathpix_get_result api self job_id = (Ok page_contents, set_last_result self page_contents)
       ∧ _has_meaningful_content page_contents
         = Ok (existsb (λ page_data, existsb line_has_text (lines page_data)) pages)).
Proof.
  split; [|split; [|split]].
  - unfold Mathpix_get_result. destruct (mathpix_lines api job_id); eauto.
  - intros e He. unfold Mathpix_get_result. by rewrite He.
  - intros Hn. eexists. unfold Mathpix_get_result. rewrite Hn. by repeat split.
  - intros pages Hp Hnd page_contents.
    assert (∀ acc, (∀ k v, (k, v) ∈ acc →
                      ∀ page_data, page_data ∈ pages → k ≠ KInt (default 1 (page page_data))) →
                   mathpix_loop job_id pages acc = (acc ++ (mathpix_entry job_id <$> pages))%list)
      as Hloop.
    { clear Hp. induction pages as [|page_data pages IH]; intros acc Hacc; cbn.
      - by rewrite app_nil_r.
      - apply NoDup_cons in Hnd as [Hnotin Hnd].
        rewrite py_setitem_fresh.
        + rewrite IH; [by rewrite <- app_assoc|done|].
          intros k v [Hin|Hin%list_elem_of_singleton]%elem_of_app pd Hpd.
          * eapply Hacc; [done|]. by apply elem_of_cons; right.
          * injection Hin as -> _. intros [= E]. apply Hnotin.
            rewrite E. apply list_elem_of_fmap. by exists pd.
        + intros k v Hin. eapply Hacc; [done|]. apply elem_of_cons. by left. }
    split.
    + unfold Mathpix_get_result. rewrite Hp, Hloop; [done|]. by intros ? ? ?%elem_of_nil.
    + subst page_contents.
      assert (PyDict (mathpix_entry job_id <$> pages)
              = encode ((λ page_data,
                           (default 1 (page page_data),
                            {| page_content :=
                                 [("LATEX", join newline
                                              (page_text_lines (sorted_lines (lines page_data))))];
                               page_metadata :=
                                 Some [ (KStr "extractor", PyStr "Mathpix");
                                        (KStr "pdf_id", job_id);
                                        (KStr "page", PyInt (default 1 (page page_data)));
                                        (KStr "total_lines",
                                         PyInt (Z.of_nat (length (sorted_lines (lines page_data)))));
                                        (KStr "format", PyStr "lines.json") ] |}))
                        <$> pages)) as ->.
      { unfold encode. f_equal. clear. induction pages as [|pd pages IH]; [done|].
        cbn. by rewrite IH. }
      rewrite has_meaningful_content_encode, existsb_fmap. f_equal.
      apply existsb_pointwise. intros pd. cbn.
      by rewrite selected_text_only_LATEX, page_text_lines_blank, negb_involutive,
        existsb_sorted_lines.
Qed.

Lemma sorted_lines_perm ls : sorted_lines ls ≡ₚ ls.
Proof.
  unfold sorted_lines. induction ls as [|l ls IH]; [done|].
  cbn [foldr]. by rewrite insert_line_perm, IH.
Qed.

Lemma sorted_lines_sorted ls :
  StronglySorted (λ a b, line_key a ≤ line_key b) (sorted_lines ls).
Proof.
  unfold sorted_lines. induction ls as [|l ls IH]; cbn [foldr]; [constructor|].
  by apply insert_line_sorted.
Qed.

Lemma page_text_lines_length ls :
  length (page_text_lines ls) = length (filter (λ l, line_has_text l = true) ls).
Proof.
  induction ls as [|l ls IH]; [done|].
  cbn [page_text_lines]. rewrite truthy_strip, filter_cons.
  destruct (decide (line_has_text l = true)) as [Ht|Hf].
  - unfold line_has_text in Ht. rewrite Ht. cbn. by rewrite IH.
  - apply not_true_is_false in Hf. unfold line_has_text in Hf. by rewrite Hf.
Qed.

Lemma page_text_lines_not_blank ls : Forall (λ t, blank t = false) (page_text_lines ls).
Proof.
  induction ls as [|l ls IH]; cbn [page_text_lines]; [done|]. rewrite truthy_strip.
  destruct (blank (default "" (text_display l))) eqn:B; cbn [negb]; [done|].
  constructor; [by rewrite blank_strip|done].
Qed.

(** X26.  The text Mathpix's [get_result] stores for a page lists the
    lines of the reply in ascending line number, whatever order the
    reply has them in; a line without a number counts as line 0.  A line
    whose text is missing, empty or white space is left out, the others
    lose the white space around them, and [total_lines] counts every
    line of the reply. *)
Theorem mathpix_lines_in_order (job_id : PyVal) (page_data : MathpixPage) :
  ∃ sorted,
    sorted ≡ₚ lines page_data
    ∧ StronglySorted (λ a b, line_key a ≤ line_key b) sorted
    ∧ Forall (λ t, blank t = false) (page_text_lines sorted)
    ∧ length (page_text_lines sorted) = length (filter (λ l, line_has_text l = true) sorted)
    ∧ py_getitem (mathpix_page job_id page_data) "content"
      = Ok (PyDict [(KStr "LATEX", PyStr (join newline (page_text_lines sorted)))])
    ∧ (metadata ← py_getitem (mathpix_page job_id page_data) "metadata";
       py_getitem metadata "total_lines")
      = Ok (PyInt (Z.of_nat (length (lines page_data)))).
Proof.
  exists (sorted_lines (lines page_data)).
  split; [apply sorted_lines_perm|]. split; [apply sorted_lines_sorted|].
  split; [apply page_text_lines_not_blank|]. split; [apply page_text_lines_length|].
  split; [done|]. cbn. by rewrite (Permutation_length (sorted_lines_perm _)).
Qed.

(** * Further properties of the callers *)

Section StartTasksFacts.

Context (fails : nat → option exn) (uuid4 : nat → string).

Lemma do_call_Ok c s s' : do_call fails c s = (Ok tt, s') → s' = (s ++ [c])%list.
Proof. unfold do_call. destruct (fails (length s)); [done|]. by intros [= <-]. Qed.

Lemma Calls_bind_Ok {A B} (m : Calls A) (k : A → Calls B) s b s' :
  (m ≫= k) s = (Ok b, s') → ∃ a s1, m s = (Ok a, s1) ∧ k a s1 = (Ok b, s').
Proof.
  unfold mbind, Calls_bind. destruct (m s) as [[a|e] s1]; [|done].
  intros H. by exists a, s1.
Qed.

Lemma filter_DbAdd_snoc s job_uuid job :
  length (filter is_DbAdd (s ++ [DbAdd job_uuid job])%list) = S (length (filter is_DbAdd s)).
Proof. rewrite filter_app, length_app. simpl. lia. Qed.

Lemma create_jobs_Ok document_uuid names s jobs s' :
  create_jobs fails uuid4 document_uuid names s = (Ok jobs, s') →
  jobs = imap (λ i name, (uuid4 (length (filter is_DbAdd s) + i)%nat, new_job document_uuid name))
              names
  ∧ s' = (s ++ ((λ job, DbAdd job.1 job.2) <$> jobs))%list.
Proof.
  revert s jobs s'. induction names as [|name names IH]; intros s jobs s'; cbn [create_jobs].
  - intros [= <- <-]. by rewrite app_nil_r.
  - intros H.
    apply Calls_bind_Ok in H as (job_uuid & s1 & [= <- <-] & H).
    apply Calls_bind_Ok in H as ([] & s2 & ->%do_call_Ok & H).
    apply Calls_bind_Ok in H as (rest & s3 & Hrest & [= <- <-]).
    apply IH in Hrest as [-> ->]. rewrite filter_DbAdd_snoc. split.
    + cbn [imap]. rewrite Nat.add_0_r. f_equal. apply imap_ext. intros i x _. cbn.
      do 2 f_equal. lia.
    + cbn [fmap list_fmap fst snd]. by rewrite <- app_assoc.
Qed.

Lemma delay_jobs_Ok document_uuid file_path jobs s s' :
  delay_jobs fails document_uuid file_path jobs s = (Ok tt, s') →
  s' = (s ++ ((λ job, Delay (first_message job.1 document_uuid file_path (extractor job.2)))
                <$> jobs))%list.
Proof.
  revert s. induction jobs as [|[job_uuid job] jobs IH]; intros s; cbn [delay_jobs].
  - intros [= <-]. by rewrite app_nil_r.
  - intros H. apply Calls_bind_Ok in H as ([] & s1 & ->%do_call_Ok & H).
    apply IH in H as ->. cbn [fmap list_fmap fst snd]. by rewrite <- app_assoc.
Qed.

Lemma filter_DbAdd_calls_for c doc selected s :
  length (filter is_DbAdd (s ++ calls_for uuid4 c doc selected)%list)
  = (length (filter is_DbAdd s) + length (file_extractors (di_file_type doc) selected))%nat.
Proof.
  unfold calls_for, jobs_for. rewrite !filter_app, !length_app. cbn [filter length].
  set (names := file_extractors _ _).
  assert (∀ (l : list (string * DocumentExtractionJob)),
            length (filter is_DbAdd ((λ job, DbAdd job.1 job.2) <$> l)) = length l) as Hadd.
  { induction l as [|a l IH]; [done|].
    rewrite fmap_cons, filter_cons_True by done. cbn [length]. by rewrite IH. }
  assert (∀ d p (l : list (string * DocumentExtractionJob)),
            length (filter is_DbAdd
                      ((λ job, Delay (first_message job.1 d p (extractor job.2))) <$> l)) = 0%nat)
    as Hdel.
  { intros d p. induction l as [|a l IH]; [done|].
    by rewrite fmap_cons, filter_cons_False by (by intros ?). }
  rewrite Hadd, Hdel, length_imap, filter_cons_False by (by intros ?). cbn. lia.
Qed.

Lemma start_tasks_Ok docs selected s s' :
  start_background_tasks_for_documents fails uuid4 docs selected s = (Ok tt, s') →
  s' = (s ++ calls_for_all uuid4 (length (filter is_DbAdd s)) docs selected)%list.
Proof.
  revert s. induction docs as [|doc docs IH]; intros s;
    cbn [start_background_tasks_for_documents calls_for_all].
  - intros [= <-]. by rewrite app_nil_r.
  - intros H.
    apply Calls_bind_Ok in H as (jobs & s1 & Hjobs & H).
    apply create_jobs_Ok in Hjobs as [Hj ->].
    apply Calls_bind_Ok in H as ([] & s2 & ->%do_call_Ok & H).
    apply Calls_bind_Ok in H as ([] & s3 & ->%delay_jobs_Ok & H).
    apply IH in H as ->.
    assert ((((s ++ ((λ job, DbAdd job.1 job.2) <$> jobs)) ++ [RegisterTasks (di_uuid doc) jobs.*1])
             ++ ((λ job, Delay (first_message job.1 (di_uuid doc) (di_file_path doc)
                                  (extractor job.2))) <$> jobs))%list
            = (s ++ calls_for uuid4 (length (filter is_DbAdd s)) doc selected)%list) as ->.
    { unfold calls_for, jobs_for. rewrite <- Hj. by rewrite <- !app_assoc. }
    rewrite filter_DbAdd_calls_for. by rewrite <- app_assoc.
Qed.

End StartTasksFacts.

Lemma start_tasks_no_failure uuid4 docs selected s :
  (start_background_tasks_for_documents (λ _, None) uuid4 docs selected s).1 = Ok tt.
Proof.
  assert (∀ d names s, ∃ jobs s',
            create_jobs (λ _, None) uuid4 d names s = (Ok jobs, s')) as Hcreate.
  { intros d names. induction names as [|name names IH]; intros s0; cbn; [eauto|].
    unfold mbind, Calls_bind, do_call. cbn.
    destruct (IH (s0 ++ [DbAdd (uuid4 (length (filter is_DbAdd s0))) (new_job d name)])%list)
      as (jobs & s' & ->). cbn. eauto. }
  assert (∀ d p jobs s, ∃ s', delay_jobs (λ _, None) d p jobs s = (Ok tt, s')) as Hdelay.
  { intros d p jobs. induction jobs as [|[u job] jobs IH]; intros s0; cbn; [eauto|].
    unfold mbind, Calls_bind, do_call. cbn. apply IH. }
  revert s. induction docs as [|doc docs IH]; intros s; [done|].
  cbn [start_background_tasks_for_documents]. unfold mbind, Calls_bind.
  destruct (Hcreate (di_uuid doc) (file_extractors (di_file_type doc) selected) s)
    as (jobs & s1 & ->).
  unfold do_call at 1. cbn.
  destruct (Hdelay (di_uuid doc) (di_file_path doc) jobs
              (s1 ++ [RegisterTasks (di_uuid doc) jobs.*1])%list) as (s2 & ->).
  apply IH.
Qed.

Lemma delayed_app l1 l2 : delayed (l1 ++ l2) = (delayed l1 ++ delayed l2)%list.
Proof. apply omap_app. Qed.

Lemma delayed_adds (jobs : list (string * DocumentExtractionJob)) :
  delayed ((λ job, DbAdd job.1 job.2) <$> jobs) = [].
Proof. induction jobs as [|job jobs IH]; [done|]. by rewrite fmap_cons. Qed.

Lemma delayed_delays (f : string * DocumentExtractionJob → TaskMessage) jobs :
  delayed ((λ job, Delay (f job)) <$> jobs) = f <$> jobs.
Proof.
  induction jobs as [|job jobs IH]; [done|]. rewrite !fmap_cons.
  change (delayed (Delay (f job) :: ?l)) with (f job :: delayed l). by rewrite IH.
Qed.

Lemma delayed_calls_for uuid4 c doc selected :
  delayed (calls_for uuid4 c doc selected)
  = (λ job : string * DocumentExtractionJob,
       first_message job.1 (di_uuid doc) (di_file_path doc) (extractor job.2))
    <$> jobs_for uuid4 c doc selected.
Proof.
  unfold calls_for. rewrite !delayed_app, delayed_adds.
  by rewrite (delayed_delays (λ job, first_message job.1 (di_uuid doc) (di_file_path doc)
                                       (extractor job.2))).
Qed.

Lemma jobs_for_extractors uuid4 c doc selected :
  (λ job : string * DocumentExtractionJob, extractor job.2) <$> jobs_for uuid4 c doc selected
  = file_extractors (di_file_type doc) selected.
Proof.
  unfold jobs_for. generalize (file_extractors (di_file_type doc) selected). intros names.
  revert c. induction names as [|name names IH]; intros c; [done|].
  cbn [imap fmap list_fmap]. f_equal.
  rewrite <- (IH (S c)) at 2. f_equal. apply imap_ext. intros i x _. cbn. do 2 f_equal. lia.
Qed.

Lemma calls_for_all_triples uuid4 c docs selected :
  (λ m, (tm_document_uuid m, tm_file_path m, tm_extractor_type m))
    <$> delayed (calls_for_all uuid4 c docs selected)
  = (docs ≫= λ doc, (λ x, (di_uuid doc, di_file_path doc, x))
                      <$> file_extractors (di_file_type doc) selected).
Proof.
  revert c. induction docs as [|doc docs IH]; intros c; [done|].
  cbn [calls_for_all]. rewrite delayed_app, fmap_app, IH, delayed_calls_for.
  rewrite bind_cons. f_equal.
  by rewrite <- (jobs_for_extractors uuid4 c doc selected), <- !list_fmap_compose.
Qed.

Lemma calls_for_all_jobs uuid4 c docs selected :
  Forall (λ m, tm_retries m = 0%nat ∧ tm_countdown m = 0
               ∧ DbAdd (tm_job_uuid m) (new_job (tm_document_uuid m) (tm_extractor_type m))
                 ∈ calls_for_all uuid4 c docs selected)
         (delayed (calls_for_all uuid4 c docs selected)).
Proof.
  revert c. induction docs as [|doc docs IH]; intros c; [constructor|].
  cbn [calls_for_all]. rewrite delayed_app. apply Forall_app. split.
  - rewrite delayed_calls_for. apply Forall_fmap, Forall_forall. intros [u job] Hin.
    cbn. split; [done|]. split; [done|].
    apply elem_of_app. left. unfold calls_for. apply elem_of_app. left.
    apply list_elem_of_fmap. exists (u, job). split; [|done]. cbn. f_equal.
    unfold jobs_for in Hin. apply elem_of_lookup_imap in Hin as (i & x & [= -> ->] & _).
    done.
  - eapply Forall_impl; [apply IH|]. intros m (? & ? & Hin). cbn in *.
    repeat split; try done. apply elem_of_app. by right.
Qed.

Lemma file_extractors_elem x file_type selected :
  x ∈ file_extractors file_type selected →
  (x ∈ PDFExtractorType ∨ x ∈ ImageExtractorType) ∧ (selected ≠ [] → x ∈ selected).
Proof.
  unfold file_extractors. intros Hin. split.
  - destruct selected as [|y ys].
    + destruct (String.eqb _ _); auto.
    + apply list_elem_of_filter in Hin as [Hin _]. destruct (String.eqb _ _); auto.
  - intros Hsel. destruct selected as [|y ys]; [done|].
    by apply list_elem_of_filter in Hin as [_ Hin].
Qed.

(** X27.  [start_background_tasks_for_documents], when none of its calls
    raises (and only then it returns), makes for each document in turn:
    one [db.add] of a NOT_STARTED job per extractor, one registration of
    those jobs, then one queued task per job, carrying the job's uuid,
    the document's uuid and path and the job's extractor, as a first run.
    The extractors of a document are those of its file type, narrowed to
    the selection when there is one. *)
Theorem start_tasks_calls fails uuid4 (docs : list DocInfo) (selected : list string) s' :
  start_background_tasks_for_documents fails uuid4 docs selected [] = (Ok tt, s') →
  s' = calls_for_all uuid4 0 docs selected
  ∧ (λ m, (tm_document_uuid m, tm_file_path m, tm_extractor_type m)) <$> delayed s'
    = (docs ≫= λ doc, (λ x, (di_uuid doc, di_file_path doc, x))
                        <$> file_extractors (di_file_type doc) selected)
  ∧ Forall (λ m, tm_retries m = 0%nat ∧ tm_countdown m = 0
                 ∧ DbAdd (tm_job_uuid m) (new_job (tm_document_uuid m) (tm_extractor_type m)) ∈ s')
           (delayed s')
  ∧ (∀ x, x ∈ tm_extractor_type <$> delayed s' →
       (x ∈ PDFExtractorType ∨ x ∈ ImageExtractorType) ∧ (selected ≠ [] → x ∈ selected))
  ∧ (start_background_tasks_for_documents (λ _, None) uuid4 docs selected []).1 = Ok tt.
Proof.
  intros H. apply start_tasks_Ok in H.
  change (s' = calls_for_all uuid4 0 docs selected) in H. subst s'.
  split; [done|]. split; [apply calls_for_all_triples|]. split; [apply calls_for_all_jobs|].
  split; [|apply start_tasks_no_failure].
  intros x Hx.
  pose proof (calls_for_all_triples uuid4 0 docs selected) as Ht.
  apply (f_equal (fmap (λ t : string * string * string, t.2))) in Ht.
  rewrite <- list_fmap_compose in Ht.
  rewrite (list_fmap_ext _ tm_extractor_type (delayed _)) in Ht by done.
  rewrite Ht in Hx. apply list_elem_of_fmap in Hx as ([[u p] y] & -> & Hin).
  apply list_elem_of_bind in Hin as (doc & Hin & _).
  apply list_elem_of_fmap in Hin as (z & [= _ _ ->] & Hin).
  by apply file_extractors_elem in Hin.
Qed.

(** A PDF and a scan uploaded with a selection of two extractors. *)
Lemma start_tasks_calls_witness :
  let docs := [ {| di_uuid := "d1"; di_file_type := "pdf"; di_file_path := "uploads/d1_a.pdf" |};
                {| di_uuid := "d2"; di_file_type := "image"; di_file_path := "uploads/d2_b.png" |} ] in
  let s' := (start_background_tasks_for_documents (λ _, None) (λ n, String (ascii_of_nat (97 + n)) "")
               docs ["PyPDF2"; "Tesseract"] []).2 in
  (λ m, (tm_document_uuid m, tm_file_path m, tm_extractor_type m)) <$> delayed s'
  = [ ("d1", "uploads/d1_a.pdf", "PyPDF2"); ("d1", "uploads/d1_a.pdf", "Tesseract");
      ("d2", "uploads/d2_b.png", "Tesseract") ].
Proof.
  intros docs s'.
  apply (start_tasks_calls (λ _, None) (λ n, String (ascii_of_nat (97 + n)) "") docs
           ["PyPDF2"; "Tesseract"] s').
  by vm_compute.
Defined.

(** X28.  Three of the extractor types offered for a PDF have no reader:
    "Camelot", "Tabula" and "Unstructured" are values of
    [PDFExtractorType] without an entry in [READER_MAP].  A PDF uploaded
    with no selection is given a job for each of them, and each such job
    fails in [get_reader] with [ValueError], an error the executor
    retries.  Every extractor type offered for an image has a reader.
    A selection that names no extractor of the document's file type
    leaves the document without any job. *)
Theorem unregistered_extractor_types :
  (∀ x, x ∈ PDFExtractorType →
     (READER_MAP !! x = None ↔ x ∈ ["Camelot"; "Tabula"; "Unstructured"]))
  ∧ (∀ x, x ∈ ImageExtractorType → is_Some (READER_MAP !! x))
  ∧ (∀ x, x ∈ ["Camelot"; "Tabula"; "Unstructured"] →
       x ∈ file_extractors "pdf" []
       ∧ (∀ clients, get_reader clients x
                     = Raise (Exc ValueError ("Unknown extractor type: " ++ x)))
       ∧ is_infrastructure_error (Exc ValueError ("Unknown extractor type: " ++ x)) = false)
  ∧ (∀ file_type selected,
       (∀ x, x ∈ selected → (x ∉ PDFExtractorType) ∧ (x ∉ ImageExtractorType)) →
       selected ≠ [] → file_extractors file_type selected = []).
Proof.
  split; [|split; [|split]].
  - intros x Hx. unfold PDFExtractorType in Hx. rewrite !elem_of_cons in Hx.
    repeat (destruct Hx as [->|Hx];
            [split; intros H;
             first [by vm_compute in H | by vm_compute
                   | by (rewrite !elem_of_cons; auto 10)
                   | (exfalso; rewrite !elem_of_cons in H;
                      repeat (destruct H as [H|H]; [discriminate H|]); by apply elem_of_nil in H)]|]).
    by apply elem_of_nil in Hx.
  - intros x Hx. unfold ImageExtractorType in Hx. rewrite !elem_of_cons in Hx.
    repeat (destruct Hx as [->|Hx]; [eexists; vm_compute; reflexivity|]).
    by apply elem_of_nil in Hx.
  - intros x Hx. rewrite !elem_of_cons in Hx.
    repeat (destruct Hx as [->|Hx];
            [split; [|split]; [unfold file_extractors, PDFExtractorType; cbn;
                               rewrite !elem_of_cons; auto 20|by intros cl|done]|]).
    by apply elem_of_nil in Hx.
  - intros file_type selected Hnone Hne. unfold file_extractors.
    destruct selected as [|y ys]; [done|]. clear Hne. revert Hnone.
    generalize (y :: ys). intros l Hnone.
    induction l as [|x l IH]; [done|].
    rewrite filter_cons_False.
    + apply IH. intros z Hz. apply Hnone. by right.
    + destruct (Hnone x ltac:(by left)) as [H1 H2]. by destruct (String.eqb file_type "pdf").
Qed.

(** ** The retry endpoint *)

Lemma one_or_404_Fine {A} (row : option A) keep detail r :
  one_or_404 row keep detail = Fine r → row = Some r ∧ keep r = true.
Proof.
  unfold one_or_404. destruct row as [a|]; [|done]. destruct (keep a) eqn:E; [|done].
  by intros [= <-].
Qed.

Lemma soft_delete_pages_rows now job_uuid rows :
  length (soft_delete_pages now job_uuid rows) = length rows
  ∧ Forall2 (λ row row',
               uuid row' = uuid row ∧ extraction_job_uuid row' = extraction_job_uuid row
               ∧ content row' = content row
               ∧ deleted_at row' = (if String.eqb (extraction_job_uuid row) job_uuid
                                    then Some now else deleted_at row))
            rows (soft_delete_pages now job_uuid rows).
Proof.
  unfold soft_delete_pages. split; [apply length_map|].
  induction rows as [|row rows IH]; [constructor|]. cbn [map]. constructor; [|done].
  by destruct (String.eqb (extraction_job_uuid row) job_uuid).
Qed.


(** The retry endpoint at a job that an older version left as "Failed". *)
Example retry_accepts_old_failed_status :
  let r := retry_extraction_job (λ _, None) 2000000 7 "p1" "d1" "j1" example_database in
  job_status <$> job_rows example_database !! "j1" = Some "Failed"
  ∧ r.1.1 = Returned (PyDict [ (KStr "message", PyStr "Extraction job retry initiated");
                               (KStr "job_uuid", PyStr "j1");
                               (KStr "status", PyStr "NOT_STARTED") ])
  ∧ job_status <$> job_rows r.1.2 !! "j1" = Some "Not Started"
  ∧ deleted_at <$> page_content_rows r.1.2 = [Some 2000000; None]
  ∧ r.2 = [first_message "j1" "d1" "uploads/d1_a.pdf" "PyPDF2"].
Proof. by vm_compute. Qed.


(** * The price list and the registry *)

(** X30.  The price list and the registry do not name the same
    extractors.  Of the registered identifiers, "PyPDF2", "MarkItDown",
    "LlamaParse" and "Mathpix" have no rate of their own and are charged
    the default rate, so a PyPDF2 job costs 0.001 a page; the list's
    free "PyPDF" and "Camelot" are identifiers no reader is registered
    for. *)
Theorem price_list_and_registry :
  (∀ x, is_Some (READER_MAP !! x) →
     (cost_per_page !! x = None ↔ x ∈ ["PyPDF2"; "MarkItDown"; "LlamaParse"; "Mathpix"]))
  ∧ (∀ x page_count, x ∈ ["PyPDF2"; "MarkItDown"; "LlamaParse"; "Mathpix"] →
       calculate_extraction_cost x page_count
       = py_round (0.001%float * Z_to_float page_count) 4)
  ∧ calculate_extraction_cost "PyPDF2" 1 = 0.001%float
  ∧ (∀ x, is_Some (cost_per_page !! x) ∧ READER_MAP !! x = None ↔ x ∈ ["PyPDF"; "Camelot"]).
Proof.
  split; [|split; [|split]].
  - intros x Hx. apply READER_MAP_dom in Hx. rewrite !elem_of_cons in Hx.
    repeat (destruct Hx as [->|Hx];
            [split; intros H;
             first [by vm_compute in H | by vm_compute
                   | by (rewrite !elem_of_cons; auto 10)
                   | (exfalso; rewrite !elem_of_cons in H;
                      repeat (destruct H as [H|H]; [discriminate H|]); by apply elem_of_nil in H)]|]).
    by apply elem_of_nil in Hx.
  - intros x page_count Hx. rewrite !elem_of_cons in Hx.
    repeat (destruct Hx as [->|Hx]; [done|]). by apply elem_of_nil in Hx.
  - by vm_compute.
  - intros x. split.
    + intros [Hc Hr].
      destruct (decide (x ∈ priced)) as [Hin|Hout].
      * unfold priced in Hin. rewrite !elem_of_cons in Hin.
        repeat (destruct Hin as [->|Hin];
                [first [by vm_compute in Hr | by (rewrite !elem_of_cons; auto)]|]).
        by apply elem_of_nil in Hin.
      * destruct (unpriced_rates _ Hout) as [Hnone _]. rewrite Hnone in Hc. by destruct Hc.
    + rewrite !elem_of_cons. intros [->|[->|H]]; [| |by apply elem_of_nil in H];
        (split; [eexists; vm_compute; reflexivity|by vm_compute]).
Qed.
